(** * Greybus protocol adapters (HID, SDIO, USB host) of greybus-zephyr

    A shallow embedding of the operation handlers of
    [subsys/greybus/sdio.c], [subsys/greybus/hid.c] and
    [subsys/greybus/usb.c], and the properties of the handlers that the
    specification states.

    Conventions of the embedding.
    - C integers are [Z]; conversions to a fixed-width unsigned type are
      written out with [uint8_t], [uint16_t], [uint32_t].
    - A handler is a function from the adapter's world (its private state
      plus the history of calls made into the host driver) and the
      operation to an [outcome]: the status byte it returns, the world
      it leaves, and the response buffer it allocated (if any).
    - The host driver is an external collaborator.  It is modelled as a
      deterministic function of the calls it has already received, so it
      may carry any private state of its own; every call a handler makes
      is appended to the history, which is how "the driver is not
      invoked" is stated. *)

From Stdlib Require Import ZArith List Bool Lia.
Import ListNotations.
Local Open Scope Z_scope.

(** ** Greybus core: result codes, operations, responses *)

(** [enum gb_operation_result] of the Greybus core.  The handlers name
    [GB_OP_SUCCESS], [GB_OP_NO_MEMORY], [GB_OP_INVALID] and
    [GB_OP_UNKNOWN_ERROR]; the others can come out of
    [gb_errno_to_op_result]. *)
Inductive gb_op_result : Set :=
| GB_OP_SUCCESS
| GB_OP_INTERRUPTED
| GB_OP_TIMEOUT
| GB_OP_NO_MEMORY
| GB_OP_PROTOCOL_BAD
| GB_OP_OVERFLOW
| GB_OP_INVALID
| GB_OP_RETRY
| GB_OP_NONEXISTENT
| GB_OP_UNKNOWN_ERROR
| GB_OP_INTERNAL.

Definition uint8_t (v : Z) : Z := v mod 2 ^ 8.
Definition uint16_t (v : Z) : Z := v mod 2 ^ 16.
Definition uint32_t (v : Z) : Z := v mod 2 ^ 32.

(** Wire fields are little-endian; as numbers the conversions only fix
    the width. *)
Definition sys_le16_to_cpu (v : Z) : Z := uint16_t v.
Definition sys_le32_to_cpu (v : Z) : Z := uint32_t v.
Definition sys_cpu_to_le16 (v : Z) : Z := uint16_t v.
Definition sys_cpu_to_le32 (v : Z) : Z := uint32_t v.

(** errno values of Zephyr's [errno.h] used by the adapters (negated at
    the use sites). *)
Definition ENOMEM : Z := 12.
Definition ENODEV : Z := 19.
Definition EINVAL : Z := 22.
Definition ENOTSUP : Z := 134.

(** What the handlers take from headers that are not part of this tree:
    the errno translation of the core, the payload budget of a channel,
    the sizes of the wire structures of [greybus_protocols.h] and the
    flag and enumeration values of the SDIO protocol. *)
Class greybus_headers : Type := {
  gb_errno_to_op_result : Z -> gb_op_result;
  GB_MAX_PAYLOAD_SIZE : Z;
  (* sizeof(struct ...) *)
  sizeof_gb_sdio_proto_version_response : Z;
  sizeof_gb_sdio_get_caps_response : Z;
  sizeof_gb_sdio_set_ios_request : Z;
  sizeof_gb_sdio_command_request : Z;
  sizeof_gb_sdio_command_response : Z;
  sizeof_gb_sdio_transfer_request : Z;
  sizeof_gb_sdio_transfer_response : Z;
  sizeof_gb_hid_proto_version_response : Z;
  sizeof_gb_hid_desc_response : Z;
  sizeof_gb_hid_get_report_request : Z;
  sizeof_gb_hid_set_report_request : Z;
  sizeof_gb_usb_proto_version_response : Z;
  sizeof_gb_usb_hub_control_request : Z;
  sizeof_gb_usb_hub_control_response : Z;
  (* SDIO capability bits *)
  GB_SDIO_CAP_4_BIT_DATA : Z;
  GB_SDIO_CAP_8_BIT_DATA : Z;
  GB_SDIO_CAP_SD_HS : Z;
  GB_SDIO_CAP_MMC_HS : Z;
  GB_SDIO_CAP_HS200_1_2V : Z;
  (* SDIO command and data flags *)
  GB_SDIO_RSP_PRESENT : Z;
  GB_SDIO_RSP_136 : Z;
  GB_SDIO_RSP_BUSY : Z;
  GB_SDIO_DATA_WRITE : Z;
  GB_SDIO_DATA_READ : Z;
  (* SDIO set_ios enumerations *)
  GB_SDIO_BUSMODE_OPENDRAIN : Z;
  GB_SDIO_BUSMODE_PUSHPULL : Z;
  GB_SDIO_POWER_OFF : Z;
  GB_SDIO_POWER_UP : Z;
  GB_SDIO_POWER_ON : Z;
  GB_SDIO_BUS_WIDTH_1 : Z;
  GB_SDIO_BUS_WIDTH_4 : Z;
  GB_SDIO_BUS_WIDTH_8 : Z;
  GB_SDIO_TIMING_LEGACY : Z;
  GB_SDIO_TIMING_SD_HS : Z;
  GB_SDIO_TIMING_MMC_HS : Z;
  GB_SDIO_SIGNAL_VOLTAGE_330 : Z;
  GB_SDIO_SIGNAL_VOLTAGE_180 : Z;
  GB_SDIO_SIGNAL_VOLTAGE_120 : Z;
  (* protocol versions of the USB adapter *)
  GB_USB_VERSION_MAJOR : Z;
  GB_USB_VERSION_MINOR : Z
}.

(** An inbound operation as a handler sees it: the request payload
    through the handler's request structure, the payload size, and
    whether [gb_operation_alloc_response] finds memory for a response of
    a given size (the allocator belongs to the core). *)
Record gb_operation (Req : Type) : Type := {
  request_payload : Req;
  request_payload_size : Z;
  alloc_ok : Z -> bool
}.
Arguments request_payload {Req} _.
Arguments request_payload_size {Req} _.
Arguments alloc_ok {Req} _ _.

(** A response buffer: its allocated size, and the structure the handler
    wrote into it ([None] while the handler has not filled it). *)
Record gb_response (R : Type) : Type := {
  response_size : Z;
  response_payload : option R
}.
Arguments response_size {R} _.
Arguments response_payload {R} _.

(** [gb_operation_alloc_response]: [None] is the null pointer. *)
Definition gb_operation_alloc_response {Req} (operation : gb_operation Req)
    (size : Z) : option Z :=
  if alloc_ok operation size then Some size else None.

Record outcome (W R : Type) : Type := {
  status : gb_op_result;
  world : W;
  op_response : option (gb_response R)
}.
Arguments status {W R} _.
Arguments world {W R} _.
Arguments op_response {W R} _.

Definition ret {W R} (s : gb_op_result) (w : W)
    (r : option (gb_response R)) : outcome W R :=
  {| status := s; world := w; op_response := r |}.

(** A response that was allocated and not written. *)
Definition unfilled {R} (size : Z) : option (gb_response R) :=
  Some {| response_size := size; response_payload := None |}.

Definition filled {R} (size : Z) (r : R) : option (gb_response R) :=
  Some {| response_size := size; response_payload := Some r |}.

(** The member [data[]] (or [report[]]) that ends a request structure
    is an array: as a pointer it is never null. *)
Definition array_is_null {A} (a : list A) : bool := false.

(** ** SDIO adapter: [subsys/greybus/sdio.c] *)

Module Sdio.

Definition GB_SDIO_VERSION_MAJOR : Z := 0.
Definition GB_SDIO_VERSION_MINOR : Z := 1.

Definition MAX_BLOCK_SIZE_0 : Z := 512.
Definition MAX_BLOCK_SIZE_1 : Z := 1024.
Definition MAX_BLOCK_SIZE_2 : Z := 2048.

(** *** The host side (Zephyr's [sdhc.h]) *)

Inductive sd_rsp_type : Set :=
| SD_RSP_TYPE_NONE | SD_RSP_TYPE_R1 | SD_RSP_TYPE_R1b | SD_RSP_TYPE_R2.

Inductive sdhc_bus_mode : Set := SDHC_BUSMODE_OPENDRAIN | SDHC_BUSMODE_PUSHPULL.
Inductive sdhc_power : Set := SDHC_POWER_OFF | SDHC_POWER_ON.
Inductive sdhc_bus_width : Set :=
| SDHC_BUS_WIDTH1BIT | SDHC_BUS_WIDTH4BIT | SDHC_BUS_WIDTH8BIT.
Inductive sdhc_timing_mode : Set := SDHC_TIMING_LEGACY | SDHC_TIMING_HS.
Inductive sd_voltage : Set := SD_VOL_3_3_V | SD_VOL_1_8_V | SD_VOL_1_2_V.

(** [struct sdhc_command], the members the adapter touches. *)
Record sdhc_command : Set := {
  opcode : Z;
  arg : Z;
  response : list Z;          (* uint32_t response[4] *)
  response_type : sd_rsp_type
}.

(** Where [sdhc_data.data] points: into the request (bytes to write) or
    into the trailing region of the response (room to read into). *)
Inductive data_buffer : Set :=
| Request_data (bytes : list Z)
| Response_data (capacity : Z).

Record sdhc_data : Set := {
  block_size : Z;
  blocks : Z;
  bytes_transferred : Z;
  data : data_buffer
}.

Record sdhc_io : Set := {
  clock : Z;
  bus_mode : sdhc_bus_mode;
  power_mode : sdhc_power;
  bus_width : sdhc_bus_width;
  timing : sdhc_timing_mode;
  signal_voltage : sd_voltage
}.

(** [struct sdhc_host_props], the members the adapter reads. *)
Record sdhc_host_props : Set := {
  f_max : Z;
  f_min : Z;
  bus_4_bit_support : bool;
  bus_8_bit_support : bool;
  high_speed_support : bool;
  vol_330_support : bool
}.

(** The calls of the SDHC driver API, with their arguments. *)
Inductive sdhc_call : Set :=
| Call_get_host_props
| Call_set_io (ios : sdhc_io)
| Call_request (cmd : sdhc_command) (dat : option sdhc_data).

(** The driver behind [info->sdhc_dev].  Each entry gets the calls made
    so far.  [drv_request] returns the errno, the command as the driver
    left it (it writes [response]) and the bytes it put in the data
    buffer. *)
Record sdhc_driver : Type := {
  drv_get_host_props : list sdhc_call -> Z * sdhc_host_props;
  drv_set_io : list sdhc_call -> sdhc_io -> Z;
  drv_request : list sdhc_call -> sdhc_command -> option sdhc_data ->
                Z * sdhc_command * list Z
}.

(** The driver's errno for a [request] made on history [l], and the
    command as that call leaves it. *)
Definition request_errno (drv : sdhc_driver) (l : list sdhc_call)
    (c : sdhc_command) (d : option sdhc_data) : Z :=
  fst (fst (drv_request drv l c d)).

Definition request_command (drv : sdhc_driver) (l : list sdhc_call)
    (c : sdhc_command) (d : option sdhc_data) : sdhc_command :=
  snd (fst (drv_request drv l c d)).

(** *** Adapter state *)

Record gb_sdio_info : Type := {
  cport : Z;
  sdhc_dev : sdhc_driver;
  deferred_cmd : sdhc_command;
  has_deferred_cmd : bool
}.

Definition set_deferred_cmd (c : sdhc_command) (i : gb_sdio_info) :=
  {| cport := cport i; sdhc_dev := sdhc_dev i;
     deferred_cmd := c; has_deferred_cmd := has_deferred_cmd i |}.

Definition set_has_deferred_cmd (b : bool) (i : gb_sdio_info) :=
  {| cport := cport i; sdhc_dev := sdhc_dev i;
     deferred_cmd := deferred_cmd i; has_deferred_cmd := b |}.

(** The world of an SDIO bundle whose [init] has run: [bundle->priv] and
    the calls the driver has received.  (The handlers dereference
    [bundle->priv] unguarded.) *)
Record sdio_world : Type := {
  info : gb_sdio_info;
  calls : list sdhc_call
}.

Definition with_info (i : gb_sdio_info) (w : sdio_world) :=
  {| info := i; calls := calls w |}.

Definition logged (c : sdhc_call) (w : sdio_world) :=
  {| info := info w; calls := calls w ++ [c] |}.

(** *** Wire structures *)

Record gb_sdio_proto_version_response : Set := {
  major : Z;
  minor : Z
}.

Record gb_sdio_get_caps_response : Set := {
  caps : Z;
  ocr : Z;
  rsp_f_min : Z;
  rsp_f_max : Z;
  max_blk_count : Z;
  max_blk_size : Z
}.

Record gb_sdio_set_ios_request : Set := {
  req_clock : Z;
  req_bus_mode : Z;
  req_power_mode : Z;
  req_bus_width : Z;
  req_timing : Z;
  req_signal_voltage : Z
}.

Record gb_sdio_command_request : Set := {
  cmd : Z;
  cmd_flags : Z;
  cmd_arg : Z;
  cmd_data_blocks : Z
}.

Record gb_sdio_command_response : Set := {
  resp : list Z                (* __le32 resp[4] *)
}.

Record gb_sdio_transfer_request : Set := {
  data_flags : Z;
  data_blocks : Z;
  data_blksz : Z;
  req_data : list Z            (* __u8 data[0] *)
}.

Record gb_sdio_transfer_response : Set := {
  rsp_data_blocks : Z;
  rsp_data_blksz : Z;
  rsp_data : list Z            (* __u8 data[0] *)
}.

Section Handlers.
Context {H : greybus_headers}.

Definition scale_max_sd_block_length (value : Z) : Z :=
  if value <? MAX_BLOCK_SIZE_0 then 0
  else if value <? MAX_BLOCK_SIZE_1 then MAX_BLOCK_SIZE_0
  else if value <? MAX_BLOCK_SIZE_2 then MAX_BLOCK_SIZE_1
  else MAX_BLOCK_SIZE_2.

Definition gb_sdio_protocol_version (w : sdio_world) (operation : gb_operation unit)
    : outcome sdio_world gb_sdio_proto_version_response :=
  match gb_operation_alloc_response operation sizeof_gb_sdio_proto_version_response with
  | None => ret GB_OP_NO_MEMORY w None
  | Some sz =>
      ret GB_OP_SUCCESS w
          (filled sz {| major := GB_SDIO_VERSION_MAJOR; minor := GB_SDIO_VERSION_MINOR |})
  end.

(** [caps |= bit] when the host supports the feature. *)
Definition or_if (b : bool) (bits : Z) (caps : Z) : Z :=
  if b then Z.lor caps bits else caps.

Definition gb_sdio_protocol_get_capabilities (w : sdio_world)
    (operation : gb_operation unit)
    : outcome sdio_world gb_sdio_get_caps_response :=
  let '(r, props) := drv_get_host_props (sdhc_dev (info w)) (calls w) in
  let w := logged Call_get_host_props w in
  if negb (r =? 0) then ret (gb_errno_to_op_result r) w None
  else
    match gb_operation_alloc_response operation sizeof_gb_sdio_get_caps_response with
    | None => ret GB_OP_NO_MEMORY w None
    | Some sz =>
        let max_data_size :=
          uint16_t (GB_MAX_PAYLOAD_SIZE - sizeof_gb_sdio_transfer_response) in
        let max_data_size := scale_max_sd_block_length max_data_size in
        if max_data_size =? 0 then ret GB_OP_INVALID w (unfilled sz)
        else
          let caps := 0 in
          let caps := or_if (bus_4_bit_support props) GB_SDIO_CAP_4_BIT_DATA caps in
          let caps := or_if (bus_8_bit_support props) GB_SDIO_CAP_8_BIT_DATA caps in
          let caps := or_if (high_speed_support props)
                            (Z.lor GB_SDIO_CAP_SD_HS GB_SDIO_CAP_MMC_HS) caps in
          let caps := or_if (vol_330_support props) GB_SDIO_CAP_HS200_1_2V caps in
          ret GB_OP_SUCCESS w
              (filled sz
                 {| caps := sys_cpu_to_le32 caps;
                    ocr := sys_cpu_to_le32 0x00FF8000;
                    rsp_f_min := sys_cpu_to_le32 (f_min props);
                    rsp_f_max := sys_cpu_to_le32 (f_max props);
                    max_blk_count := sys_cpu_to_le16 (max_data_size / 512);
                    max_blk_size := sys_cpu_to_le16 512 |})
    end.

Definition gb_sdio_protocol_set_ios (w : sdio_world)
    (operation : gb_operation gb_sdio_set_ios_request)
    : outcome sdio_world unit :=
  let request := request_payload operation in
  if request_payload_size operation <? sizeof_gb_sdio_set_ios_request
  then ret GB_OP_INVALID w None
  else
    let ios :=
      {| clock := sys_le32_to_cpu (req_clock request);
         bus_mode :=
           (let v := uint8_t (req_bus_mode request) in
            if v =? GB_SDIO_BUSMODE_OPENDRAIN then SDHC_BUSMODE_OPENDRAIN
            else if v =? GB_SDIO_BUSMODE_PUSHPULL then SDHC_BUSMODE_PUSHPULL
            else SDHC_BUSMODE_PUSHPULL);
         power_mode :=
           (let v := uint8_t (req_power_mode request) in
            if v =? GB_SDIO_POWER_OFF then SDHC_POWER_OFF
            else if v =? GB_SDIO_POWER_UP then SDHC_POWER_ON
            else if v =? GB_SDIO_POWER_ON then SDHC_POWER_ON
            else SDHC_POWER_OFF);
         bus_width :=
           (let v := uint8_t (req_bus_width request) in
            if v =? GB_SDIO_BUS_WIDTH_1 then SDHC_BUS_WIDTH1BIT
            else if v =? GB_SDIO_BUS_WIDTH_4 then SDHC_BUS_WIDTH4BIT
            else if v =? GB_SDIO_BUS_WIDTH_8 then SDHC_BUS_WIDTH8BIT
            else SDHC_BUS_WIDTH1BIT);
         timing :=
           (let v := uint8_t (req_timing request) in
            if v =? GB_SDIO_TIMING_LEGACY then SDHC_TIMING_LEGACY
            else if v =? GB_SDIO_TIMING_SD_HS then SDHC_TIMING_HS
            else if v =? GB_SDIO_TIMING_MMC_HS then SDHC_TIMING_HS
            else SDHC_TIMING_LEGACY);
         signal_voltage :=
           (let v := uint8_t (req_signal_voltage request) in
            if v =? GB_SDIO_SIGNAL_VOLTAGE_330 then SD_VOL_3_3_V
            else if v =? GB_SDIO_SIGNAL_VOLTAGE_180 then SD_VOL_1_8_V
            else if v =? GB_SDIO_SIGNAL_VOLTAGE_120 then SD_VOL_1_2_V
            else SD_VOL_3_3_V) |} in
    let r := drv_set_io (sdhc_dev (info w)) (calls w) ios in
    let w := logged (Call_set_io ios) w in
    if negb (r =? 0) then ret (gb_errno_to_op_result r) w None
    else ret GB_OP_SUCCESS w None.

(** The command the handler decodes from a request: [cmd = {0}], then
    opcode, argument and response type. *)
Definition decode_command (request : gb_sdio_command_request) : sdhc_command :=
  let flags := uint8_t (cmd_flags request) in
  {| opcode := uint8_t (cmd request);
     arg := sys_le32_to_cpu (cmd_arg request);
     response := [0; 0; 0; 0];
     response_type :=
       if negb (Z.land flags GB_SDIO_RSP_PRESENT =? 0) then
         if negb (Z.land flags GB_SDIO_RSP_136 =? 0) then SD_RSP_TYPE_R2
         else if negb (Z.land flags GB_SDIO_RSP_BUSY =? 0) then SD_RSP_TYPE_R1b
         else SD_RSP_TYPE_R1
       else SD_RSP_TYPE_NONE |}.

(** [response->resp[i] = sys_cpu_to_le32(cmd.response[i])] for i < 4. *)
Definition response_words (c : sdhc_command) : list Z :=
  map (fun i => sys_cpu_to_le32 (nth i (response c) 0)) [0%nat; 1%nat; 2%nat; 3%nat].

(** The synthesized answer of a deferred command: R1, ready for data. *)
Definition ready_for_data : list Z := [sys_cpu_to_le32 0x00000900; 0; 0; 0].

Definition gb_sdio_protocol_command (w : sdio_world)
    (operation : gb_operation gb_sdio_command_request)
    : outcome sdio_world gb_sdio_command_response :=
  let request := request_payload operation in
  if request_payload_size operation <? sizeof_gb_sdio_command_request
  then ret GB_OP_INVALID w None
  else
    let data_blocks := sys_le16_to_cpu (cmd_data_blocks request) in
    let cmd := decode_command request in
    if data_blocks >? 0 then
      (* Defer execution *)
      let w := with_info (set_has_deferred_cmd true (set_deferred_cmd cmd (info w))) w in
      match gb_operation_alloc_response operation sizeof_gb_sdio_command_response with
      | None => ret GB_OP_NO_MEMORY w None
      | Some sz => ret GB_OP_SUCCESS w (filled sz {| resp := ready_for_data |})
      end
    else
      (* Immediate Execution *)
      let '(r, cmd', _) := drv_request (sdhc_dev (info w)) (calls w) cmd None in
      let w := logged (Call_request cmd None) w in
      if negb (r =? 0) then ret (gb_errno_to_op_result r) w None
      else
        match gb_operation_alloc_response operation sizeof_gb_sdio_command_response with
        | None => ret GB_OP_NO_MEMORY w None
        | Some sz => ret GB_OP_SUCCESS w (filled sz {| resp := response_words cmd' |})
        end.

Definition gb_sdio_protocol_transfer (w : sdio_world)
    (operation : gb_operation gb_sdio_transfer_request)
    : outcome sdio_world gb_sdio_transfer_response :=
  let request := request_payload operation in
  if request_payload_size operation <? sizeof_gb_sdio_transfer_request
  then ret GB_OP_INVALID w None
  else
    let blocks := sys_le16_to_cpu (data_blocks request) in
    let blksz := sys_le16_to_cpu (data_blksz request) in
    if negb (has_deferred_cmd (info w)) then ret GB_OP_INVALID w None
    else
      let flags := uint8_t (data_flags request) in
      if negb (Z.land flags GB_SDIO_DATA_WRITE =? 0) then
        if array_is_null (req_data request) then ret GB_OP_INVALID w None
        else
          let data := {| block_size := blksz; blocks := blocks;
                         bytes_transferred := 0;
                         data := Request_data (req_data request) |} in
          let '(r, cmd', _) :=
            drv_request (sdhc_dev (info w)) (calls w)
                        (deferred_cmd (info w)) (Some data) in
          let w := logged (Call_request (deferred_cmd (info w)) (Some data))
                          (with_info (set_deferred_cmd cmd' (info w)) w) in
          if negb (r =? 0) then
            ret (gb_errno_to_op_result r)
                (with_info (set_has_deferred_cmd false (info w)) w) None
          else
            match gb_operation_alloc_response operation
                    sizeof_gb_sdio_transfer_response with
            | None => ret GB_OP_NO_MEMORY w None
            | Some sz =>
                ret GB_OP_SUCCESS
                    (with_info (set_has_deferred_cmd false (info w)) w)
                    (filled sz {| rsp_data_blocks := sys_cpu_to_le16 blocks;
                                  rsp_data_blksz := sys_cpu_to_le16 blksz;
                                  rsp_data := [] |})
            end
      else if negb (Z.land flags GB_SDIO_DATA_READ =? 0) then
        match gb_operation_alloc_response operation
                (sizeof_gb_sdio_transfer_response + blocks * blksz) with
        | None => ret GB_OP_NO_MEMORY w None
        | Some sz =>
            let data := {| block_size := blksz; blocks := blocks;
                           bytes_transferred := 0;
                           data := Response_data (blocks * blksz) |} in
            let '(r, cmd', bytes) :=
              drv_request (sdhc_dev (info w)) (calls w)
                          (deferred_cmd (info w)) (Some data) in
            let w := logged (Call_request (deferred_cmd (info w)) (Some data))
                            (with_info (set_deferred_cmd cmd' (info w)) w) in
            if negb (r =? 0) then
              ret (gb_errno_to_op_result r)
                  (with_info (set_has_deferred_cmd false (info w)) w)
                  (unfilled sz)
            else
              ret GB_OP_SUCCESS
                  (with_info (set_has_deferred_cmd false (info w)) w)
                  (filled sz {| rsp_data_blocks := sys_cpu_to_le16 blocks;
                                rsp_data_blksz := sys_cpu_to_le16 blksz;
                                rsp_data := bytes |})
        end
      else ret GB_OP_INVALID w None.

(** [gb_sdio_init] after the device lookup: [dev] is the result of
    [device_get_binding] with its readiness, [mem] whether [zalloc]
    finds memory.  Returns the errno and [bundle->priv]. *)
Definition gb_sdio_init (cport : Z) (dev : option (sdhc_driver * bool)) (mem : bool)
    : Z * option gb_sdio_info :=
  match dev with
  | None => (- ENODEV, None)
  | Some (drv, ready) =>
      if negb ready then (- ENODEV, None)
      else if negb mem then (- ENOMEM, None)
      else (0, Some {| cport := cport; sdhc_dev := drv;
                       deferred_cmd := {| opcode := 0; arg := 0; response := [0; 0; 0; 0];
                                          response_type := SD_RSP_TYPE_NONE |};
                       has_deferred_cmd := false |})
  end.

End Handlers.
End Sdio.

(** ** HID adapter: [subsys/greybus/hid.c], [subsys/greybus/hid-gb.h] *)

Module Hid.

Definition GB_HID_VERSION_MAJOR : Z := 0.
Definition GB_HID_VERSION_MINOR : Z := 1.

(** Reserved operations for IRQ event input report buffer. *)
Definition MAX_REPORT_OPERATIONS : Z := 5.

Definition GB_HID_INPUT_REPORT : Z := 0.
Definition GB_HID_OUTPUT_REPORT : Z := 1.
Definition GB_HID_FEATURE_REPORT : Z := 2.

Record hid_descriptor : Set := {
  length : Z;
  report_desc_length : Z;
  hid_version : Z;
  product_id : Z;
  vendor_id : Z;
  country_code : Z
}.

(** The calls of [struct device_hid_api], with their arguments. *)
Inductive hid_call : Set :=
| Call_get_descriptor
| Call_get_report_descriptor
| Call_power_on
| Call_power_off
| Call_get_report (report_type report_id len : Z)
| Call_get_report_length (report_type report_id : Z)
| Call_get_max_report_length (report_type : Z)
| Call_set_report (report_type report_id : Z) (report : list Z) (len : Z)
| Call_register_callback
| Call_unregister_callback.

(** [struct device_hid_api]: a table of optional entries ([None] is a
    null function pointer).  Each entry gets the calls made so far and
    returns the driver's [int], with what it wrote through its output
    pointer. *)
Record device_hid_api : Type := {
  get_descriptor : option (list hid_call -> Z * hid_descriptor);
  get_report_descriptor : option (list hid_call -> Z * list Z);
  power_on : option (list hid_call -> Z);
  power_off : option (list hid_call -> Z);
  get_report : option (list hid_call -> Z -> Z -> Z -> Z * list Z);
  get_report_length : option (list hid_call -> Z -> Z -> Z);
  get_max_report_length : option (list hid_call -> Z -> Z);
  set_report : option (list hid_call -> Z -> Z -> list Z -> Z -> Z);
  register_callback : option (list hid_call -> Z);
  unregister_callback : option (list hid_call -> Z)
}.

Record device : Type := {
  api : option device_hid_api
}.

Record hid_msg_data : Set := {
  msg_report_type : Z;
  msg_len : Z;
  msg_data : list Z            (* uint8_t data[256], the bytes copied in *)
}.

(** [sizeof(msg.data)] *)
Definition sizeof_msg_data : Z := 256.

(** Zephyr's message queue, as far as the adapter uses it: a bounded
    FIFO. *)
Record k_msgq : Set := {
  max_msgs : Z;
  msgs : list hid_msg_data
}.

Definition k_msgq_init (max_msgs : Z) : k_msgq :=
  {| max_msgs := max_msgs; msgs := [] |}.

(** [k_msgq_put(q, msg, K_NO_WAIT)]: a full queue refuses the message
    (the errno is [-ENOMSG], 35 in Zephyr). *)
Definition k_msgq_put (q : k_msgq) (msg : hid_msg_data) : Z * k_msgq :=
  if Z.of_nat (List.length (msgs q)) <? max_msgs q
  then (0, {| max_msgs := max_msgs q; msgs := msgs q ++ [msg] |})
  else (- 35, q).

(** [struct gb_hid_info] without the worker thread and its stack. *)
Record gb_hid_info : Type := {
  cport : Z;
  report_desc_len : Z;
  data_queue : k_msgq;
  report_buf_size : Z;
  hid_dev : option device
}.

Definition set_report_desc_len (n : Z) (i : gb_hid_info) : gb_hid_info :=
  {| cport := cport i; report_desc_len := n; data_queue := data_queue i;
     report_buf_size := report_buf_size i; hid_dev := hid_dev i |}.

Definition set_data_queue (q : k_msgq) (i : gb_hid_info) : gb_hid_info :=
  {| cport := cport i; report_desc_len := report_desc_len i; data_queue := q;
     report_buf_size := report_buf_size i; hid_dev := hid_dev i |}.

Record gb_bundle : Type := {
  priv : option gb_hid_info
}.

(** The world of the HID adapter: what [gb_operation_get_bundle] returns
    for the operations of its channel ([None] is a null bundle) and the
    calls the driver has received. *)
Record hid_world : Type := {
  bundle : option gb_bundle;
  calls : list hid_call
}.

Definition logged (c : hid_call) (w : hid_world) : hid_world :=
  {| bundle := bundle w; calls := calls w ++ [c] |}.

Definition with_priv (i : gb_hid_info) (w : hid_world) : hid_world :=
  {| bundle := Some {| priv := Some i |}; calls := calls w |}.

(** *** Wire structures *)

Record gb_hid_proto_version_response : Set := {
  major : Z;
  minor : Z
}.

Record gb_hid_desc_response : Set := {
  rsp_length : Z;
  rsp_report_desc_length : Z;
  rsp_hid_version : Z;
  rsp_product_id : Z;
  rsp_vendor_id : Z;
  rsp_country_code : Z
}.

Record gb_hid_get_report_request : Set := {
  report_type : Z;
  report_id : Z
}.

Record gb_hid_set_report_request : Set := {
  set_report_type : Z;
  set_report_id : Z;
  report : list Z              (* __u8 report[0] *)
}.

Section Handlers.
Context {H : greybus_headers}.

Definition gb_hid_protocol_version (w : hid_world) (operation : gb_operation unit)
    : outcome hid_world gb_hid_proto_version_response :=
  match gb_operation_alloc_response operation sizeof_gb_hid_proto_version_response with
  | None => ret GB_OP_NO_MEMORY w None
  | Some sz =>
      ret GB_OP_SUCCESS w
          (filled sz {| major := GB_HID_VERSION_MAJOR; minor := GB_HID_VERSION_MINOR |})
  end.

(** The guards that open the handlers: [bundle->priv], then
    [hid_info->hid_dev], then [hid_dev->api]. *)
Definition priv_dev_api (b : gb_bundle) : option (gb_hid_info * device_hid_api) :=
  match priv b with
  | None => None
  | Some hid_info =>
      match hid_dev hid_info with
      | None => None
      | Some dev =>
          match api dev with
          | None => None
          | Some a => Some (hid_info, a)
          end
      end
  end.

Definition gb_hid_get_descriptor (w : hid_world) (operation : gb_operation unit)
    : outcome hid_world gb_hid_desc_response :=
  match bundle w with
  | None => ret GB_OP_UNKNOWN_ERROR w None
  | Some b =>
      match priv_dev_api b with
      | None => ret GB_OP_UNKNOWN_ERROR w None
      | Some (hid_info, a) =>
          match get_descriptor a with
          | None => ret GB_OP_UNKNOWN_ERROR w None
          | Some f =>
              let '(r, hid_desc) := f (calls w) in
              let w := logged Call_get_descriptor w in
              if negb (r =? 0) then ret GB_OP_UNKNOWN_ERROR w None
              else
                match gb_operation_alloc_response operation sizeof_gb_hid_desc_response with
                | None => ret GB_OP_NO_MEMORY w None
                | Some sz =>
                    ret GB_OP_SUCCESS
                        (with_priv
                           (set_report_desc_len
                              (uint16_t (report_desc_length hid_desc)) hid_info) w)
                        (filled sz
                           {| rsp_length := uint8_t (length hid_desc);
                              rsp_report_desc_length :=
                                sys_cpu_to_le16 (report_desc_length hid_desc);
                              rsp_hid_version := sys_cpu_to_le16 (hid_version hid_desc);
                              rsp_product_id := sys_cpu_to_le16 (product_id hid_desc);
                              rsp_vendor_id := sys_cpu_to_le16 (vendor_id hid_desc);
                              rsp_country_code := uint8_t (country_code hid_desc) |})
                end
          end
      end
  end.

Definition gb_hid_get_report_descriptor (w : hid_world) (operation : gb_operation unit)
    : outcome hid_world (list Z) :=
  match bundle w with
  | None => ret GB_OP_UNKNOWN_ERROR w None
  | Some b =>
      match priv_dev_api b with
      | None => ret GB_OP_UNKNOWN_ERROR w None
      | Some (hid_info, a) =>
          match get_report_descriptor a with
          | None => ret GB_OP_UNKNOWN_ERROR w None
          | Some f =>
              match gb_operation_alloc_response operation (report_desc_len hid_info) with
              | None => ret GB_OP_NO_MEMORY w None
              | Some sz =>
                  let '(r, desc) := f (calls w) in
                  let w := logged Call_get_report_descriptor w in
                  if negb (r =? 0) then ret GB_OP_UNKNOWN_ERROR w (unfilled sz)
                  else ret GB_OP_SUCCESS w (filled sz desc)
              end
          end
      end
  end.

(** [power_on] and [power_off] differ in the entry they call. *)
Definition gb_hid_power (entry : device_hid_api -> option (list hid_call -> Z))
    (c : hid_call) (w : hid_world) (operation : gb_operation unit)
    : outcome hid_world unit :=
  match bundle w with
  | None => ret GB_OP_UNKNOWN_ERROR w None
  | Some b =>
      match priv_dev_api b with
      | None => ret GB_OP_UNKNOWN_ERROR w None
      | Some (hid_info, a) =>
          match entry a with
          | None => ret GB_OP_UNKNOWN_ERROR w None
          | Some f =>
              let r := f (calls w) in
              let w := logged c w in
              if negb (r =? 0) then ret GB_OP_UNKNOWN_ERROR w None
              else ret GB_OP_SUCCESS w None
          end
      end
  end.

Definition gb_hid_power_on := gb_hid_power power_on Call_power_on.
Definition gb_hid_power_off := gb_hid_power power_off Call_power_off.

(** [gb_hid_get_report] and [gb_hid_set_report] read [bundle->priv]
    without testing the bundle: on a null bundle they have no defined
    result, which is the [None] of their result type. *)
Definition gb_hid_get_report (w : hid_world)
    (operation : gb_operation gb_hid_get_report_request)
    : option (outcome hid_world (list Z)) :=
  let request := request_payload operation in
  if request_payload_size operation <? sizeof_gb_hid_get_report_request
  then Some (ret GB_OP_INVALID w None)
  else
    match bundle w with
    | None => None
    | Some b =>
        match priv_dev_api b with
        | None => Some (ret GB_OP_UNKNOWN_ERROR w None)
        | Some (hid_info, a) =>
            let rtype := uint8_t (report_type request) in
            let rid := uint8_t (report_id request) in
            match get_report_length a with
            | None => Some (ret GB_OP_UNKNOWN_ERROR w None)
            | Some flen =>
                let r := flen (calls w) rtype rid in
                let w := logged (Call_get_report_length rtype rid) w in
                if r <=? 0 then Some (ret GB_OP_UNKNOWN_ERROR w None)
                else
                  let report_len := uint16_t r in
                  let report_len :=
                    if rid >? 0 then uint16_t (report_len + 1) else report_len in
                  match gb_operation_alloc_response operation report_len with
                  | None => Some (ret GB_OP_NO_MEMORY w None)
                  | Some sz =>
                      match get_report a with
                      | None => Some (ret GB_OP_UNKNOWN_ERROR w (unfilled sz))
                      | Some fget =>
                          let '(r, bytes) := fget (calls w) rtype rid report_len in
                          let w := logged (Call_get_report rtype rid report_len) w in
                          if negb (r =? 0)
                          then Some (ret GB_OP_UNKNOWN_ERROR w (unfilled sz))
                          else Some (ret GB_OP_SUCCESS w (filled sz bytes))
                      end
                  end
            end
        end
    end.

Definition gb_hid_set_report (w : hid_world)
    (operation : gb_operation gb_hid_set_report_request)
    : option (outcome hid_world unit) :=
  let request := request_payload operation in
  if request_payload_size operation <? sizeof_gb_hid_set_report_request
  then Some (ret GB_OP_INVALID w None)
  else
    match bundle w with
    | None => None
    | Some b =>
        match priv_dev_api b with
        | None => Some (ret GB_OP_UNKNOWN_ERROR w None)
        | Some (hid_info, a) =>
            match get_report_length a, set_report a with
            | Some flen, Some fset =>
                let rtype := uint8_t (set_report_type request) in
                let rid := uint8_t (set_report_id request) in
                (* uint16_t report_len = api->get_report_length(...) *)
                let report_len := uint16_t (flen (calls w) rtype rid) in
                let w := logged (Call_get_report_length rtype rid) w in
                if report_len <=? 0 then Some (ret GB_OP_UNKNOWN_ERROR w None)
                else
                  let r := fset (calls w) rtype rid (report request) report_len in
                  let w := logged (Call_set_report rtype rid (report request) report_len) w in
                  if negb (r =? 0) then Some (ret GB_OP_UNKNOWN_ERROR w None)
                  else Some (ret GB_OP_SUCCESS w None)
            | _, _ => Some (ret GB_OP_UNKNOWN_ERROR w None)
            end
        end
    end.

(** The callback the driver invokes with an input report; [data] is the
    adapter state it was registered with.  Returns the callback's [int]
    and the state it leaves. *)
Definition hid_event_callback_routine (data : gb_hid_info) (report_type : Z)
    (report : list Z) (len : Z) : Z * gb_hid_info :=
  let hid_info := data in
  if len >? sizeof_msg_data then (- EINVAL, hid_info)
  else
    let msg := {| msg_report_type := report_type; msg_len := len;
                  msg_data := firstn (Z.to_nat len) report |} in
    let '(_, q) := k_msgq_put (data_queue hid_info) msg in
    (0, set_data_queue q hid_info).

(** [gb_hid_init]: [mem] is whether [gb_alloc] finds memory for the
    state, [queue_mem] whether the second [gb_alloc] finds the storage
    of the message queue, [binding] the result of [device_get_binding].
    The result of the second allocation goes to [k_msgq_init] unchecked,
    so its failure does not stop the init.  Returns the errno,
    [bundle->priv], the calls the driver has then received, and whether
    the queue handed over has its storage ([data_queue.buffer_start] is
    not null); the queue functions of this development describe a queue
    that has it. *)
Definition gb_hid_init (cport : Z) (mem queue_mem : bool) (binding : option device)
    (calls : list hid_call) : Z * option gb_hid_info * list hid_call * bool :=
  if negb mem then (- ENOMEM, None, calls, false)
  else
    let entries := match binding with
                   | Some dev => api dev
                   | None => None
                   end in
    let max_len := match entries with
                   | Some a => get_max_report_length a
                   | None => None
                   end in
    let after_size :=
      match max_len with
      | Some f =>
          let r := f calls GB_HID_INPUT_REPORT in
          (r, calls ++ [Call_get_max_report_length GB_HID_INPUT_REPORT])
      | None => (64, calls)
      end in
    let '(size, calls) := after_size in
    if size <? 0 then (size, None, calls, false)
    else
      (* k_msgq_init(&data_queue, gb_alloc(...), ..., MAX_REPORT_OPERATIONS) *)
      let hid_info := {| cport := uint16_t cport; report_desc_len := 0;
                         data_queue := k_msgq_init MAX_REPORT_OPERATIONS;
                         report_buf_size := size; hid_dev := binding |} in
      match match entries with
            | Some a => register_callback a
            | None => None
            end with
      | Some f =>
          let r := f calls in
          let calls := calls ++ [Call_register_callback] in
          if negb (r =? 0) then (r, None, calls, false)
          else (0, Some hid_info, calls, queue_mem)
      | None => (0, Some hid_info, calls, queue_mem)
      end.

End Handlers.
End Hid.

(** ** USB host adapter: [subsys/greybus/usb.c] *)

Module Usb.

Inductive uhc_call : Set := Call_uhc_enable | Call_uhc_disable.

(** The host controller behind the static [usbdev]. *)
Record uhc_driver : Type := {
  uhc_enable : list uhc_call -> Z;
  uhc_disable : list uhc_call -> Z
}.

Record usb_world : Type := {
  usbdev : option uhc_driver;
  calls : list uhc_call
}.

Definition logged (c : uhc_call) (w : usb_world) : usb_world :=
  {| usbdev := usbdev w; calls := calls w ++ [c] |}.

Record gb_usb_proto_version_response : Set := {
  major : Z;
  minor : Z
}.

Record gb_usb_hub_control_request : Set := {
  typeReq : Z;
  wValue : Z;
  wIndex : Z;
  wLength : Z
}.

Record usb_setup_packet : Set := {
  bmRequestType : Z;
  bRequest : Z;
  setup_wValue : Z;
  setup_wIndex : Z;
  setup_wLength : Z
}.

Section Handlers.
Context {H : greybus_headers}.

Definition gb_usb_protocol_version (w : usb_world) (operation : gb_operation unit)
    : outcome usb_world gb_usb_proto_version_response :=
  match gb_operation_alloc_response operation sizeof_gb_usb_proto_version_response with
  | None => ret GB_OP_NO_MEMORY w None
  | Some sz =>
      ret GB_OP_SUCCESS w
          (filled sz {| major := GB_USB_VERSION_MAJOR; minor := GB_USB_VERSION_MINOR |})
  end.

Definition gb_usb_hcd_stop (w : usb_world) (operation : gb_operation unit)
    : outcome usb_world unit :=
  match usbdev w with
  | None => ret GB_OP_UNKNOWN_ERROR w None
  | Some d =>
      let r := uhc_disable d (calls w) in
      let w := logged Call_uhc_disable w in
      if r <? 0 then ret GB_OP_UNKNOWN_ERROR w None
      else ret GB_OP_SUCCESS w None
  end.

Definition gb_usb_hcd_start (w : usb_world) (operation : gb_operation unit)
    : outcome usb_world unit :=
  match usbdev w with
  | None => ret GB_OP_UNKNOWN_ERROR w None
  | Some d =>
      let r := uhc_enable d (calls w) in
      let w := logged Call_uhc_enable w in
      if r <? 0 then ret GB_OP_UNKNOWN_ERROR w None
      else ret GB_OP_SUCCESS w None
  end.

Definition decode_setup (request : gb_usb_hub_control_request) : usb_setup_packet :=
  {| bmRequestType := uint8_t (Z.land (sys_le16_to_cpu (typeReq request)) 0xFF);
     bRequest := uint8_t (Z.shiftr (sys_le16_to_cpu (typeReq request)) 8);
     setup_wValue := sys_le16_to_cpu (wValue request);
     setup_wIndex := sys_le16_to_cpu (wIndex request);
     setup_wLength := sys_le16_to_cpu (wLength request) |}.

(** The response is [struct gb_usb_hub_control_response], a bare byte
    array; the handler never writes it. *)
Definition gb_usb_hub_control (w : usb_world)
    (operation : gb_operation gb_usb_hub_control_request)
    : outcome usb_world (list Z) :=
  let request := request_payload operation in
  if request_payload_size operation <? sizeof_gb_usb_hub_control_request
  then ret GB_OP_INVALID w None
  else
    let setup := decode_setup request in
    let wLength := setup_wLength setup in
    match gb_operation_alloc_response operation
            (sizeof_gb_usb_hub_control_response + wLength) with
    | None => ret GB_OP_NO_MEMORY w None
    | Some sz =>
        (* the root-hub call is commented out in the source *)
        let r := - ENOTSUP in
        if negb (r =? 0) then ret GB_OP_UNKNOWN_ERROR w (unfilled sz)
        else ret GB_OP_SUCCESS w (unfilled sz)
    end.

End Handlers.
End Usb.

(** ** Concrete headers, drivers and requests

    Values on which the handlers are run below. *)

(** Modelled from the spec: [gb_errno_to_op_result] belongs to the
    Greybus core, which is not part of this tree.  The specification
    only says that raw host errors are translated to the nearest member
    of its taxonomy, [UnknownError] unless a more specific status is
    defined. *)
Definition errno_to_op_result (err : Z) : gb_op_result :=
  if err =? 0 then GB_OP_SUCCESS
  else if Z.abs err =? ENOMEM then GB_OP_NO_MEMORY
  else if Z.abs err =? EINVAL then GB_OP_INVALID
  else GB_OP_UNKNOWN_ERROR.

(** The constants as the Greybus protocol header publishes them, for a
    channel whose payload budget is [budget]. *)
Definition headers_with_budget (budget : Z) : greybus_headers :=
  {| gb_errno_to_op_result := errno_to_op_result;
     GB_MAX_PAYLOAD_SIZE := budget;
     sizeof_gb_sdio_proto_version_response := 2;
     sizeof_gb_sdio_get_caps_response := 20;
     sizeof_gb_sdio_set_ios_request := 14;
     sizeof_gb_sdio_command_request := 11;
     sizeof_gb_sdio_command_response := 16;
     sizeof_gb_sdio_transfer_request := 5;
     sizeof_gb_sdio_transfer_response := 4;
     sizeof_gb_hid_proto_version_response := 2;
     sizeof_gb_hid_desc_response := 10;
     sizeof_gb_hid_get_report_request := 2;
     sizeof_gb_hid_set_report_request := 2;
     sizeof_gb_usb_proto_version_response := 2;
     sizeof_gb_usb_hub_control_request := 8;
     sizeof_gb_usb_hub_control_response := 0;
     GB_SDIO_CAP_4_BIT_DATA := 0x00000002;
     GB_SDIO_CAP_8_BIT_DATA := 0x00000004;
     GB_SDIO_CAP_SD_HS := 0x00000010;
     GB_SDIO_CAP_MMC_HS := 0x00000008;
     GB_SDIO_CAP_HS200_1_2V := 0x00020000;
     GB_SDIO_RSP_PRESENT := 0x01;
     GB_SDIO_RSP_136 := 0x02;
     GB_SDIO_RSP_BUSY := 0x08;
     GB_SDIO_DATA_WRITE := 0x01;
     GB_SDIO_DATA_READ := 0x02;
     GB_SDIO_BUSMODE_OPENDRAIN := 0x00;
     GB_SDIO_BUSMODE_PUSHPULL := 0x01;
     GB_SDIO_POWER_OFF := 0x00;
     GB_SDIO_POWER_UP := 0x01;
     GB_SDIO_POWER_ON := 0x02;
     GB_SDIO_BUS_WIDTH_1 := 0x00;
     GB_SDIO_BUS_WIDTH_4 := 0x02;
     GB_SDIO_BUS_WIDTH_8 := 0x03;
     GB_SDIO_TIMING_LEGACY := 0x00;
     GB_SDIO_TIMING_SD_HS := 0x02;
     GB_SDIO_TIMING_MMC_HS := 0x01;
     GB_SDIO_SIGNAL_VOLTAGE_330 := 0x00;
     GB_SDIO_SIGNAL_VOLTAGE_180 := 0x01;
     GB_SDIO_SIGNAL_VOLTAGE_120 := 0x02;
     GB_USB_VERSION_MAJOR := 0;
     GB_USB_VERSION_MINOR := 1 |}.

(** A 2048-byte transport unit less the 8-byte operation header. *)
Definition reference_headers : greybus_headers := headers_with_budget 2040.

Definition always (b : bool) : Z -> bool := fun _ => b.

Module SdioSamples.
Import Sdio.

(** The driver of [tests/greybus/integration/sdio/src/sdhc_stub.c]. *)
Definition stub_props : sdhc_host_props :=
  {| f_max := 25000000; f_min := 400000;
     bus_4_bit_support := true; bus_8_bit_support := true;
     high_speed_support := true; vol_330_support := true |}.

Definition sdhc_stub : sdhc_driver :=
  {| drv_get_host_props := fun _ => (0, stub_props);
     drv_set_io := fun _ _ => 0;
     drv_request := fun _ cmd _ =>
       (0, {| opcode := opcode cmd; arg := arg cmd;
              response := [0x00000900; 0; 0; 0];
              response_type := response_type cmd |}, []) |}.

(** A driver whose [request] fails with [-EIO]. *)
Definition sdhc_broken : sdhc_driver :=
  {| drv_get_host_props := fun _ => (0, stub_props);
     drv_set_io := fun _ _ => 0;
     drv_request := fun _ cmd _ => (- 5, cmd, []) |}.

Definition cmd17 : sdhc_command :=
  {| opcode := 17; arg := 0; response := [0; 0; 0; 0];
     response_type := SD_RSP_TYPE_R1 |}.

Definition world_of (drv : sdhc_driver) (pending : bool) : sdio_world :=
  {| info := {| cport := 1; sdhc_dev := drv; deferred_cmd := cmd17;
                has_deferred_cmd := pending |};
     calls := [] |}.

Definition transfer_op (flags : Z) (mem : bool)
    : gb_operation gb_sdio_transfer_request :=
  {| request_payload := {| data_flags := flags; data_blocks := 1;
                           data_blksz := 512; req_data := [] |};
     request_payload_size := 5;
     alloc_ok := always mem |}.

Definition command_op (nblocks : Z) (mem : bool)
    : gb_operation gb_sdio_command_request :=
  {| request_payload := {| cmd := 17; cmd_flags := 0x01; cmd_arg := 0;
                           cmd_data_blocks := nblocks |};
     request_payload_size := 11;
     alloc_ok := always mem |}.

Definition short_set_ios_op : gb_operation gb_sdio_set_ios_request :=
  {| request_payload := {| req_clock := 0; req_bus_mode := 0; req_power_mode := 0;
                           req_bus_width := 0; req_timing := 0;
                           req_signal_voltage := 0 |};
     request_payload_size := 13;
     alloc_ok := always true |}.

Definition caps_op (mem : bool) : gb_operation unit :=
  {| request_payload := tt; request_payload_size := 0; alloc_ok := always mem |}.

End SdioSamples.

Module HidSamples.
Import Hid.

Definition keyboard_descriptor : hid_descriptor :=
  {| length := 9; report_desc_length := 63; hid_version := 0x0111;
     product_id := 0x0001; vendor_id := 0x18D1; country_code := 0 |}.

(** A driver with every entry of the table.  [get_report_length] answers
    [len] for every report and [get_report_descriptor] writes nothing. *)
Definition driver_reporting (len : Z) : device_hid_api :=
  {| get_descriptor := Some (fun _ => (0, keyboard_descriptor));
     get_report_descriptor := Some (fun _ => (0, []));
     power_on := Some (fun _ => 0);
     power_off := Some (fun _ => 0);
     get_report := Some (fun _ _ _ _ => (0, []));
     get_report_length := Some (fun _ _ _ => len);
     get_max_report_length := Some (fun _ _ => 64);
     set_report := Some (fun _ _ _ _ _ => 0);
     register_callback := Some (fun _ => 0);
     unregister_callback := Some (fun _ => 0) |}.

Definition device_reporting (len : Z) : device :=
  {| api := Some (driver_reporting len) |}.

(** The adapter state [gb_hid_init] leaves for such a device. *)
Definition state_after_init (len : Z) : gb_hid_info :=
  {| cport := 2; report_desc_len := 0;
     data_queue := k_msgq_init MAX_REPORT_OPERATIONS;
     report_buf_size := 64; hid_dev := Some (device_reporting len) |}.

Definition world_after_init (len : Z) : hid_world :=
  {| bundle := Some {| priv := Some (state_after_init len) |};
     calls := [Call_get_max_report_length GB_HID_INPUT_REPORT;
               Call_register_callback] |}.

Definition plain_op (mem : bool) : gb_operation unit :=
  {| request_payload := tt; request_payload_size := 0; alloc_ok := always mem |}.

Definition get_report_op (id size : Z) : gb_operation gb_hid_get_report_request :=
  {| request_payload := {| report_type := GB_HID_INPUT_REPORT; report_id := id |};
     request_payload_size := size;
     alloc_ok := always true |}.

Definition set_report_op (size : Z) : gb_operation gb_hid_set_report_request :=
  {| request_payload := {| set_report_type := GB_HID_OUTPUT_REPORT;
                           set_report_id := 0; report := [0x02] |};
     request_payload_size := size;
     alloc_ok := always true |}.

Definition a_message : hid_msg_data :=
  {| msg_report_type := GB_HID_INPUT_REPORT; msg_len := 1; msg_data := [0] |}.

(** An adapter state whose queue holds [n] messages. *)
Definition state_with_queue (n : nat) : gb_hid_info :=
  {| cport := 2; report_desc_len := 63;
     data_queue := {| max_msgs := MAX_REPORT_OPERATIONS; msgs := repeat a_message n |};
     report_buf_size := 64; hid_dev := Some (device_reporting 8) |}.

End HidSamples.

Module UsbSamples.
Import Usb.

Definition no_controller : usb_world := {| usbdev := None; calls := [] |}.

(** GetHubDescriptor on the root hub, [wLength] 15. *)
Definition hub_control_op (size : Z) (mem : bool)
    : gb_operation gb_usb_hub_control_request :=
  {| request_payload := {| typeReq := 0xA006; wValue := 0x2900; wIndex := 0;
                           wLength := 15 |};
     request_payload_size := size;
     alloc_ok := always mem |}.

End UsbSamples.

(** ** The specification's wording, for comparison with the code *)

(** The block sizes the SDIO adapter scales to. *)
Definition block_sizes : list Z := [512; 1024; 2048].

(** The largest element of [l] that satisfies [p], if any. *)
Definition largest_such (p : Z -> bool) (l : list Z) : option Z :=
  fold_left (fun acc x =>
               if p x then
                 match acc with
                 | None => Some x
                 | Some a => Some (Z.max a x)
                 end
               else acc) l None.

(** "the largest of {512, 1024, 2048} strictly below" a budget. *)
Definition largest_strictly_below (v : Z) : option Z :=
  largest_such (fun x => x <? v) block_sizes.

(** The largest of {512, 1024, 2048} that does not exceed a budget. *)
Definition largest_not_above (v : Z) : option Z :=
  largest_such (fun x => x <=? v) block_sizes.

(** "the length reported by the capability's get_report_length call":
    what that entry answers for the request's report on the history of
    the world, when the guards of the handler let it be reached. *)
Definition reported_length (w : Hid.hid_world)
    (request : Hid.gb_hid_get_report_request) : option Z :=
  match Hid.bundle w with
  | None => None
  | Some b =>
      match Hid.priv_dev_api b with
      | None => None
      | Some (_, a) =>
          match Hid.get_report_length a with
          | None => None
          | Some flen =>
              Some (flen (Hid.calls w) (uint8_t (Hid.report_type request))
                         (uint8_t (Hid.report_id request)))
          end
      end
  end.

(** The report-id prefix byte of the wire convention. *)
Definition prefix_bytes (request : Hid.gb_hid_get_report_request) : Z :=
  if uint8_t (Hid.report_id request) =? 0 then 0 else 1.

(** The error taxonomy of the specification, and the member each result
    code of the handlers stands for. *)
Inductive spec_status : Set :=
| Success | NoMemory | Invalid | UnknownError | NotSupported | OtherStatus.

Definition taxonomy (r : gb_op_result) : spec_status :=
  match r with
  | GB_OP_SUCCESS => Success
  | GB_OP_NO_MEMORY => NoMemory
  | GB_OP_INVALID => Invalid
  | GB_OP_UNKNOWN_ERROR => UnknownError
  | _ => OtherStatus
  end.

(** ** The driver tables: dispatch, worker and life cycle

    The rest of the three files: the [op_handler] switches, the worker
    thread of the HID adapter and the [init]/[exit] of the USB
    adapter. *)

(** The operation types of [greybus_protocols.h], which is not part of
    this tree. *)
Class greybus_operation_types : Type := {
  GB_SDIO_TYPE_PROTOCOL_VERSION : Z;
  GB_SDIO_TYPE_GET_CAPABILITIES : Z;
  GB_SDIO_TYPE_SET_IOS : Z;
  GB_SDIO_TYPE_COMMAND : Z;
  GB_SDIO_TYPE_TRANSFER : Z;
  GB_HID_TYPE_PROTOCOL_VERSION : Z;
  GB_HID_TYPE_GET_DESC : Z;
  GB_HID_TYPE_GET_REPORT_DESC : Z;
  GB_HID_TYPE_PWR_ON : Z;
  GB_HID_TYPE_PWR_OFF : Z;
  GB_HID_TYPE_GET_REPORT : Z;
  GB_HID_TYPE_SET_REPORT : Z;
  GB_HID_TYPE_IRQ_EVENT : Z;
  GB_USB_TYPE_PROTOCOL_VERSION : Z;
  GB_USB_TYPE_HCD_STOP : Z;
  GB_USB_TYPE_HCD_START : Z;
  GB_USB_TYPE_HUB_CONTROL : Z
}.

(** The values the protocol header publishes. *)
Definition reference_operation_types : greybus_operation_types :=
  {| GB_SDIO_TYPE_PROTOCOL_VERSION := 0x01;
     GB_SDIO_TYPE_GET_CAPABILITIES := 0x02;
     GB_SDIO_TYPE_SET_IOS := 0x03;
     GB_SDIO_TYPE_COMMAND := 0x04;
     GB_SDIO_TYPE_TRANSFER := 0x05;
     GB_HID_TYPE_PROTOCOL_VERSION := 0x01;
     GB_HID_TYPE_GET_DESC := 0x02;
     GB_HID_TYPE_GET_REPORT_DESC := 0x03;
     GB_HID_TYPE_PWR_ON := 0x04;
     GB_HID_TYPE_PWR_OFF := 0x05;
     GB_HID_TYPE_GET_REPORT := 0x06;
     GB_HID_TYPE_SET_REPORT := 0x07;
     GB_HID_TYPE_IRQ_EVENT := 0x08;
     GB_USB_TYPE_PROTOCOL_VERSION := 0x01;
     GB_USB_TYPE_HCD_STOP := 0x03;
     GB_USB_TYPE_HCD_START := 0x02;
     GB_USB_TYPE_HUB_CONTROL := 0x04 |}.

(** The operation a handler receives, with its payload seen through
    another structure (the cast each handler applies to
    [gb_operation_get_request_payload]). *)
Definition view {A B} (f : A -> B) (operation : gb_operation A) : gb_operation B :=
  {| request_payload := f (request_payload operation);
     request_payload_size := request_payload_size operation;
     alloc_ok := alloc_ok operation |}.

(** An outcome with its response payload put in a common type. *)
Definition relabel {W R R'} (f : R -> R') (o : outcome W R) : outcome W R' :=
  {| status := status o;
     world := world o;
     op_response :=
       match op_response o with
       | None => None
       | Some r => Some {| response_size := response_size r;
                           response_payload := option_map f (response_payload r) |}
       end |}.

(** The driver history [l'] is [l] with at most one more call. *)
Definition at_most_one_more {A} (l l' : list A) : Prop :=
  l' = l \/ exists c, l' = l ++ [c].

Module SdioDriver.
Import Sdio.

(** The payload of an SDIO operation through each request structure. *)
Record sdio_request : Set := {
  as_set_ios : gb_sdio_set_ios_request;
  as_command : gb_sdio_command_request;
  as_transfer : gb_sdio_transfer_request
}.

Inductive sdio_reply : Set :=
| Reply_version (r : gb_sdio_proto_version_response)
| Reply_caps (r : gb_sdio_get_caps_response)
| Reply_command (r : gb_sdio_command_response)
| Reply_transfer (r : gb_sdio_transfer_response)
| Reply_none.

Section Handler.
Context {H : greybus_headers} {T : greybus_operation_types}.

Definition gb_sdio_handler (w : sdio_world) (type : Z)
    (opr : gb_operation sdio_request) : outcome sdio_world sdio_reply :=
  if type =? GB_SDIO_TYPE_PROTOCOL_VERSION then
    relabel Reply_version (gb_sdio_protocol_version w (view (fun _ => tt) opr))
  else if type =? GB_SDIO_TYPE_GET_CAPABILITIES then
    relabel Reply_caps (gb_sdio_protocol_get_capabilities w (view (fun _ => tt) opr))
  else if type =? GB_SDIO_TYPE_SET_IOS then
    relabel (fun _ => Reply_none) (gb_sdio_protocol_set_ios w (view as_set_ios opr))
  else if type =? GB_SDIO_TYPE_COMMAND then
    relabel Reply_command (gb_sdio_protocol_command w (view as_command opr))
  else if type =? GB_SDIO_TYPE_TRANSFER then
    relabel Reply_transfer (gb_sdio_protocol_transfer w (view as_transfer opr))
  else ret GB_OP_INVALID w None.

End Handler.

(** A driver that fills the read buffer and remembers nothing. *)
Definition sdhc_reader (bytes : list Z) : sdhc_driver :=
  {| drv_get_host_props := fun _ => (0, SdioSamples.stub_props);
     drv_set_io := fun _ _ => 0;
     drv_request := fun _ cmd _ => (0, cmd, bytes) |}.

Definition sdio_op (blocks : Z) (flags : Z) (size : Z) (mem : bool)
    : gb_operation sdio_request :=
  {| request_payload :=
       {| as_set_ios := request_payload SdioSamples.short_set_ios_op;
          as_command := {| cmd := 18; cmd_flags := 0x01; cmd_arg := 64;
                           cmd_data_blocks := blocks |};
          as_transfer := {| data_flags := flags; data_blocks := 2;
                            data_blksz := 512; req_data := [1; 2; 3] |} |};
     request_payload_size := size;
     alloc_ok := always mem |}.

End SdioDriver.

Module HidDriver.
Import Hid.

(** The payload of a HID operation through each request structure. *)
Record hid_request : Set := {
  as_get_report : gb_hid_get_report_request;
  as_set_report : gb_hid_set_report_request
}.

Inductive hid_reply : Set :=
| Reply_version (r : gb_hid_proto_version_response)
| Reply_desc (r : gb_hid_desc_response)
| Reply_bytes (r : list Z)
| Reply_none.

(** [k_msgq_get(q, msg, K_FOREVER)]: the oldest message and the rest;
    [None] when the queue is empty and the caller waits. *)
Definition k_msgq_get (q : k_msgq) : option (hid_msg_data * k_msgq) :=
  match msgs q with
  | [] => None
  | m :: rest => Some (m, {| max_msgs := max_msgs q; msgs := rest |})
  end.

(** An outbound operation made by [gb_operation_create]. *)
Record gb_request : Set := {
  req_cport : Z;
  req_type : Z;
  req_payload : list Z
}.

(** The calls of the worker into the Greybus core. *)
Inductive core_call : Set :=
| Call_operation_create (cport type size : Z)
| Call_send_request (operation : gb_request)
| Call_operation_destroy (operation : gb_request).

(** The core, as the worker uses it: whether [gb_operation_create]
    returns an operation, and the [int] of
    [gb_operation_send_request]; both get the calls made so far. *)
Record gb_core : Type := {
  operation_create : list core_call -> Z -> Z -> Z -> bool;
  send_request : list core_call -> gb_request -> Z
}.

Record worker_world : Type := {
  worker_info : gb_hid_info;
  core_calls : list core_call
}.

Section Handler.
Context {H : greybus_headers} {T : greybus_operation_types}.

Definition gb_hid_handler (w : hid_world) (type : Z)
    (opr : gb_operation hid_request) : option (outcome hid_world hid_reply) :=
  if type =? GB_HID_TYPE_PROTOCOL_VERSION then
    Some (relabel Reply_version (gb_hid_protocol_version w (view (fun _ => tt) opr)))
  else if type =? GB_HID_TYPE_GET_DESC then
    Some (relabel Reply_desc (gb_hid_get_descriptor w (view (fun _ => tt) opr)))
  else if type =? GB_HID_TYPE_GET_REPORT_DESC then
    Some (relabel Reply_bytes (gb_hid_get_report_descriptor w (view (fun _ => tt) opr)))
  else if type =? GB_HID_TYPE_PWR_ON then
    Some (relabel (fun _ => Reply_none) (gb_hid_power_on w (view (fun _ => tt) opr)))
  else if type =? GB_HID_TYPE_PWR_OFF then
    Some (relabel (fun _ => Reply_none) (gb_hid_power_off w (view (fun _ => tt) opr)))
  else if type =? GB_HID_TYPE_GET_REPORT then
    option_map (relabel Reply_bytes) (gb_hid_get_report w (view as_get_report opr))
  else if type =? GB_HID_TYPE_SET_REPORT then
    option_map (relabel (fun _ => Reply_none))
               (gb_hid_set_report w (view as_set_report opr))
  else Some (ret GB_OP_INVALID w None).

(** One turn of the loop of [report_proc_thread]; [None] when the
    queue is empty and the thread waits in [k_msgq_get]. *)
Definition report_proc_iteration (core : gb_core) (w : worker_world)
    : option worker_world :=
  match k_msgq_get (data_queue (worker_info w)) with
  | None => None
  | Some (msg, q) =>
      let hid_info := set_data_queue q (worker_info w) in
      let created :=
        operation_create core (core_calls w)
                         (cport hid_info) GB_HID_TYPE_IRQ_EVENT (msg_len msg) in
      let l := core_calls w ++
               [Call_operation_create (cport hid_info) GB_HID_TYPE_IRQ_EVENT
                                      (msg_len msg)] in
      if negb created then Some {| worker_info := hid_info; core_calls := l |}
      else
        let operation :=
          {| req_cport := cport hid_info;
             req_type := GB_HID_TYPE_IRQ_EVENT;
             req_payload := firstn (Z.to_nat (msg_len msg)) (msg_data msg) |} in
        let r := send_request core l operation in
        let l := l ++ [Call_send_request operation] in
        if negb (r =? 0)
        then Some {| worker_info := hid_info;
                     core_calls := l ++ [Call_operation_destroy operation] |}
        else Some {| worker_info := hid_info; core_calls := l |}
  end.

(** [n] turns of the loop, stopping where the thread waits. *)
Fixpoint report_proc_thread (n : nat) (core : gb_core) (w : worker_world)
    : worker_world :=
  match n with
  | O => w
  | S n' =>
      match report_proc_iteration core w with
      | None => w
      | Some w' => report_proc_thread n' core w'
      end
  end.

End Handler.

(** The requests the worker handed to [gb_operation_send_request]. *)
Fixpoint sent_requests (l : list core_call) : list gb_request :=
  match l with
  | [] => []
  | Call_send_request operation :: rest => operation :: sent_requests rest
  | _ :: rest => sent_requests rest
  end.

(** The request the worker builds for a queued message. *)
Definition irq_event {T : greybus_operation_types} (cport : Z) (msg : hid_msg_data)
    : gb_request :=
  {| req_cport := cport;
     req_type := GB_HID_TYPE_IRQ_EVENT;
     req_payload := firstn (Z.to_nat (msg_len msg)) (msg_data msg) |}.

(** The callback applied to a series of reports, oldest first; each is
    a report type, the report bytes and the length argument. *)
Definition deliver (hid_info : gb_hid_info) (reports : list (Z * list Z * Z))
    : gb_hid_info :=
  fold_left (fun i r =>
               snd (hid_event_callback_routine i (fst (fst r)) (snd (fst r)) (snd r)))
            reports hid_info.

(** The message the callback builds for a report. *)
Definition report_message (r : Z * list Z * Z) : hid_msg_data :=
  {| msg_report_type := fst (fst r);
     msg_len := snd r;
     msg_data := firstn (Z.to_nat (snd r)) (snd (fst r)) |}.

(** The messages of the reports whose length the callback accepts. *)
Definition accepted (reports : list (Z * list Z * Z)) : list hid_msg_data :=
  map report_message (filter (fun r => negb (snd r >? sizeof_msg_data)) reports).

(** The queue holds no more than its capacity. *)
Definition within_capacity (q : k_msgq) : Prop :=
  Z.of_nat (List.length (msgs q)) <= max_msgs q.

(** A core in which every creation and every send succeeds. *)
Definition willing_core : gb_core :=
  {| operation_create := fun _ _ _ _ => true;
     send_request := fun _ _ => 0 |}.

(** A core that has no memory for operations. *)
Definition exhausted_core : gb_core :=
  {| operation_create := fun _ _ _ _ => false;
     send_request := fun _ _ => 0 |}.

Definition hid_op (id : Z) (size : Z) (mem : bool) : gb_operation hid_request :=
  {| request_payload :=
       {| as_get_report := {| report_type := GB_HID_INPUT_REPORT; report_id := id |};
          as_set_report := {| set_report_type := GB_HID_OUTPUT_REPORT;
                              set_report_id := id; report := [0x02] |} |};
     request_payload_size := size;
     alloc_ok := always mem |}.

End HidDriver.

Module UsbDriver.
Import Usb.

Inductive usb_reply : Set :=
| Reply_version (r : gb_usb_proto_version_response)
| Reply_bytes (r : list Z)
| Reply_none.

Section Handler.
Context {H : greybus_headers} {T : greybus_operation_types}.

(** [gb_usb_init]: [node] is the host controller the devicetree
    selects, with whether [device_is_ready] holds for it; [None] when
    no node qualifies.  Returns the errno and the world with the static
    [usbdev] assigned. *)
Definition gb_usb_init (node : option (uhc_driver * bool)) (w : usb_world)
    : Z * usb_world :=
  let w := {| usbdev := option_map fst node; calls := calls w |} in
  match node with
  | None => (- ENODEV, w)
  | Some (_, ready) => if negb ready then (- ENODEV, w) else (0, w)
  end.

Definition gb_usb_exit (w : usb_world) : usb_world :=
  match usbdev w with
  | Some d => logged Call_uhc_disable w
  | None => w
  end.

Definition gb_usb_handler (w : usb_world) (type : Z)
    (opr : gb_operation gb_usb_hub_control_request) : outcome usb_world usb_reply :=
  if type =? GB_USB_TYPE_PROTOCOL_VERSION then
    relabel Reply_version (gb_usb_protocol_version w (view (fun _ => tt) opr))
  else if type =? GB_USB_TYPE_HCD_STOP then
    relabel (fun _ => Reply_none) (gb_usb_hcd_stop w (view (fun _ => tt) opr))
  else if type =? GB_USB_TYPE_HCD_START then
    relabel (fun _ => Reply_none) (gb_usb_hcd_start w (view (fun _ => tt) opr))
  else if type =? GB_USB_TYPE_HUB_CONTROL then
    relabel Reply_bytes (gb_usb_hub_control w opr)
  else ret GB_OP_INVALID w None.

End Handler.

(** A controller whose [uhc_enable] and [uhc_disable] return [r]. *)
Definition controller_returning (r : Z) : uhc_driver :=
  {| uhc_enable := fun _ => r; uhc_disable := fun _ => r |}.

(** A world whose controller is that one, with no call made yet. *)
Definition with_controller (r : Z) : usb_world :=
  {| usbdev := Some (controller_returning r); calls := [] |}.

End UsbDriver.

(** Closed comparisons between numbers are settled by evaluation. *)
Ltac by_evaluation :=
  vm_compute; first [reflexivity | discriminate | intro; discriminate].

(** Case analysis on the next [match] of the goal. *)
Ltac break_match :=
  match goal with
  | |- context [match ?x with _ => _ end] => destruct x eqn:?
  end.

(** Boolean tests in the hypotheses, as the propositions they decide. *)
Ltac bool_hyps :=
  repeat match goal with
         | E : negb _ = true |- _ => apply negb_true_iff in E
         | E : negb _ = false |- _ => apply negb_false_iff in E
         | E : (_ =? _) = true |- _ => apply Z.eqb_eq in E
         | E : (_ =? _) = false |- _ => apply Z.eqb_neq in E
         | E : (_ <? _) = true |- _ => apply Z.ltb_lt in E
         | E : (_ <? _) = false |- _ => apply Z.ltb_ge in E
         | E : (_ <=? _) = true |- _ => apply Z.leb_le in E
         | E : (_ <=? _) = false |- _ => apply Z.leb_gt in E
         end.

(** The two ways a call history can have grown by at most one call. *)
Ltac one_more_or_none :=
  first [ left; reflexivity | right; eexists; reflexivity ].

(** A call history that has grown by at most two calls. *)
Ltac grown_by_two :=
  first [ exists []; rewrite app_nil_r; split; [reflexivity|cbn; lia]
        | eexists [_]; split; [reflexivity|cbn; lia]
        | eexists [_; _]; split; [rewrite <- app_assoc; reflexivity|cbn; lia] ].

(** ** Properties of the SDIO adapter *)

Section SdioProperties.
Import Sdio.
Context {H : greybus_headers}.

Lemma app_one_neq {A} (l : list A) (x : A) : l <> l ++ [x].
Proof.
  intro E. apply (f_equal (@List.length A)) in E.
  rewrite length_app in E. cbn in E. lia.
Qed.

Lemma app_one_inj {A} (l : list A) (x y : A) : l ++ [x] = l ++ [y] -> x = y.
Proof.
  intro E. apply app_inv_head in E. congruence.
Qed.

Lemma scale_max_sd_block_length_cases (v : Z) :
  (v < 512 /\ scale_max_sd_block_length v = 0) \/
  (512 <= v < 1024 /\ scale_max_sd_block_length v = 512) \/
  (1024 <= v < 2048 /\ scale_max_sd_block_length v = 1024) \/
  (2048 <= v /\ scale_max_sd_block_length v = 2048).
Proof.
  unfold scale_max_sd_block_length, MAX_BLOCK_SIZE_0, MAX_BLOCK_SIZE_1, MAX_BLOCK_SIZE_2.
  destruct (Z.ltb_spec v 512); [left; lia|].
  destruct (Z.ltb_spec v 1024); [right; left; lia|].
  destruct (Z.ltb_spec v 2048); [right; right; left; lia|].
  right; right; right; lia.
Qed.

Lemma largest_not_above_cases (v : Z) :
  (v < 512 /\ largest_not_above v = None) \/
  (512 <= v < 1024 /\ largest_not_above v = Some 512) \/
  (1024 <= v < 2048 /\ largest_not_above v = Some 1024) \/
  (2048 <= v /\ largest_not_above v = Some 2048).
Proof.
  unfold largest_not_above, largest_such, block_sizes, fold_left.
  destruct (Z.leb_spec 512 v); destruct (Z.leb_spec 1024 v);
    destruct (Z.leb_spec 2048 v); try lia.
  - right; right; right. split; [lia|reflexivity].
  - right; right; left. split; [lia|reflexivity].
  - right; left. split; [lia|reflexivity].
  - left. split; [lia|reflexivity].
Qed.

(** The scaling function computes the largest block size that does not
    exceed its argument, and 0 when there is none. *)
Lemma scale_max_sd_block_length_spec (v : Z) :
  scale_max_sd_block_length v =
  match largest_not_above v with
  | Some m => m
  | None => 0
  end.
Proof.
  destruct (scale_max_sd_block_length_cases v) as [[? E]|[[? E]|[[? E]|[? E]]]];
    destruct (largest_not_above_cases v) as [[? F]|[[? F]|[[? F]|[? F]]]];
    try lia; rewrite E, F; reflexivity.
Qed.

(** A transfer on a world with no pending command. *)
Lemma transfer_not_pending (w : sdio_world)
    (op : gb_operation gb_sdio_transfer_request) :
  sizeof_gb_sdio_transfer_request <= request_payload_size op ->
  has_deferred_cmd (info w) = false ->
  gb_sdio_protocol_transfer w op = ret GB_OP_INVALID w None.
Proof.
  intros Hsz Hp. unfold gb_sdio_protocol_transfer.
  apply Z.ltb_ge in Hsz. rewrite Hsz, Hp. reflexivity.
Qed.

(** A transfer that succeeded, or whose driver call failed, leaves no
    command pending. *)
Lemma transfer_completed_clears (w : sdio_world)
    (op : gb_operation gb_sdio_transfer_request) :
  sizeof_gb_sdio_transfer_request <= request_payload_size op ->
  status (gb_sdio_protocol_transfer w op) = GB_OP_SUCCESS \/
  (exists c d,
      calls (world (gb_sdio_protocol_transfer w op)) = calls w ++ [Call_request c d] /\
      request_errno (sdhc_dev (info w)) (calls w) c d <> 0) ->
  has_deferred_cmd (info (world (gb_sdio_protocol_transfer w op))) = false.
Proof.
  intros Hsz. apply Z.ltb_ge in Hsz.
  unfold gb_sdio_protocol_transfer, request_errno. rewrite Hsz.
  destruct (has_deferred_cmd (info w)) eqn:Hp; cbn [negb].
  2:{ cbn. intros [E|(c & d & E & _)]; [discriminate|].
      exfalso. exact (app_one_neq _ _ E). }
  destruct (negb (Z.land _ GB_SDIO_DATA_WRITE =? 0)).
  - unfold array_is_null.
    destruct (drv_request _ _ _ _) as [[r c'] bytes] eqn:E.
    destruct (r =? 0) eqn:Hr; cbn [negb].
    + destruct (gb_operation_alloc_response _ _); cbn; [reflexivity|].
      intros [F|(c & d & F & G)]; [discriminate|].
      apply app_one_inj in F. injection F as <- <-.
      rewrite E in G. cbn in G. apply Z.eqb_eq in Hr. contradiction.
    + reflexivity.
  - destruct (negb (Z.land _ GB_SDIO_DATA_READ =? 0)).
    + destruct (gb_operation_alloc_response _ _).
      * destruct (drv_request _ _ _ _) as [[r c'] bytes] eqn:E.
        destruct (r =? 0); reflexivity.
      * cbn. intros [F|(c & d & F & _)]; [discriminate|].
        exfalso. exact (app_one_neq _ _ F).
    + cbn. intros [F|(c & d & F & _)]; [discriminate|].
      exfalso. exact (app_one_neq _ _ F).
Qed.

(** A transfer whose flags name neither direction returns at once: the
    command stays pending and the driver is not called. *)
Lemma transfer_no_direction (w : sdio_world)
    (op : gb_operation gb_sdio_transfer_request) :
  sizeof_gb_sdio_transfer_request <= request_payload_size op ->
  has_deferred_cmd (info w) = true ->
  Z.land (uint8_t (data_flags (request_payload op))) GB_SDIO_DATA_WRITE = 0 ->
  Z.land (uint8_t (data_flags (request_payload op))) GB_SDIO_DATA_READ = 0 ->
  gb_sdio_protocol_transfer w op = ret GB_OP_INVALID w None.
Proof.
  intros Hsz Hp Hw Hr. unfold gb_sdio_protocol_transfer.
  apply Z.ltb_ge in Hsz. rewrite Hsz, Hp, Hw, Hr. reflexivity.
Qed.

(** A transfer whose request is large enough and that finds no
    pending command returns Invalid, leaves the world as it was and so
    makes no driver call; and after a transfer that returned success,
    or whose driver call returned a nonzero errno, a second transfer
    with no command in between returns Invalid in the same way.  (A
    write whose driver call succeeded and whose response could not be
    allocated is neither of the two.) *)
Theorem transfer_requires_pending_command (w : sdio_world)
    (op : gb_operation gb_sdio_transfer_request) :
  sizeof_gb_sdio_transfer_request <= request_payload_size op ->
  (has_deferred_cmd (info w) = false ->
   gb_sdio_protocol_transfer w op = ret GB_OP_INVALID w None) /\
  (forall op2 : gb_operation gb_sdio_transfer_request,
      sizeof_gb_sdio_transfer_request <= request_payload_size op2 ->
      let first := gb_sdio_protocol_transfer w op in
      status first = GB_OP_SUCCESS \/
      (exists c d,
          calls (world first) = calls w ++ [Call_request c d] /\
          request_errno (sdhc_dev (info w)) (calls w) c d <> 0) ->
      gb_sdio_protocol_transfer (world first) op2 =
      ret GB_OP_INVALID (world first) None).
Proof.
  intros Hsz. split.
  - apply transfer_not_pending; assumption.
  - intros op2 Hsz2 first Hdone.
    apply transfer_not_pending; [assumption|].
    apply transfer_completed_clears; assumption.
Qed.

(** C5 (as amended): when the host-properties query and the response
    allocation succeed, the computed maximum is the largest of
    {512, 1024, 2048} that does not exceed the 16-bit value of the
    payload budget minus the transfer-response header; the handler
    returns Invalid exactly when that value is below 512 and succeeds
    otherwise, reporting max_blk_size 512 and max_blk_count the computed
    maximum divided by 512. *)
Theorem get_capabilities_block_budget (w : sdio_world) (op : gb_operation unit) :
  fst (drv_get_host_props (sdhc_dev (info w)) (calls w)) = 0 ->
  alloc_ok op sizeof_gb_sdio_get_caps_response = true ->
  let v := uint16_t (GB_MAX_PAYLOAD_SIZE - sizeof_gb_sdio_transfer_response) in
  let out := gb_sdio_protocol_get_capabilities w op in
  scale_max_sd_block_length v =
    match largest_not_above v with Some m => m | None => 0 end /\
  (status out = GB_OP_INVALID <-> v < 512) /\
  (512 <= v ->
   status out = GB_OP_SUCCESS /\
   exists m r,
     largest_not_above v = Some m /\
     op_response out = filled sizeof_gb_sdio_get_caps_response r /\
     max_blk_size r = 512 /\
     max_blk_count r = m / 512).
Proof.
  intros Hprops Hmem v out. split; [apply scale_max_sd_block_length_spec|].
  subst out. unfold gb_sdio_protocol_get_capabilities.
  destruct (drv_get_host_props _ _) as [r props]. cbn in Hprops. subst r.
  cbn [Z.eqb negb]. unfold gb_operation_alloc_response. rewrite Hmem.
  fold v.
  destruct (scale_max_sd_block_length_cases v) as [[Hv E]|[[Hv E]|[[Hv E]|[Hv E]]]];
    destruct (largest_not_above_cases v) as [[Hv' F]|[[Hv' F]|[[Hv' F]|[Hv' F]]]];
    try lia; rewrite E; cbn [Z.eqb ret status op_response];
    (split; [split; [intro; try discriminate; lia | intro; try reflexivity; lia]|]);
    intros Hfit; try lia;
    (split; [reflexivity|]);
    eexists; eexists; (split; [exact F|]); (split; [reflexivity|]);
    split; reflexivity.
Qed.

(** C6 (as amended): a command whose request is large enough and that
    declares no data blocks is executed at once, by one driver call
    with the decoded command and no data; when that call and the
    response allocation succeed the response carries the four response
    words the driver left, a failed call yields its translated errno
    and no response, a failed allocation NoMemory.  A command that
    declares data blocks is stored in the adapter state with the
    pending flag set and no driver call; when the allocation succeeds
    the ready-for-data response is returned, otherwise NoMemory with the
    command still stored. *)
Theorem command_immediate_or_deferred (w : sdio_world)
    (op : gb_operation gb_sdio_command_request) :
  sizeof_gb_sdio_command_request <= request_payload_size op ->
  let request := request_payload op in
  let cmd := decode_command request in
  let out := gb_sdio_protocol_command w op in
  let mem := alloc_ok op sizeof_gb_sdio_command_response in
  (sys_le16_to_cpu (cmd_data_blocks request) = 0 ->
   let r := request_errno (sdhc_dev (info w)) (calls w) cmd None in
   let cmd' := request_command (sdhc_dev (info w)) (calls w) cmd None in
   world out = logged (Call_request cmd None) w /\
   (r = 0 -> mem = true ->
    status out = GB_OP_SUCCESS /\
    op_response out =
      filled sizeof_gb_sdio_command_response {| resp := response_words cmd' |}) /\
   (r <> 0 -> status out = gb_errno_to_op_result r /\ op_response out = None) /\
   (r = 0 -> mem = false -> status out = GB_OP_NO_MEMORY /\ op_response out = None)) /\
  (0 < sys_le16_to_cpu (cmd_data_blocks request) ->
   deferred_cmd (info (world out)) = cmd /\
   has_deferred_cmd (info (world out)) = true /\
   calls (world out) = calls w /\
   (mem = true ->
    status out = GB_OP_SUCCESS /\
    op_response out =
      filled sizeof_gb_sdio_command_response {| resp := ready_for_data |}) /\
   (mem = false -> status out = GB_OP_NO_MEMORY /\ op_response out = None)).
Proof.
  intros Hsz request cmd out mem. apply Z.ltb_ge in Hsz.
  subst out. unfold gb_sdio_protocol_command. rewrite Hsz.
  fold request. fold cmd. unfold gb_operation_alloc_response. fold mem.
  split.
  - intros Hz. rewrite Hz. cbn [Z.gtb Z.compare].
    unfold request_errno, request_command.
    destruct (drv_request _ _ _ _) as [[r c'] bytes]. cbn [fst snd].
    destruct (Z.eqb_spec r 0) as [->|Hr]; cbn [negb].
    + destruct mem; cbn; repeat split; intros; try reflexivity; try discriminate;
        try contradiction.
    + cbn. repeat split; intros; try reflexivity; try contradiction.
  - intros Hpos. apply Z.gtb_lt in Hpos. rewrite Hpos.
    destruct mem; cbn; repeat split; intros; try reflexivity; try discriminate.
Qed.

End SdioProperties.

Section SdioRuns.
Import Sdio SdioSamples.
#[local] Existing Instance reference_headers.

(** C1 (the code departs from it): three transfers that find a command
    pending and return with the flag still set.  With neither direction
    flag the handler returns Invalid; on a read, and on a write after the
    driver has executed the command, a failed response allocation
    returns NoMemory. *)
Theorem transfer_early_returns_keep_pending :
  (let out := gb_sdio_protocol_transfer (world_of sdhc_stub true) (transfer_op 0 true) in
   status out = GB_OP_INVALID /\
   has_deferred_cmd (info (world out)) = true /\
   calls (world out) = []) /\
  (let out := gb_sdio_protocol_transfer (world_of sdhc_stub true) (transfer_op 2 false) in
   status out = GB_OP_NO_MEMORY /\
   has_deferred_cmd (info (world out)) = true /\
   calls (world out) = []) /\
  (let out := gb_sdio_protocol_transfer (world_of sdhc_stub true) (transfer_op 1 false) in
   status out = GB_OP_NO_MEMORY /\
   has_deferred_cmd (info (world out)) = true /\
   length (calls (world out)) = 1%nat).
Proof.
  repeat split; reflexivity.
Qed.

(** A transfer with no command pending on the stub driver, and a second
    transfer after one whose driver call failed. *)
Lemma transfer_requires_pending_command_witness :
  gb_sdio_protocol_transfer (world_of sdhc_stub false) (transfer_op 2 true) =
    ret GB_OP_INVALID (world_of sdhc_stub false) None /\
  (let first := gb_sdio_protocol_transfer (world_of sdhc_broken true) (transfer_op 2 true) in
   status first = GB_OP_UNKNOWN_ERROR /\
   gb_sdio_protocol_transfer (world first) (transfer_op 1 true) =
     ret GB_OP_INVALID (world first) None).
Proof.
  split.
  - apply (proj1 (transfer_requires_pending_command (H := reference_headers)
                    (world_of sdhc_stub false) (transfer_op 2 true)
                    ltac:(by_evaluation))).
    reflexivity.
  - split; [reflexivity|].
    apply (proj2 (transfer_requires_pending_command (H := reference_headers)
                    (world_of sdhc_broken true) (transfer_op 2 true)
                    ltac:(by_evaluation)) (transfer_op 1 true)).
    + by_evaluation.
    + right. eexists. eexists. split; [reflexivity|]. by_evaluation.
Defined.

(** Command 17 on the stub driver, without and with data blocks. *)
Lemma command_immediate_or_deferred_witness :
  (let out := gb_sdio_protocol_command (world_of sdhc_stub false) (command_op 0 true) in
   status out = GB_OP_SUCCESS /\
   op_response out = filled 16 {| resp := [0x00000900; 0; 0; 0] |}) /\
  (let out := gb_sdio_protocol_command (world_of sdhc_stub false) (command_op 3 true) in
   has_deferred_cmd (info (world out)) = true /\
   calls (world out) = [] /\
   status out = GB_OP_SUCCESS /\
   op_response out = filled 16 {| resp := ready_for_data |}).
Proof.
  split.
  - destruct (proj1 (command_immediate_or_deferred (H := reference_headers)
                       (world_of sdhc_stub false) (command_op 0 true)
                       ltac:(by_evaluation)) eq_refl) as (_ & Hok & _).
    exact (Hok eq_refl eq_refl).
  - destruct (proj2 (command_immediate_or_deferred (H := reference_headers)
                       (world_of sdhc_stub false) (command_op 3 true)
                       ltac:(by_evaluation)) ltac:(by_evaluation)) as (_ & Hflag & Hcalls & Hok & _).
    destruct (Hok eq_refl) as [Hs Hr].
    repeat split; assumption.
Defined.

(** Counterexample to C6 as stated: two commands with a large enough request
    for which no response is produced.  The first declares no data
    blocks and the driver fails; the second declares one data block and
    the response allocation fails. *)
Lemma command_without_response :
  (let op := command_op 0 true in
   let out := gb_sdio_protocol_command (world_of sdhc_broken false) op in
   sizeof_gb_sdio_command_request <= request_payload_size op /\
   sys_le16_to_cpu (cmd_data_blocks (request_payload op)) = 0 /\
   status out = GB_OP_UNKNOWN_ERROR /\
   op_response out = None) /\
  (let op := command_op 1 false in
   let out := gb_sdio_protocol_command (world_of sdhc_stub false) op in
   sizeof_gb_sdio_command_request <= request_payload_size op /\
   0 < sys_le16_to_cpu (cmd_data_blocks (request_payload op)) /\
   status out = GB_OP_NO_MEMORY /\
   op_response out = None).
Proof.
  repeat split; try reflexivity; by_evaluation.
Qed.

End SdioRuns.

Section SdioBudgetRuns.
Import Sdio SdioSamples.

(** The stub driver on a channel with a budget of 2040 bytes: 2036 bytes
    are left for data, and the handler reports 2 blocks of 512. *)
Lemma get_capabilities_block_budget_witness :
  let out := gb_sdio_protocol_get_capabilities (H := reference_headers)
               (world_of sdhc_stub false) (caps_op true) in
  status out = GB_OP_SUCCESS /\
  exists r, op_response out = filled 20 r /\
            max_blk_size r = 512 /\ max_blk_count r = 2.
Proof.
  destruct (get_capabilities_block_budget (H := reference_headers)
              (world_of sdhc_stub false) (caps_op true) eq_refl eq_refl)
    as (_ & _ & Hfit).
  destruct (Hfit ltac:(by_evaluation)) as (Hs & m & r & Hm & Hr & Hsize & Hcount).
  split; [exact Hs|].
  exists r. split; [exact Hr|]. split; [exact Hsize|].
  rewrite Hcount. injection Hm as <-. reflexivity.
Defined.

(** Counterexample to C5 as stated: on a channel whose payload budget less the
    transfer-response header is exactly 1024, the largest block size
    strictly below that value is 512, and the handler computes 1024 (it
    reports 2 blocks of 512); when the value is exactly 512 no block
    size is strictly below it, and the handler succeeds with 1 block. *)
Lemma get_capabilities_at_block_boundary :
  (let H := headers_with_budget 1028 in
   let out := gb_sdio_protocol_get_capabilities (world_of sdhc_stub false) (caps_op true) in
   GB_MAX_PAYLOAD_SIZE - sizeof_gb_sdio_transfer_response = 1024 /\
   largest_strictly_below 1024 = Some 512 /\
   scale_max_sd_block_length 1024 = 1024 /\
   Some (scale_max_sd_block_length 1024) <> largest_strictly_below 1024 /\
   status out = GB_OP_SUCCESS /\
   exists r, op_response out = filled 20 r /\ max_blk_count r = 2) /\
  (let H := headers_with_budget 516 in
   let out := gb_sdio_protocol_get_capabilities (world_of sdhc_stub false) (caps_op true) in
   GB_MAX_PAYLOAD_SIZE - sizeof_gb_sdio_transfer_response = 512 /\
   largest_strictly_below 512 = None /\
   status out = GB_OP_SUCCESS /\
   exists r, op_response out = filled 20 r /\ max_blk_count r = 1).
Proof.
  split; cbv zeta; repeat split; try reflexivity; try discriminate;
    eexists; split; reflexivity.
Qed.

End SdioBudgetRuns.

(** ** Properties of the HID adapter *)

Section HidProperties.
Import Hid.
Context {H : greybus_headers}.

Lemma uint8_t_nonneg (v : Z) : 0 <= uint8_t v.
Proof.
  unfold uint8_t. apply Z.mod_pos_bound. reflexivity.
Qed.

Lemma uint16_t_small (v : Z) : 0 <= v <= 65535 -> uint16_t v = v.
Proof.
  intros Hv. unfold uint16_t. apply Z.mod_small.
  change (2 ^ 16) with 65536. lia.
Qed.

(** The state [gb_hid_init] hands to the bundle has no report-descriptor
    length cached and holds the device it was given. *)
Lemma gb_hid_init_state (cport : Z) (mem queue_mem : bool) (binding : option device)
    (calls0 calls1 : list hid_call) (r : Z) (hid_info : gb_hid_info)
    (storage : bool) :
  gb_hid_init cport mem queue_mem binding calls0 = (r, Some hid_info, calls1, storage) ->
  r = 0 /\ report_desc_len hid_info = 0 /\ hid_dev hid_info = binding /\
  msgs (data_queue hid_info) = [].
Proof.
  unfold gb_hid_init. destruct mem; cbn [negb]; [|discriminate].
  destruct (match match binding with Some dev => api dev | None => None end with
            | Some a => get_max_report_length a
            | None => None
            end) as [f|].
  - destruct (f calls0 GB_HID_INPUT_REPORT <? 0); [discriminate|].
    destruct (match match binding with Some dev => api dev | None => None end with
              | Some a => register_callback a
              | None => None
              end) as [g|].
    + destruct (negb (g _ =? 0)); [discriminate|].
      intros E. injection E as <- <- _ _. repeat split.
    + intros E. injection E as <- <- _ _. repeat split.
  - cbn [Z.ltb Z.compare].
    destruct (match match binding with Some dev => api dev | None => None end with
              | Some a => register_callback a
              | None => None
              end) as [g|].
    + destruct (negb (g _ =? 0)); [discriminate|].
      intros E. injection E as <- <- _ _. repeat split.
    + intros E. injection E as <- <- _ _. repeat split.
Qed.

(** C2 (as amended): on the state [gb_hid_init] leaves, before any
    get_descriptor, the cached length is 0 and get_report_descriptor
    does not fail for that: it asks for a response of 0 bytes and
    succeeds exactly when the entry is present, the allocation succeeds
    and the call returns 0.  A failed allocation gives NoMemory with no
    response and no driver call; a failed call gives UnknownError; a
    missing device, table or entry, like a missing bundle or adapter
    state, gives UnknownError with no response and no driver call. *)
Theorem get_report_descriptor_before_get_descriptor
    (cport : Z) (mem queue_mem : bool) (binding : option device)
    (l0 l1 l : list hid_call) (r : Z) (hid_info : gb_hid_info) (storage : bool)
    (op : gb_operation unit) :
  gb_hid_init cport mem queue_mem binding l0 = (r, Some hid_info, l1, storage) ->
  let w := {| bundle := Some {| priv := Some hid_info |}; calls := l |} in
  let out := gb_hid_get_report_descriptor w op in
  report_desc_len hid_info = 0 /\
  (forall dev a f,
      binding = Some dev -> api dev = Some a -> get_report_descriptor a = Some f ->
      (alloc_ok op 0 = true -> fst (f l) = 0 ->
       status out = GB_OP_SUCCESS /\ op_response out = filled 0 (snd (f l))) /\
      (alloc_ok op 0 = true -> fst (f l) <> 0 ->
       status out = GB_OP_UNKNOWN_ERROR /\ op_response out = unfilled 0) /\
      (alloc_ok op 0 = false -> out = ret GB_OP_NO_MEMORY w None)) /\
  (binding = None \/
   (exists dev, binding = Some dev /\ api dev = None) \/
   (exists dev a, binding = Some dev /\ api dev = Some a /\
                  get_report_descriptor a = None) ->
   out = ret GB_OP_UNKNOWN_ERROR w None) /\
  (forall w0, bundle w0 = None \/ bundle w0 = Some {| priv := None |} ->
              gb_hid_get_report_descriptor w0 op = ret GB_OP_UNKNOWN_ERROR w0 None) /\
  (status out = GB_OP_SUCCESS ->
   exists dev a f,
     binding = Some dev /\ api dev = Some a /\ get_report_descriptor a = Some f /\
     alloc_ok op 0 = true /\ fst (f l) = 0).
Proof.
  intros Hinit w out.
  destruct (gb_hid_init_state _ _ _ _ _ _ _ _ _ Hinit) as (_ & Hlen & Hdev & _).
  split; [exact Hlen|].
  subst out. unfold gb_hid_get_report_descriptor, priv_dev_api.
  cbn [bundle priv calls w]. rewrite Hdev.
  unfold gb_operation_alloc_response.
  split; [|split; [|split; [intros w0 [E|E]; rewrite E; reflexivity|]]].
  - intros dev a f -> -> ->. rewrite Hlen.
    destruct (alloc_ok op 0); destruct (f l) as [x desc]; cbn [fst snd];
      destruct (Z.eqb_spec x 0); cbn;
      repeat split; intros; try reflexivity; try discriminate; try contradiction.
  - intros [->|[(dev & -> & Ha)|(dev & a & -> & Ha & Hf)]].
    + reflexivity.
    + rewrite Ha. reflexivity.
    + rewrite Ha, Hf. reflexivity.
  - destruct binding as [dev|]; [|discriminate].
    destruct (api dev) as [a|] eqn:Ha; [|discriminate].
    destruct (get_report_descriptor a) as [f|] eqn:Hf; [|discriminate].
    rewrite Hlen.
    destruct (alloc_ok op 0); [|discriminate].
    destruct (f l) as [x desc] eqn:E.
    destruct (Z.eqb_spec x 0); cbn; [|discriminate].
    intros _. exists dev, a, f. rewrite E. cbn [fst]. repeat split; assumption.
Qed.

(** What [gb_hid_set_report] does once its guards have passed: the
    driver's report length is kept in 16 bits, and [set_report] is
    called unless those 16 bits are zero. *)
Lemma set_report_length_guard (w : hid_world)
    (op : gb_operation gb_hid_set_report_request)
    (b : gb_bundle) (hid_info : gb_hid_info) (a : device_hid_api)
    (flen : list hid_call -> Z -> Z -> Z)
    (fset : list hid_call -> Z -> Z -> list Z -> Z -> Z) :
  sizeof_gb_hid_set_report_request <= request_payload_size op ->
  bundle w = Some b -> priv_dev_api b = Some (hid_info, a) ->
  get_report_length a = Some flen -> set_report a = Some fset ->
  let request := request_payload op in
  let rtype := uint8_t (set_report_type request) in
  let rid := uint8_t (set_report_id request) in
  let len := uint16_t (flen (calls w) rtype rid) in
  (len = 0 ->
   gb_hid_set_report w op =
   Some (ret GB_OP_UNKNOWN_ERROR (logged (Call_get_report_length rtype rid) w) None)) /\
  (len <> 0 ->
   exists out,
     gb_hid_set_report w op = Some out /\
     calls (world out) =
       calls w ++ [Call_get_report_length rtype rid;
                   Call_set_report rtype rid (report request) len]).
Proof.
  intros Hsz Hb Hp Hl Hs request rtype rid len. apply Z.ltb_ge in Hsz.
  unfold gb_hid_set_report. rewrite Hsz, Hb, Hp, Hl, Hs.
  fold request. fold rtype. fold rid. fold len.
  assert (0 <= len) by (apply Z.mod_pos_bound; reflexivity).
  split.
  - intros ->. reflexivity.
  - intros Hn. destruct (Z.leb_spec len 0); [lia|].
    cbn [calls logged bundle].
    destruct (negb _); eexists; (split; [reflexivity|]); cbn;
      rewrite <- app_assoc; reflexivity.
Qed.

(** C9 (as amended): when get_report succeeds, the response it allocated
    has the length the capability reported plus the report-id prefix
    byte, taken in 16 bits; when that sum is at most 65535 it is the sum
    itself. The bytes the driver writes play no part. *)
Theorem get_report_response_length (w : hid_world)
    (op : gb_operation gb_hid_get_report_request)
    (out : outcome hid_world (list Z)) :
  gb_hid_get_report w op = Some out ->
  status out = GB_OP_SUCCESS ->
  exists r bytes,
    reported_length w (request_payload op) = Some r /\
    0 < r /\
    op_response out =
      filled (uint16_t (uint16_t r + prefix_bytes (request_payload op))) bytes /\
    (r + prefix_bytes (request_payload op) <= 65535 ->
     op_response out = filled (r + prefix_bytes (request_payload op)) bytes).
Proof.
  unfold gb_hid_get_report, reported_length, prefix_bytes.
  destruct (_ <? _); [intros [= <-]; discriminate|].
  destruct (bundle w) as [b|]; [|discriminate].
  destruct (priv_dev_api b) as [[hid_info a]|]; [|intros [= <-]; discriminate].
  destruct (get_report_length a) as [flen|]; [|intros [= <-]; discriminate].
  set (rid := uint8_t (report_id (request_payload op))).
  set (rtype := uint8_t (report_type (request_payload op))).
  set (r := flen (calls w) rtype rid).
  pose proof (uint8_t_nonneg (report_id (request_payload op))) as Hrid. fold rid in Hrid.
  destruct (Z.leb_spec r 0) as [|Hr]; [intros [= <-]; discriminate|].
  assert (Hlen : (if rid >? 0 then uint16_t (uint16_t r + 1) else uint16_t r)
                 = uint16_t (uint16_t r + (if rid =? 0 then 0 else 1))).
  { destruct (Z.eqb_spec rid 0) as [->|Hne].
    - cbn [Z.gtb Z.compare]. rewrite Z.add_0_r. unfold uint16_t.
      rewrite Z.mod_mod; [reflexivity|discriminate].
    - destruct (Z.gtb_spec rid 0); [reflexivity|lia]. }
  rewrite Hlen. clear Hlen.
  set (len := uint16_t (uint16_t r + (if rid =? 0 then 0 else 1))).
  unfold gb_operation_alloc_response.
  destruct (alloc_ok op len); [|intros [= <-]; discriminate].
  destruct (get_report a) as [fget|]; [|intros [= <-]; discriminate].
  destruct (fget _ rtype rid len) as [x bytes].
  destruct (negb (x =? 0)); intros [= <-]; [discriminate|].
  intros _. exists r, bytes. repeat split; try assumption.
  intros Hfit. cbn [op_response ret]. f_equal. f_equal. subst len.
  assert (0 <= (if rid =? 0 then 0 else 1) <= 1) by (destruct (rid =? 0); lia).
  rewrite (uint16_t_small r) by lia.
  apply uint16_t_small. lia.
Qed.

(** C10: a report longer than 256 bytes makes the callback return
    -EINVAL, a negative value, and leave the adapter state, with its
    queue, as it was, whatever the queue holds. *)
Theorem oversized_report_is_rejected (data : gb_hid_info) (report_type : Z)
    (report : list Z) (len : Z) :
  256 < len ->
  hid_event_callback_routine data report_type report len = (- EINVAL, data) /\
  fst (hid_event_callback_routine data report_type report len) < 0 /\
  msgs (data_queue (snd (hid_event_callback_routine data report_type report len)))
  = msgs (data_queue data).
Proof.
  intros Hlen. unfold hid_event_callback_routine, sizeof_msg_data.
  apply Z.gtb_lt in Hlen. rewrite Hlen. cbn [fst snd].
  split; [reflexivity|]. split; reflexivity.
Qed.

End HidProperties.

Section HidRuns.
Import Hid HidSamples.
#[local] Existing Instance reference_headers.

(** A device whose driver has every entry, right after init. *)
Lemma get_report_descriptor_before_get_descriptor_witness :
  let out := gb_hid_get_report_descriptor (world_after_init 8) (plain_op true) in
  report_desc_len (state_after_init 8) = 0 /\
  status out = GB_OP_SUCCESS /\ op_response out = filled 0 [].
Proof.
  destruct (get_report_descriptor_before_get_descriptor
              2 true true (Some (device_reporting 8)) []
              (calls (world_after_init 8)) (calls (world_after_init 8))
              0 (state_after_init 8) true (plain_op true) eq_refl)
    as (Hlen & Hpresent & _).
  split; [exact Hlen|].
  destruct (Hpresent (device_reporting 8) (driver_reporting 8) (fun _ => (0, []))
              eq_refl eq_refl eq_refl) as (Hok & _).
  exact (Hok eq_refl eq_refl).
Defined.

(** Counterexample to C2 as stated: on the state that [gb_hid_init] has just
    produced, with no get_descriptor call made, get_report_descriptor
    returns success when the entry is present and its call succeeds. *)
Lemma get_report_descriptor_succeeds_uncached :
  gb_hid_init 2 true true (Some (device_reporting 8)) [] =
    (0, Some (state_after_init 8), calls (world_after_init 8), true) /\
  ~ In Call_get_descriptor (calls (world_after_init 8)) /\
  let out := gb_hid_get_report_descriptor (world_after_init 8) (plain_op true) in
  status out = GB_OP_SUCCESS /\
  status out <> GB_OP_UNKNOWN_ERROR /\
  op_response out = filled 0 [].
Proof.
  split; [reflexivity|]. split.
  - cbn. intros [E|[E|[]]]; discriminate.
  - cbv zeta. split; [reflexivity|]. split; [discriminate|reflexivity].
Qed.

(** C4 (the code departs from it): the driver answers -EINVAL for the
    report length; kept in 16 bits that is 65514, the guard does not
    fire, and set_report is called with that length. *)
Theorem set_report_after_negative_length :
  let w := world_after_init (- EINVAL) in
  let op := set_report_op 3 in
  sizeof_gb_hid_set_report_request <= request_payload_size op /\
  reported_length w {| report_type := GB_HID_OUTPUT_REPORT; report_id := 0 |}
    = Some (- 22) /\
  exists out,
    gb_hid_set_report w op = Some out /\
    status out = GB_OP_SUCCESS /\
    calls (world out) =
      calls w ++ [Call_get_report_length GB_HID_OUTPUT_REPORT 0;
                  Call_set_report GB_HID_OUTPUT_REPORT 0 [0x02] 65514].
Proof.
  cbv zeta. split; [by_evaluation|]. split; [reflexivity|].
  eexists. split; [reflexivity|]. split; reflexivity.
Qed.

(** A report of 8 bytes with report id 1: 9 bytes are allocated. *)
Lemma get_report_response_length_witness :
  exists out,
    gb_hid_get_report (world_after_init 8) (get_report_op 1 2) = Some out /\
    status out = GB_OP_SUCCESS /\
    exists bytes, op_response out = filled 9 bytes.
Proof.
  eexists. split; [reflexivity|]. split; [reflexivity|].
  destruct (get_report_response_length (H := reference_headers)
              (world_after_init 8) (get_report_op 1 2) _ eq_refl eq_refl)
    as (r & bytes & Hr & _ & _ & Hfit).
  vm_compute in Hr. injection Hr as <-.
  exists bytes. apply Hfit. by_evaluation.
Defined.

(** Counterexample to C9 as stated: the capability reports 65535 bytes for a
    report with a nonzero id; get_report succeeds with a response of 0
    bytes, not 65536. *)
Lemma get_report_length_wraps :
  let w := world_after_init 65535 in
  let op := get_report_op 1 2 in
  reported_length w (request_payload op) = Some 65535 /\
  prefix_bytes (request_payload op) = 1 /\
  exists out,
    gb_hid_get_report w op = Some out /\
    status out = GB_OP_SUCCESS /\
    op_response out = filled 0 [] /\
    op_response out <> filled (65535 + 1) [].
Proof.
  cbv zeta. split; [reflexivity|]. split; [reflexivity|].
  eexists. split; [reflexivity|]. split; [reflexivity|].
  split; [reflexivity|discriminate].
Qed.

(** A report of 300 bytes while two messages are queued. *)
Lemma oversized_report_is_rejected_witness :
  hid_event_callback_routine (state_with_queue 2) GB_HID_INPUT_REPORT
    (repeat 0 300) 300 = (- 22, state_with_queue 2).
Proof.
  apply (oversized_report_is_rejected (state_with_queue 2) GB_HID_INPUT_REPORT
           (repeat 0 300) 300).
  by_evaluation.
Defined.

End HidRuns.

(** ** Properties of the USB host adapter *)

Section UsbProperties.
Import Usb.
Context {H : greybus_headers}.

(** C3 (as amended): a hub_control whose request is large enough asks
    for a response of the response header plus the declared wLength;
    when that allocation succeeds the handler returns UnknownError with
    the buffer left unwritten, when it fails NoMemory with no response.
    It never returns success and leaves the adapter's world as it
    was. *)
Theorem hub_control_is_refused (w : usb_world)
    (op : gb_operation gb_usb_hub_control_request) :
  sizeof_gb_usb_hub_control_request <= request_payload_size op ->
  let size := sizeof_gb_usb_hub_control_response +
              sys_le16_to_cpu (wLength (request_payload op)) in
  let out := gb_usb_hub_control w op in
  world out = w /\
  status out <> GB_OP_SUCCESS /\
  (alloc_ok op size = true ->
   status out = GB_OP_UNKNOWN_ERROR /\ op_response out = unfilled size) /\
  (alloc_ok op size = false ->
   status out = GB_OP_NO_MEMORY /\ op_response out = None).
Proof.
  intros Hsz size out. apply Z.ltb_ge in Hsz.
  subst out. unfold gb_usb_hub_control. rewrite Hsz.
  unfold gb_operation_alloc_response. cbn [decode_setup setup_wLength].
  fold size. destruct (alloc_ok op size); cbn;
    repeat split; intros; try reflexivity; discriminate.
Qed.

End UsbProperties.

Section UsbRuns.
Import Usb UsbSamples.
#[local] Existing Instance reference_headers.

(** GetHubDescriptor with wLength 15 and memory available. *)
Lemma hub_control_is_refused_witness :
  let out := gb_usb_hub_control no_controller (hub_control_op 8 true) in
  status out = GB_OP_UNKNOWN_ERROR /\ op_response out = unfilled 15.
Proof.
  destruct (hub_control_is_refused (H := reference_headers)
              no_controller (hub_control_op 8 true) ltac:(by_evaluation))
    as (_ & _ & Hok & _).
  exact (Hok eq_refl).
Defined.

(** Counterexample to C3 as stated: with a large enough request and the
    response allocated, the status the handler returns is the
    unknown-error code, which is not the not-supported member of the
    taxonomy; and when the allocation fails the handler returns
    NoMemory and there is no response buffer at all. *)
Lemma hub_control_reports_unknown_error :
  (let op := hub_control_op 8 true in
   let out := gb_usb_hub_control no_controller op in
   sizeof_gb_usb_hub_control_request <= request_payload_size op /\
   status out = GB_OP_UNKNOWN_ERROR /\
   taxonomy (status out) <> NotSupported) /\
  (let op := hub_control_op 8 false in
   let out := gb_usb_hub_control no_controller op in
   sizeof_gb_usb_hub_control_request <= request_payload_size op /\
   status out = GB_OP_NO_MEMORY /\
   taxonomy (status out) <> NotSupported /\
   op_response out = None).
Proof.
  cbv zeta. repeat split; try reflexivity; try discriminate; by_evaluation.
Qed.

End UsbRuns.

(** ** Short requests, across the adapters *)

Section ShortRequests.
Context {H : greybus_headers}.

(** C8: every handler that reads a request payload, given a payload
    shorter than its request structure, returns Invalid, allocates no
    response and leaves the adapter's world (its state and the driver's
    call history) as it was. *)
Theorem short_request_is_invalid :
  (forall w (op : gb_operation Hid.gb_hid_get_report_request),
      request_payload_size op < sizeof_gb_hid_get_report_request ->
      Hid.gb_hid_get_report w op = Some (ret GB_OP_INVALID w None)) /\
  (forall w (op : gb_operation Hid.gb_hid_set_report_request),
      request_payload_size op < sizeof_gb_hid_set_report_request ->
      Hid.gb_hid_set_report w op = Some (ret GB_OP_INVALID w None)) /\
  (forall w (op : gb_operation Sdio.gb_sdio_set_ios_request),
      request_payload_size op < sizeof_gb_sdio_set_ios_request ->
      Sdio.gb_sdio_protocol_set_ios w op = ret GB_OP_INVALID w None) /\
  (forall w (op : gb_operation Sdio.gb_sdio_command_request),
      request_payload_size op < sizeof_gb_sdio_command_request ->
      Sdio.gb_sdio_protocol_command w op = ret GB_OP_INVALID w None) /\
  (forall w (op : gb_operation Sdio.gb_sdio_transfer_request),
      request_payload_size op < sizeof_gb_sdio_transfer_request ->
      Sdio.gb_sdio_protocol_transfer w op = ret GB_OP_INVALID w None) /\
  (forall w (op : gb_operation Usb.gb_usb_hub_control_request),
      request_payload_size op < sizeof_gb_usb_hub_control_request ->
      Usb.gb_usb_hub_control w op = ret GB_OP_INVALID w None).
Proof.
  repeat split; intros w op Hshort; apply Z.ltb_lt in Hshort.
  - unfold Hid.gb_hid_get_report. rewrite Hshort. reflexivity.
  - unfold Hid.gb_hid_set_report. rewrite Hshort. reflexivity.
  - unfold Sdio.gb_sdio_protocol_set_ios. rewrite Hshort. reflexivity.
  - unfold Sdio.gb_sdio_protocol_command. rewrite Hshort. reflexivity.
  - unfold Sdio.gb_sdio_protocol_transfer. rewrite Hshort. reflexivity.
  - unfold Usb.gb_usb_hub_control. rewrite Hshort. reflexivity.
Qed.

End ShortRequests.

Section ShortRequestRuns.
#[local] Existing Instance reference_headers.

(** Requests one byte short of their structure. *)
Lemma short_request_is_invalid_witness :
  Hid.gb_hid_get_report (HidSamples.world_after_init 8) (HidSamples.get_report_op 1 1)
    = Some (ret GB_OP_INVALID (HidSamples.world_after_init 8) None) /\
  Hid.gb_hid_set_report (HidSamples.world_after_init 8) (HidSamples.set_report_op 1)
    = Some (ret GB_OP_INVALID (HidSamples.world_after_init 8) None) /\
  Sdio.gb_sdio_protocol_set_ios (SdioSamples.world_of SdioSamples.sdhc_stub true)
    SdioSamples.short_set_ios_op
    = ret GB_OP_INVALID (SdioSamples.world_of SdioSamples.sdhc_stub true) None /\
  Usb.gb_usb_hub_control UsbSamples.no_controller (UsbSamples.hub_control_op 7 true)
    = ret GB_OP_INVALID UsbSamples.no_controller None.
Proof.
  destruct (short_request_is_invalid (H := reference_headers))
    as (Hget & Hset & Hios & _ & _ & Hhub).
  split; [apply Hget; by_evaluation|].
  split; [apply Hset; by_evaluation|].
  split; [apply Hios; by_evaluation|].
  apply Hhub; by_evaluation.
Defined.

End ShortRequestRuns.

(** ** Further properties of the SDIO adapter *)

Section SdioDispatch.
Import Sdio SdioDriver.
Context {H : greybus_headers} {T : greybus_operation_types}.

Lemma uint16_t_idem (v : Z) : uint16_t (uint16_t v) = uint16_t v.
Proof.
  unfold uint16_t. apply Z.mod_mod. discriminate.
Qed.

Lemma set_ios_effect (w : sdio_world) (op : gb_operation gb_sdio_set_ios_request) :
  info (world (gb_sdio_protocol_set_ios w op)) = info w /\
  at_most_one_more (calls w) (calls (world (gb_sdio_protocol_set_ios w op))).
Proof.
  unfold gb_sdio_protocol_set_ios, at_most_one_more.
  destruct (_ <? _); [split; [reflexivity|one_more_or_none]|].
  match goal with |- context [Call_set_io ?i] => generalize i; intro ios end.
  destruct (negb _); cbn; (split; [reflexivity|one_more_or_none]).
Qed.

Lemma get_capabilities_effect (w : sdio_world) (op : gb_operation unit) :
  info (world (gb_sdio_protocol_get_capabilities w op)) = info w /\
  at_most_one_more (calls w) (calls (world (gb_sdio_protocol_get_capabilities w op))).
Proof.
  unfold gb_sdio_protocol_get_capabilities, at_most_one_more.
  repeat (break_match; cbn); (split; [reflexivity|one_more_or_none]).
Qed.

Lemma command_effect (w : sdio_world) (op : gb_operation gb_sdio_command_request) :
  cport (info (world (gb_sdio_protocol_command w op))) = cport (info w) /\
  sdhc_dev (info (world (gb_sdio_protocol_command w op))) = sdhc_dev (info w) /\
  at_most_one_more (calls w) (calls (world (gb_sdio_protocol_command w op))).
Proof.
  unfold gb_sdio_protocol_command, at_most_one_more.
  destruct (_ <? _); [repeat split; one_more_or_none|].
  destruct (_ >? 0).
  - destruct (gb_operation_alloc_response _ _); cbn; repeat split; one_more_or_none.
  - destruct (drv_request _ _ _ _) as [[r c'] bytes].
    destruct (negb _); [cbn; repeat split; one_more_or_none|].
    destruct (gb_operation_alloc_response _ _); cbn; repeat split; one_more_or_none.
Qed.

Lemma transfer_effect (w : sdio_world) (op : gb_operation gb_sdio_transfer_request) :
  cport (info (world (gb_sdio_protocol_transfer w op))) = cport (info w) /\
  sdhc_dev (info (world (gb_sdio_protocol_transfer w op))) = sdhc_dev (info w) /\
  at_most_one_more (calls w) (calls (world (gb_sdio_protocol_transfer w op))).
Proof.
  unfold gb_sdio_protocol_transfer, at_most_one_more, array_is_null.
  repeat (break_match; cbn); repeat split; one_more_or_none.
Qed.

(** Whatever the operation type and the request, the SDIO handler keeps
    the channel number and the device of the adapter state, and calls
    the driver at most once. *)
Theorem sdio_handler_keeps_device (w : sdio_world) (type : Z)
    (opr : gb_operation sdio_request) :
  let out := gb_sdio_handler w type opr in
  cport (info (world out)) = cport (info w) /\
  sdhc_dev (info (world out)) = sdhc_dev (info w) /\
  at_most_one_more (calls w) (calls (world out)).
Proof.
  unfold gb_sdio_handler.
  destruct (type =? GB_SDIO_TYPE_PROTOCOL_VERSION).
  { unfold gb_sdio_protocol_version.
    destruct (gb_operation_alloc_response _ _); cbn; repeat split; left; reflexivity. }
  destruct (type =? GB_SDIO_TYPE_GET_CAPABILITIES).
  { destruct (get_capabilities_effect w (view (fun _ => tt) opr)) as [E C].
    cbn. rewrite E. repeat split. exact C. }
  destruct (type =? GB_SDIO_TYPE_SET_IOS).
  { destruct (set_ios_effect w (view as_set_ios opr)) as [E C].
    cbn. rewrite E. repeat split. exact C. }
  destruct (type =? GB_SDIO_TYPE_COMMAND).
  { exact (command_effect w (view as_command opr)). }
  destruct (type =? GB_SDIO_TYPE_TRANSFER).
  { exact (transfer_effect w (view as_transfer opr)). }
  cbn. repeat split. left. reflexivity.
Qed.

(** Only command and transfer operations touch the adapter state: an
    operation of any other type, known or not, leaves the stored command
    and the pending flag as they were. *)
Theorem sdio_state_changes_only_by_command_and_transfer (w : sdio_world) (type : Z)
    (opr : gb_operation sdio_request) :
  type <> GB_SDIO_TYPE_COMMAND -> type <> GB_SDIO_TYPE_TRANSFER ->
  info (world (gb_sdio_handler w type opr)) = info w.
Proof.
  intros Hc Ht. unfold gb_sdio_handler.
  destruct (type =? GB_SDIO_TYPE_PROTOCOL_VERSION).
  { unfold gb_sdio_protocol_version.
    destruct (gb_operation_alloc_response _ _); reflexivity. }
  destruct (type =? GB_SDIO_TYPE_GET_CAPABILITIES).
  { exact (proj1 (get_capabilities_effect w (view (fun _ => tt) opr))). }
  destruct (type =? GB_SDIO_TYPE_SET_IOS).
  { exact (proj1 (set_ios_effect w (view as_set_ios opr))). }
  destruct (Z.eqb_spec type GB_SDIO_TYPE_COMMAND); [contradiction|].
  destruct (Z.eqb_spec type GB_SDIO_TYPE_TRANSFER); [contradiction|].
  reflexivity.
Qed.

(** A command with data blocks followed by a read transfer, both with
    large enough requests and the product of block count and block size
    within the range of an int.  The command makes no driver call.  The
    transfer asks for a response of the header plus blocks times block
    size bytes; when that allocation fails it returns NoMemory without
    calling the driver and the command stays pending.  Otherwise it
    calls the driver once, with the command decoded from the command
    request and the block count and size of the transfer request, and
    no command is pending afterwards: when the call returns 0 the
    transfer returns success and its response carries the bytes the
    driver read, and when the call fails it returns the translated
    errno with the response left unwritten. *)
Theorem deferred_command_then_read (w : sdio_world)
    (opc : gb_operation gb_sdio_command_request)
    (opt : gb_operation gb_sdio_transfer_request) :
  sizeof_gb_sdio_command_request <= request_payload_size opc ->
  0 < sys_le16_to_cpu (cmd_data_blocks (request_payload opc)) ->
  sizeof_gb_sdio_transfer_request <= request_payload_size opt ->
  Z.land (uint8_t (data_flags (request_payload opt))) GB_SDIO_DATA_WRITE = 0 ->
  Z.land (uint8_t (data_flags (request_payload opt))) GB_SDIO_DATA_READ <> 0 ->
  let cmd := decode_command (request_payload opc) in
  let blocks := sys_le16_to_cpu (data_blocks (request_payload opt)) in
  let blksz := sys_le16_to_cpu (data_blksz (request_payload opt)) in
  blocks * blksz <= 2147483647 ->
  let data := {| block_size := blksz; blocks := blocks; bytes_transferred := 0;
                 data := Response_data (blocks * blksz) |} in
  let size := sizeof_gb_sdio_transfer_response + blocks * blksz in
  let w1 := world (gb_sdio_protocol_command w opc) in
  let out := gb_sdio_protocol_transfer w1 opt in
  let r := request_errno (sdhc_dev (info w)) (calls w) cmd (Some data) in
  calls w1 = calls w /\
  (alloc_ok opt size = false ->
   out = ret GB_OP_NO_MEMORY w1 None /\
   has_deferred_cmd (info (world out)) = true) /\
  (alloc_ok opt size = true ->
   calls (world out) = calls w ++ [Call_request cmd (Some data)] /\
   has_deferred_cmd (info (world out)) = false /\
   (r = 0 ->
    status out = GB_OP_SUCCESS /\
    op_response out =
      filled size
        {| rsp_data_blocks := blocks; rsp_data_blksz := blksz;
           rsp_data := snd (drv_request (sdhc_dev (info w)) (calls w) cmd (Some data)) |}) /\
   (r <> 0 ->
    status out = gb_errno_to_op_result r /\ op_response out = unfilled size)).
Proof.
  intros Hsc Hblocks Hst Hw Hr cmd blocks blksz _ data size w1 out r.
  assert (E1 : w1 = with_info (set_has_deferred_cmd true
                                 (set_deferred_cmd cmd (info w))) w).
  { subst w1. unfold gb_sdio_protocol_command.
    apply Z.ltb_ge in Hsc. rewrite Hsc. apply Z.gtb_lt in Hblocks. rewrite Hblocks.
    fold cmd. destruct (gb_operation_alloc_response _ _); reflexivity. }
  split; [rewrite E1; reflexivity|].
  subst out r. rewrite E1. unfold gb_sdio_protocol_transfer, request_errno.
  apply Z.ltb_ge in Hst. rewrite Hst. cbn [info with_info has_deferred_cmd
    set_has_deferred_cmd set_deferred_cmd negb sdhc_dev deferred_cmd calls cport].
  rewrite Hw. apply Z.eqb_neq in Hr. rewrite Hr. cbn [Z.eqb negb].
  fold blocks. fold blksz. unfold gb_operation_alloc_response. fold size. fold data.
  split.
  - intros ->. split; reflexivity.
  - intros ->.
    destruct (drv_request _ _ _ _) as [[x c'] bytes]. cbn [fst snd].
    destruct (Z.eqb_spec x 0) as [->|Hx]; cbn [negb].
    + cbn. split; [reflexivity|]. split; [reflexivity|]. split.
      * intros _. unfold sys_cpu_to_le16, blocks, blksz, sys_le16_to_cpu.
        rewrite !uint16_t_idem. split; reflexivity.
      * intros E. contradiction.
    + cbn. split; [reflexivity|]. split; [reflexivity|]. split.
      * intros E. contradiction.
      * intros _. split; reflexivity.
Qed.

End SdioDispatch.

Section SdioFlows.
Import Sdio SdioDriver.
Context {H : greybus_headers}.

(** What a command with data blocks leaves behind, whatever its own
    status. *)
Lemma deferred_command_world (w : sdio_world)
    (op : gb_operation gb_sdio_command_request) :
  sizeof_gb_sdio_command_request <= request_payload_size op ->
  0 < sys_le16_to_cpu (cmd_data_blocks (request_payload op)) ->
  world (gb_sdio_protocol_command w op) =
  with_info (set_has_deferred_cmd true
               (set_deferred_cmd (decode_command (request_payload op)) (info w))) w.
Proof.
  intros Hsz Hb. unfold gb_sdio_protocol_command.
  apply Z.ltb_ge in Hsz. rewrite Hsz. apply Z.gtb_lt in Hb. rewrite Hb.
  destruct (gb_operation_alloc_response _ _); reflexivity.
Qed.

(** What a command without data blocks leaves behind, whatever its own
    status. *)
Lemma immediate_command_world (w : sdio_world)
    (op : gb_operation gb_sdio_command_request) :
  sizeof_gb_sdio_command_request <= request_payload_size op ->
  sys_le16_to_cpu (cmd_data_blocks (request_payload op)) = 0 ->
  info (world (gb_sdio_protocol_command w op)) = info w /\
  calls (world (gb_sdio_protocol_command w op)) =
    calls w ++ [Call_request (decode_command (request_payload op)) None].
Proof.
  intros Hsz Hb. unfold gb_sdio_protocol_command.
  apply Z.ltb_ge in Hsz. rewrite Hsz, Hb. cbn [Z.gtb Z.compare].
  destruct (drv_request _ _ _ _) as [[r c'] bytes].
  destruct (negb _); [split; reflexivity|].
  destruct (gb_operation_alloc_response _ _); split; reflexivity.
Qed.

(** A write transfer on a pending command: the driver is called once
    with the stored command and the data bytes of the request; when the
    call and the allocation succeed the transfer returns success with a
    response of the header alone, echoing the block count and size, and
    no command is pending afterwards. *)
Theorem pending_write_transfer (w : sdio_world)
    (op : gb_operation gb_sdio_transfer_request) :
  sizeof_gb_sdio_transfer_request <= request_payload_size op ->
  has_deferred_cmd (info w) = true ->
  Z.land (uint8_t (data_flags (request_payload op))) GB_SDIO_DATA_WRITE <> 0 ->
  let blocks := sys_le16_to_cpu (data_blocks (request_payload op)) in
  let blksz := sys_le16_to_cpu (data_blksz (request_payload op)) in
  let data := {| block_size := blksz; blocks := blocks; bytes_transferred := 0;
                 data := Request_data (req_data (request_payload op)) |} in
  let out := gb_sdio_protocol_transfer w op in
  calls (world out) = calls w ++ [Call_request (deferred_cmd (info w)) (Some data)] /\
  (request_errno (sdhc_dev (info w)) (calls w) (deferred_cmd (info w)) (Some data) = 0 ->
   alloc_ok op sizeof_gb_sdio_transfer_response = true ->
   status out = GB_OP_SUCCESS /\
   has_deferred_cmd (info (world out)) = false /\
   op_response out =
     filled sizeof_gb_sdio_transfer_response
            {| rsp_data_blocks := blocks; rsp_data_blksz := blksz; rsp_data := [] |}).
Proof.
  intros Hsz Hp Hw blocks blksz data out. subst out.
  unfold gb_sdio_protocol_transfer, array_is_null, request_errno.
  apply Z.ltb_ge in Hsz. rewrite Hsz, Hp. cbn [negb].
  apply Z.eqb_neq in Hw. rewrite Hw. cbn [negb].
  fold blocks. fold blksz. fold data. unfold gb_operation_alloc_response.
  destruct (drv_request _ _ _ _) as [[r c'] bytes]. cbn [fst].
  destruct (Z.eqb_spec r 0) as [->|Hr]; cbn [negb].
  - destruct (alloc_ok op sizeof_gb_sdio_transfer_response); cbn.
    + split; [reflexivity|]. intros _ _.
      unfold sys_cpu_to_le16, blocks, blksz, sys_le16_to_cpu.
      rewrite !uint16_t_idem. repeat split.
    + split; [reflexivity|]. intros _ E. discriminate.
  - cbn. split; [reflexivity|]. intros E. contradiction.
Qed.

(** Only one command is kept: a second command with data blocks
    replaces the first, without a driver call; a command without data
    blocks in between is executed at once and leaves the stored command
    and the pending flag alone. *)
Theorem later_command_replaces_pending (w : sdio_world)
    (op1 op2 : gb_operation gb_sdio_command_request) :
  sizeof_gb_sdio_command_request <= request_payload_size op1 ->
  sizeof_gb_sdio_command_request <= request_payload_size op2 ->
  0 < sys_le16_to_cpu (cmd_data_blocks (request_payload op1)) ->
  let w1 := world (gb_sdio_protocol_command w op1) in
  let w2 := world (gb_sdio_protocol_command w1 op2) in
  has_deferred_cmd (info w2) = true /\
  (0 < sys_le16_to_cpu (cmd_data_blocks (request_payload op2)) ->
   deferred_cmd (info w2) = decode_command (request_payload op2) /\
   calls w2 = calls w) /\
  (sys_le16_to_cpu (cmd_data_blocks (request_payload op2)) = 0 ->
   deferred_cmd (info w2) = decode_command (request_payload op1) /\
   calls w2 = calls w ++ [Call_request (decode_command (request_payload op2)) None]).
Proof.
  intros Hs1 Hs2 Hb1 w1 w2.
  assert (E1 : w1 = with_info (set_has_deferred_cmd true
                 (set_deferred_cmd (decode_command (request_payload op1)) (info w))) w)
    by (apply deferred_command_world; assumption).
  assert (Hcases : 0 < sys_le16_to_cpu (cmd_data_blocks (request_payload op2)) \/
                   sys_le16_to_cpu (cmd_data_blocks (request_payload op2)) = 0).
  { unfold sys_le16_to_cpu, uint16_t.
    pose proof (Z.mod_pos_bound (cmd_data_blocks (request_payload op2)) (2 ^ 16) eq_refl).
    lia. }
  destruct Hcases as [Hb2|Hb2].
  - assert (E2 : w2 = with_info (set_has_deferred_cmd true
                   (set_deferred_cmd (decode_command (request_payload op2)) (info w1))) w1)
      by (apply deferred_command_world; assumption).
    rewrite E2, E1. cbn. split; [reflexivity|]. split.
    + intros _. split; reflexivity.
    + intros E. lia.
  - destruct (immediate_command_world w1 op2 Hs2 Hb2) as [Hi Hc].
    subst w2. rewrite Hi, Hc, E1. cbn. split; [reflexivity|]. split.
    + intros E. lia.
    + intros _. split; reflexivity.
Qed.

End SdioFlows.

Section SdioMore.
Import Sdio.
Context {H : greybus_headers}.

(** [gb_sdio_init] returns 0 exactly when it hands a state to the
    bundle; that state holds the channel and the device and has no
    command pending, so a transfer is refused until a command with data
    blocks has been accepted.  Without a ready device the errno is
    -ENODEV, without memory -ENOMEM. *)
Theorem sdio_init_leaves_nothing_pending (cport0 : Z)
    (dev : option (sdhc_driver * bool)) (mem : bool) :
  let r := fst (gb_sdio_init cport0 dev mem) in
  let state := snd (gb_sdio_init cport0 dev mem) in
  (r = 0 <-> state <> None) /\
  (r = 0 \/ r = - ENODEV \/ r = - ENOMEM) /\
  (r = 0 <-> exists drv, dev = Some (drv, true) /\ mem = true) /\
  (forall i, state = Some i ->
     cport i = cport0 /\
     (exists ready, dev = Some (sdhc_dev i, ready)) /\
     has_deferred_cmd i = false /\
     forall l (op : gb_operation gb_sdio_transfer_request),
       sizeof_gb_sdio_transfer_request <= request_payload_size op ->
       gb_sdio_protocol_transfer {| info := i; calls := l |} op =
       ret GB_OP_INVALID {| info := i; calls := l |} None).
Proof.
  unfold gb_sdio_init.
  destruct dev as [[drv ready]|]; [destruct ready; [destruct mem|]|];
    cbn [negb fst snd]; (split; [|split; [|split]]).
  - split; [discriminate|reflexivity].
  - left; reflexivity.
  - split; [intros _; exists drv; split; reflexivity|reflexivity].
  - intros i [= <-]. cbn. split; [reflexivity|].
    split; [exists true; reflexivity|]. split; [reflexivity|].
    intros l op Hsz. apply transfer_not_pending; [assumption|reflexivity].
  - split; [discriminate|intros E; contradiction].
  - right; right; reflexivity.
  - split; [discriminate|intros (d & _ & E); discriminate].
  - discriminate.
  - split; [discriminate|intros E; contradiction].
  - right; left; reflexivity.
  - split; [discriminate|intros (d & E & _); discriminate].
  - discriminate.
  - split; [discriminate|intros E; contradiction].
  - right; left; reflexivity.
  - split; [discriminate|intros (d & E & _); discriminate].
  - discriminate.
Qed.

(** set_ios with a large enough request makes exactly one [set_io]
    call, allocates no response and leaves the adapter state alone; it
    succeeds when the driver returns 0 and returns the translated errno
    otherwise.  The clock is passed through, and every other field
    falls back to a default when the request's value is not a
    recognised one: push-pull, power off, 1-bit bus, legacy timing,
    3.3 V. *)
Theorem set_ios_applies_one_setting (w : sdio_world)
    (op : gb_operation gb_sdio_set_ios_request) :
  sizeof_gb_sdio_set_ios_request <= request_payload_size op ->
  let request := request_payload op in
  let out := gb_sdio_protocol_set_ios w op in
  exists ios,
    world out = logged (Call_set_io ios) w /\
    op_response out = None /\
    (drv_set_io (sdhc_dev (info w)) (calls w) ios = 0 -> status out = GB_OP_SUCCESS) /\
    (drv_set_io (sdhc_dev (info w)) (calls w) ios <> 0 ->
     status out = gb_errno_to_op_result (drv_set_io (sdhc_dev (info w)) (calls w) ios)) /\
    clock ios = sys_le32_to_cpu (req_clock request) /\
    (uint8_t (req_bus_mode request) <> GB_SDIO_BUSMODE_OPENDRAIN ->
     bus_mode ios = SDHC_BUSMODE_PUSHPULL) /\
    (uint8_t (req_power_mode request) <> GB_SDIO_POWER_UP ->
     uint8_t (req_power_mode request) <> GB_SDIO_POWER_ON ->
     power_mode ios = SDHC_POWER_OFF) /\
    (uint8_t (req_bus_width request) <> GB_SDIO_BUS_WIDTH_4 ->
     uint8_t (req_bus_width request) <> GB_SDIO_BUS_WIDTH_8 ->
     bus_width ios = SDHC_BUS_WIDTH1BIT) /\
    (uint8_t (req_timing request) <> GB_SDIO_TIMING_SD_HS ->
     uint8_t (req_timing request) <> GB_SDIO_TIMING_MMC_HS ->
     timing ios = SDHC_TIMING_LEGACY) /\
    (uint8_t (req_signal_voltage request) <> GB_SDIO_SIGNAL_VOLTAGE_180 ->
     uint8_t (req_signal_voltage request) <> GB_SDIO_SIGNAL_VOLTAGE_120 ->
     signal_voltage ios = SD_VOL_3_3_V).
Proof.
  intros Hsz request out. subst out. unfold gb_sdio_protocol_set_ios.
  apply Z.ltb_ge in Hsz. rewrite Hsz. fold request.
  match goal with |- context [Call_set_io ?i] => exists i end.
  split.
  { destruct (negb _); reflexivity. }
  split.
  { destruct (negb _); reflexivity. }
  split.
  { intros ->. reflexivity. }
  split.
  { intros Hr. apply Z.eqb_neq in Hr. rewrite Hr. reflexivity. }
  cbn [clock bus_mode power_mode bus_width timing signal_voltage].
  split; [reflexivity|].
  repeat split; intros;
    repeat match goal with
           | |- context [?a =? ?b] => destruct (Z.eqb_spec a b)
           end; try reflexivity; contradiction.
Qed.

(** The scaled block length is a multiple of 512 between 0 and 2048,
    never exceeds a non-negative budget, and grows with the budget. *)
Theorem scale_max_sd_block_length_bounds (v v' : Z) :
  0 <= v -> v <= v' ->
  0 <= scale_max_sd_block_length v <= v /\
  scale_max_sd_block_length v mod 512 = 0 /\
  scale_max_sd_block_length v <= 2048 /\
  scale_max_sd_block_length v <= scale_max_sd_block_length v'.
Proof.
  intros Hv Hle.
  destruct (scale_max_sd_block_length_cases v) as [[? E]|[[? E]|[[? E]|[? E]]]];
    destruct (scale_max_sd_block_length_cases v') as [[? F]|[[? F]|[[? F]|[? F]]]];
    rewrite E, F; repeat split; try lia; reflexivity.
Qed.

(** When the host-properties query succeeds and get_capabilities
    returns success, the capacity it reports, max_blk_count blocks of
    max_blk_size bytes, is at least one block and fits the 16-bit
    payload budget left after the transfer-response header. *)
Theorem get_capabilities_capacity_fits (w : sdio_world) (op : gb_operation unit) :
  fst (drv_get_host_props (sdhc_dev (info w)) (calls w)) = 0 ->
  let out := gb_sdio_protocol_get_capabilities w op in
  status out = GB_OP_SUCCESS ->
  exists r,
    op_response out = filled sizeof_gb_sdio_get_caps_response r /\
    1 <= max_blk_count r /\
    max_blk_count r * max_blk_size r <=
      uint16_t (GB_MAX_PAYLOAD_SIZE - sizeof_gb_sdio_transfer_response) /\
    rsp_f_min r = sys_cpu_to_le32 (f_min (snd (drv_get_host_props (sdhc_dev (info w)) (calls w)))) /\
    rsp_f_max r = sys_cpu_to_le32 (f_max (snd (drv_get_host_props (sdhc_dev (info w)) (calls w)))).
Proof.
  intros Hprops out. subst out. unfold gb_sdio_protocol_get_capabilities.
  destruct (drv_get_host_props _ _) as [r props]. cbn in Hprops. subst r.
  cbn [Z.eqb negb snd]. unfold gb_operation_alloc_response.
  destruct (alloc_ok op _); [|discriminate].
  set (v := uint16_t (GB_MAX_PAYLOAD_SIZE - sizeof_gb_sdio_transfer_response)).
  destruct (scale_max_sd_block_length_cases v) as [[Hv E]|[[Hv E]|[[Hv E]|[Hv E]]]];
    rewrite E; cbn [Z.eqb ret status op_response]; try discriminate;
    intros _; eexists; (split; [reflexivity|]); cbn; repeat split; try lia; discriminate.
Qed.

End SdioMore.

Section SdioFlowRuns.
Import Sdio SdioSamples SdioDriver.
#[local] Existing Instance reference_headers.
#[local] Existing Instance reference_operation_types.

(** A set_ios operation on a world with a command pending. *)
Lemma sdio_state_changes_only_by_command_and_transfer_witness :
  info (world (gb_sdio_handler (world_of sdhc_stub true) 0x03 (sdio_op 0 2 14 true)))
  = info (world_of sdhc_stub true).
Proof.
  apply (sdio_state_changes_only_by_command_and_transfer
           (H := reference_headers) (T := reference_operation_types));
    by_evaluation.
Defined.

(** Command 18 with two data blocks, then a read of 2 x 512 bytes from
    a driver that delivers three bytes. *)
Lemma deferred_command_then_read_witness :
  let w := world_of (sdhc_reader [7; 8; 9]) false in
  let out := gb_sdio_protocol_transfer
               (world (gb_sdio_protocol_command w (view as_command (sdio_op 2 2 11 true))))
               (view as_transfer (sdio_op 2 2 11 true)) in
  status out = GB_OP_SUCCESS /\
  length (calls (world out)) = 1%nat /\
  has_deferred_cmd (info (world out)) = false /\
  op_response out =
    filled 1028 {| rsp_data_blocks := 2; rsp_data_blksz := 512; rsp_data := [7; 8; 9] |}.
Proof.
  destruct (deferred_command_then_read (H := reference_headers)
              (world_of (sdhc_reader [7; 8; 9]) false)
              (view as_command (sdio_op 2 2 11 true))
              (view as_transfer (sdio_op 2 2 11 true))
              ltac:(by_evaluation) ltac:(by_evaluation) ltac:(by_evaluation)
              eq_refl ltac:(by_evaluation) ltac:(by_evaluation))
    as (_ & _ & Hok).
  destruct (Hok eq_refl) as (Hc & Hp & Hzero & _).
  destruct (Hzero eq_refl) as (Hs & Hr).
  cbv zeta. rewrite Hs, Hc, Hp, Hr. repeat split.
Defined.

(** A write of the three bytes of the request through the stub. *)
Lemma pending_write_transfer_witness :
  let out := gb_sdio_protocol_transfer (world_of sdhc_stub true)
               (view as_transfer (sdio_op 2 1 11 true)) in
  status out = GB_OP_SUCCESS /\
  has_deferred_cmd (info (world out)) = false /\
  op_response out =
    filled 4 {| rsp_data_blocks := 2; rsp_data_blksz := 512; rsp_data := [] |}.
Proof.
  destruct (pending_write_transfer (H := reference_headers)
              (world_of sdhc_stub true) (view as_transfer (sdio_op 2 1 11 true))
              ltac:(by_evaluation) eq_refl ltac:(by_evaluation))
    as (_ & Hok).
  exact (Hok eq_refl eq_refl).
Defined.

(** Command 17 with three data blocks, then command 18 with two. *)
Lemma later_command_replaces_pending_witness :
  let w1 := world (gb_sdio_protocol_command (world_of sdhc_stub false) (command_op 3 true)) in
  let w2 := world (gb_sdio_protocol_command w1 (view as_command (sdio_op 2 2 11 true))) in
  has_deferred_cmd (info w2) = true /\
  opcode (deferred_cmd (info w2)) = 18 /\
  calls w2 = [].
Proof.
  destruct (later_command_replaces_pending (H := reference_headers)
              (world_of sdhc_stub false) (command_op 3 true)
              (view as_command (sdio_op 2 2 11 true))
              ltac:(by_evaluation) ltac:(by_evaluation) ltac:(by_evaluation))
    as (Hp & Hlater & _).
  destruct (Hlater ltac:(by_evaluation)) as [Hd Hc].
  cbv zeta. rewrite Hp, Hd, Hc. repeat split.
Defined.

(** A request with unknown values in every enumerated field. *)
Lemma set_ios_applies_one_setting_witness :
  let op := {| request_payload :=
                 {| req_clock := 400000; req_bus_mode := 9; req_power_mode := 9;
                    req_bus_width := 9; req_timing := 9; req_signal_voltage := 9 |};
               request_payload_size := 14; alloc_ok := always true |} in
  let out := gb_sdio_protocol_set_ios (world_of sdhc_stub false) op in
  status out = GB_OP_SUCCESS /\
  calls (world out) =
    [Call_set_io {| clock := 400000; bus_mode := SDHC_BUSMODE_PUSHPULL;
                    power_mode := SDHC_POWER_OFF; bus_width := SDHC_BUS_WIDTH1BIT;
                    timing := SDHC_TIMING_LEGACY; signal_voltage := SD_VOL_3_3_V |}].
Proof.
  cbv zeta.
  destruct (set_ios_applies_one_setting (H := reference_headers)
              (world_of sdhc_stub false)
              {| request_payload :=
                   {| req_clock := 400000; req_bus_mode := 9; req_power_mode := 9;
                      req_bus_width := 9; req_timing := 9; req_signal_voltage := 9 |};
                 request_payload_size := 14; alloc_ok := always true |}
              ltac:(by_evaluation))
    as (ios & Hw & _ & Hok & _ & Hclock & Hbus & Hpower & Hwidth & Htiming & Hvolt).
  split; [exact (Hok eq_refl)|].
  rewrite Hw. cbn [calls logged world_of app]. f_equal. f_equal.
  destruct ios as [c b p bw t v]. cbn in *.
  rewrite Hclock, (Hbus ltac:(by_evaluation)),
    (Hpower ltac:(by_evaluation) ltac:(by_evaluation)),
    (Hwidth ltac:(by_evaluation) ltac:(by_evaluation)),
    (Htiming ltac:(by_evaluation) ltac:(by_evaluation)),
    (Hvolt ltac:(by_evaluation) ltac:(by_evaluation)).
  reflexivity.
Defined.

(** Budgets of 2036 and 4000 bytes. *)
Lemma scale_max_sd_block_length_bounds_witness :
  0 <= scale_max_sd_block_length 2036 <= 2036 /\
  scale_max_sd_block_length 2036 <= scale_max_sd_block_length 4000.
Proof.
  destruct (scale_max_sd_block_length_bounds 2036 4000
              ltac:(by_evaluation) ltac:(by_evaluation))
    as (Hb & _ & _ & Hm).
  split; assumption.
Defined.

(** The stub driver on the reference channel. *)
Lemma get_capabilities_capacity_fits_witness :
  exists r,
    op_response (gb_sdio_protocol_get_capabilities (world_of sdhc_stub false) (caps_op true))
    = filled 20 r /\
    1 <= max_blk_count r /\
    max_blk_count r * max_blk_size r <= 2036 /\
    rsp_f_max r = 25000000.
Proof.
  destruct (get_capabilities_capacity_fits (H := reference_headers)
              (world_of sdhc_stub false) (caps_op true) eq_refl eq_refl)
    as (r & Hr & Hone & Hfit & _ & Hmax).
  exists r. repeat split; assumption.
Defined.

(** A ready device with memory, then a transfer; and a device that is
    not ready. *)
Lemma sdio_init_leaves_nothing_pending_witness :
  (exists i,
      gb_sdio_init 1 (Some (sdhc_stub, true)) true = (0, Some i) /\
      gb_sdio_protocol_transfer {| info := i; calls := [] |} (transfer_op 2 true) =
      ret GB_OP_INVALID {| info := i; calls := [] |} None) /\
  gb_sdio_init 1 (Some (sdhc_stub, false)) true = (- ENODEV, None).
Proof.
  split; [|reflexivity].
  eexists. split; [reflexivity|].
  destruct (sdio_init_leaves_nothing_pending (H := reference_headers)
              1 (Some (sdhc_stub, true)) true) as (_ & _ & _ & Hstate).
  destruct (Hstate _ eq_refl) as (_ & _ & _ & Hrefused).
  apply Hrefused. by_evaluation.
Defined.

End SdioFlowRuns.

(** ** The HID report pipeline *)

Section HidPipeline.
Import Hid HidDriver.
Context {T : greybus_operation_types}.

(** A report of at most 256 bytes: the callback returns 0 in every
    case.  With room in the queue the message, holding the report type,
    the length and the first [len] bytes of the report, is added behind
    the queued ones; with the queue full the adapter state is left as it
    was and the report is lost, still with return value 0. *)
Theorem callback_enqueues_or_drops (data : gb_hid_info) (report_type : Z)
    (report : list Z) (len : Z) :
  len <= 256 ->
  let result := hid_event_callback_routine data report_type report len in
  fst result = 0 /\
  (Z.of_nat (List.length (msgs (data_queue data))) < max_msgs (data_queue data) ->
   snd result =
   set_data_queue
     {| max_msgs := max_msgs (data_queue data);
        msgs := msgs (data_queue data) ++ [report_message (report_type, report, len)] |}
     data) /\
  (max_msgs (data_queue data) <= Z.of_nat (List.length (msgs (data_queue data))) ->
   snd result = data).
Proof.
  intros Hlen result. subst result.
  unfold hid_event_callback_routine, sizeof_msg_data, k_msgq_put.
  destruct (Z.gtb_spec len 256); [lia|].
  destruct (Z.ltb_spec (Z.of_nat (List.length (msgs (data_queue data))))
                       (max_msgs (data_queue data))); cbn [fst snd].
  - split; [reflexivity|]. split; [reflexivity|]. lia.
  - split; [reflexivity|]. split; [lia|]. intros _.
    destruct data as [c n q b d]. reflexivity.
Qed.

Lemma callback_state (data : gb_hid_info) (r : Z * list Z * Z) :
  let data' := snd (hid_event_callback_routine data (fst (fst r)) (snd (fst r)) (snd r)) in
  cport data' = cport data /\
  report_desc_len data' = report_desc_len data /\
  hid_dev data' = hid_dev data /\
  report_buf_size data' = report_buf_size data /\
  max_msgs (data_queue data') = max_msgs (data_queue data) /\
  msgs (data_queue data') =
    if snd r >? sizeof_msg_data then msgs (data_queue data)
    else if Z.of_nat (List.length (msgs (data_queue data))) <? max_msgs (data_queue data)
         then msgs (data_queue data) ++ [report_message r]
         else msgs (data_queue data).
Proof.
  destruct r as [[rt rep] len]. cbn [fst snd].
  unfold hid_event_callback_routine, k_msgq_put.
  destruct (len >? sizeof_msg_data); [repeat split|].
  destruct (_ <? _); cbn; repeat split.
Qed.

Lemma firstn_full {A} (n : nat) (l l' : list A) :
  (n <= List.length l)%nat -> firstn n (l ++ l') = firstn n l.
Proof.
  intros Hn. rewrite firstn_app.
  replace (n - List.length l)%nat with 0%nat by lia.
  cbn. apply app_nil_r.
Qed.

(** A burst of reports delivered through the callback: the queue keeps
    the messages it held and then the accepted reports in arrival order,
    up to its capacity; what arrives once it is full is dropped.  Every
    other field of the adapter state (channel, cached length, buffer
    size, device, queue capacity) is as it was. *)
Theorem deliver_keeps_oldest (reports : list (Z * list Z * Z)) (data : gb_hid_info) :
  within_capacity (data_queue data) ->
  msgs (data_queue (deliver data reports)) =
    firstn (Z.to_nat (max_msgs (data_queue data)))
           (msgs (data_queue data) ++ accepted reports) /\
  within_capacity (data_queue (deliver data reports)) /\
  max_msgs (data_queue (deliver data reports)) = max_msgs (data_queue data) /\
  cport (deliver data reports) = cport data /\
  report_desc_len (deliver data reports) = report_desc_len data /\
  report_buf_size (deliver data reports) = report_buf_size data /\
  hid_dev (deliver data reports) = hid_dev data.
Proof.
  unfold within_capacity.
  revert data. induction reports as [|r rs IH]; intros data Hcap.
  - cbn. rewrite app_nil_r. rewrite firstn_all2 by lia. repeat split. exact Hcap.
  - unfold deliver. cbn [fold_left]. fold (deliver
      (snd (hid_event_callback_routine data (fst (fst r)) (snd (fst r)) (snd r))) rs).
    destruct (callback_state data r) as (Hc & Hl & Hd & Hb & Hmax & Hmsgs).
    set (data' := snd (hid_event_callback_routine data (fst (fst r))
                         (snd (fst r)) (snd r))) in *.
    assert (Hcap' : Z.of_nat (List.length (msgs (data_queue data'))) <=
                    max_msgs (data_queue data')).
    { rewrite Hmax, Hmsgs. destruct (snd r >? sizeof_msg_data); [exact Hcap|].
      destruct (Z.ltb_spec (Z.of_nat (List.length (msgs (data_queue data))))
                           (max_msgs (data_queue data))); [|exact Hcap].
      rewrite length_app. cbn. lia. }
    destruct (IH data' Hcap') as (IHm & IHc & IHmax & IHcp & IHl & IHb & IHd).
    split.
    { rewrite IHm, Hmax, Hmsgs. unfold accepted. cbn [filter].
      destruct (snd r >? sizeof_msg_data); cbn [negb map]; [reflexivity|].
      destruct (Z.ltb_spec (Z.of_nat (List.length (msgs (data_queue data))))
                           (max_msgs (data_queue data))).
      - rewrite <- app_assoc. reflexivity.
      - rewrite !firstn_full by lia. reflexivity. }
    split; [exact IHc|].
    split; [rewrite IHmax; exact Hmax|].
    split; [rewrite IHcp; exact Hc|].
    split; [rewrite IHl; exact Hl|].
    split; [rewrite IHb; exact Hb|].
    rewrite IHd; exact Hd.
Qed.

Lemma sent_requests_app (l l' : list core_call) :
  sent_requests (l ++ l') = sent_requests l ++ sent_requests l'.
Proof.
  induction l as [|c l IH]; [reflexivity|].
  destruct c; cbn; rewrite IH; reflexivity.
Qed.

Lemma worker_turn (core : gb_core) (w : worker_world)
    (m : hid_msg_data) (rest : list hid_msg_data) :
  msgs (data_queue (worker_info w)) = m :: rest ->
  exists w',
    report_proc_iteration core w = Some w' /\
    msgs (data_queue (worker_info w')) = rest /\
    max_msgs (data_queue (worker_info w')) = max_msgs (data_queue (worker_info w)) /\
    cport (worker_info w') = cport (worker_info w) /\
    sent_requests (core_calls w') =
      sent_requests (core_calls w) ++
      (if operation_create core (core_calls w) (cport (worker_info w))
                            GB_HID_TYPE_IRQ_EVENT (msg_len m)
       then [irq_event (cport (worker_info w)) m] else []).
Proof.
  intros Hq. unfold report_proc_iteration, k_msgq_get. rewrite Hq.
  cbn [set_data_queue cport].
  destruct (operation_create _ _ _ _ _); cbn [negb].
  - destruct (negb _); eexists; (split; [reflexivity|]); cbn;
      rewrite !sent_requests_app; cbn; rewrite ?app_nil_r; repeat split.
  - eexists. split; [reflexivity|]. cbn.
    rewrite sent_requests_app. cbn. repeat split.
Qed.

(** One turn of the worker with a message queued: the oldest message
    leaves the queue whether or not an operation could be created or
    sent; the turn asks the core for one operation on the adapter's
    channel, hands at most one request to it, the one built from that
    message, and none when the creation fails.  The worker does not
    put a message back. *)
Theorem worker_turn_consumes_oldest (core : gb_core) (w : worker_world)
    (m : hid_msg_data) (rest : list hid_msg_data) :
  msgs (data_queue (worker_info w)) = m :: rest ->
  let c := cport (worker_info w) in
  let created := operation_create core (core_calls w) c GB_HID_TYPE_IRQ_EVENT (msg_len m) in
  exists w',
    report_proc_iteration core w = Some w' /\
    msgs (data_queue (worker_info w')) = rest /\
    max_msgs (data_queue (worker_info w')) = max_msgs (data_queue (worker_info w)) /\
    cport (worker_info w') = c /\
    sent_requests (core_calls w') =
      sent_requests (core_calls w) ++ (if created then [irq_event c m] else []).
Proof.
  intros Hq c created. subst c created.
  unfold report_proc_iteration, k_msgq_get. rewrite Hq.
  cbn [set_data_queue cport].
  destruct (operation_create _ _ _ _ _); cbn [negb].
  - destruct (negb _); eexists; (split; [reflexivity|]); cbn;
      rewrite !sent_requests_app; cbn; rewrite ?app_nil_r; repeat split.
  - eexists. split; [reflexivity|]. cbn.
    rewrite sent_requests_app. cbn. repeat split.
Qed.

(** With nothing queued the worker waits: a turn yields no new state
    and any number of turns leaves the world as it is. *)
Lemma worker_waits_on_empty (core : gb_core) (w : worker_world) (n : nat) :
  msgs (data_queue (worker_info w)) = [] ->
  report_proc_iteration core w = None /\ report_proc_thread n core w = w.
Proof.
  intros Hq.
  assert (E : report_proc_iteration core w = None)
    by (unfold report_proc_iteration, k_msgq_get; rewrite Hq; reflexivity).
  split; [exact E|]. destruct n; cbn; [reflexivity|]. rewrite E. reflexivity.
Qed.

(** The worker, given at least as many turns as there are queued
    messages, empties the queue.  When the core always has an operation
    to give, it hands one request per message to the core, in queue
    order, each on the adapter's channel with the message's bytes; when
    the core never has one, nothing is sent and the messages are gone
    all the same. *)
Theorem worker_drains_in_order (core : gb_core) (b : bool) (n : nat) (w : worker_world) :
  (forall l c t s, operation_create core l c t s = b) ->
  (List.length (msgs (data_queue (worker_info w))) <= n)%nat ->
  let w' := report_proc_thread n core w in
  msgs (data_queue (worker_info w')) = [] /\
  cport (worker_info w') = cport (worker_info w) /\
  sent_requests (core_calls w') =
    sent_requests (core_calls w) ++
    (if b then map (irq_event (cport (worker_info w))) (msgs (data_queue (worker_info w)))
     else []).
Proof.
  intros Hcore. revert w. induction n as [|n IH]; intros w Hn.
  - destruct (msgs (data_queue (worker_info w))) eqn:Hq; [|cbn in Hn; lia].
    cbn. rewrite Hq. destruct b; cbn; rewrite app_nil_r; repeat split.
  - destruct (msgs (data_queue (worker_info w))) as [|m rest] eqn:Hq.
    + destruct (worker_waits_on_empty core w (S n) Hq) as [_ E].
      cbv zeta. rewrite E, Hq. destruct b; cbn; rewrite app_nil_r; repeat split.
    + destruct (worker_turn core w m rest Hq) as (w1 & Hstep & Hrest & _ & Hc & Hsent).
      cbn [report_proc_thread]. rewrite Hstep.
      destruct (IH w1) as (IHq & IHc & IHs); [rewrite Hrest; cbn in Hn; lia|].
      rewrite IHq, IHc, IHs, Hc, Hsent, Hrest, Hcore.
      split; [reflexivity|]. split; [reflexivity|].
      destruct b; cbn; rewrite <- app_assoc; reflexivity.
Qed.

Lemma deliver_messages (reports : list (Z * list Z * Z)) (data : gb_hid_info) :
  Z.of_nat (List.length (msgs (data_queue data))) <= max_msgs (data_queue data) ->
  msgs (data_queue (deliver data reports)) =
    firstn (Z.to_nat (max_msgs (data_queue data)))
           (msgs (data_queue data) ++ accepted reports) /\
  cport (deliver data reports) = cport data.
Proof.
  revert data. induction reports as [|r rs IH]; intros data Hcap.
  - cbn. rewrite app_nil_r. rewrite firstn_all2 by lia. split; reflexivity.
  - unfold deliver. cbn [fold_left]. fold (deliver
      (snd (hid_event_callback_routine data (fst (fst r)) (snd (fst r)) (snd r))) rs).
    destruct (callback_state data r) as (Hc & _ & _ & _ & Hmax & Hmsgs).
    set (data' := snd (hid_event_callback_routine data (fst (fst r))
                         (snd (fst r)) (snd r))) in *.
    destruct (IH data') as (IHm & IHc).
    { rewrite Hmax, Hmsgs. destruct (snd r >? sizeof_msg_data); [exact Hcap|].
      destruct (Z.ltb_spec (Z.of_nat (List.length (msgs (data_queue data))))
                           (max_msgs (data_queue data))); [|exact Hcap].
      rewrite length_app. cbn. lia. }
    split; [|rewrite IHc; exact Hc].
    rewrite IHm, Hmax, Hmsgs. unfold accepted. cbn [filter].
    destruct (snd r >? sizeof_msg_data); cbn [negb map]; [reflexivity|].
    destruct (Z.ltb_spec (Z.of_nat (List.length (msgs (data_queue data))))
                         (max_msgs (data_queue data))).
    + rewrite <- app_assoc. reflexivity.
    + rewrite !firstn_full by lia. reflexivity.
Qed.

Lemma worker_sends_queue (core : gb_core) (n : nat) (w : worker_world) :
  (forall l c t s, operation_create core l c t s = true) ->
  (List.length (msgs (data_queue (worker_info w))) <= n)%nat ->
  sent_requests (core_calls (report_proc_thread n core w)) =
    sent_requests (core_calls w) ++
    map (irq_event (cport (worker_info w))) (msgs (data_queue (worker_info w))).
Proof.
  intros Hcore. revert w. induction n as [|n IH]; intros w Hn.
  - destruct (msgs (data_queue (worker_info w))) eqn:Hq; [|cbn in Hn; lia].
    cbn. rewrite app_nil_r. reflexivity.
  - destruct (msgs (data_queue (worker_info w))) as [|m rest] eqn:Hq.
    + destruct (worker_waits_on_empty core w (S n) Hq) as [_ E].
      rewrite E. cbn. rewrite app_nil_r. reflexivity.
    + destruct (worker_turn core w m rest Hq) as (w1 & Hstep & Hrest & _ & Hc & Hsent).
      cbn [report_proc_thread]. rewrite Hstep.
      rewrite IH by (rewrite Hrest; cbn in Hn; lia).
      rewrite Hc, Hsent, Hrest, Hcore. cbn. rewrite <- app_assoc. reflexivity.
Qed.

(** From the driver's callback to the wire: on an adapter fresh from
    [gb_hid_init] whose queue got its storage, a burst of reports
    followed by the worker's turns (at least five, with a core that has
    operations to give) produces one request for each of the first five
    accepted reports, in arrival order, on the adapter's channel with
    the IRQ-event type.  (When the queue storage could not be allocated
    the init still returns 0; that adapter is not covered.) *)
Theorem reports_reach_the_core_in_order (cport0 : Z) (mem queue_mem : bool)
    (binding : option device) (l0 l1 : list hid_call) (r : Z) (hid_info : gb_hid_info)
    (reports : list (Z * list Z * Z)) (core : gb_core) (n : nat) :
  gb_hid_init cport0 mem queue_mem binding l0 = (r, Some hid_info, l1, true) ->
  (forall l c t s, operation_create core l c t s = true) ->
  (5 <= n)%nat ->
  queue_mem = true /\
  sent_requests
    (core_calls (report_proc_thread n core
                   {| worker_info := deliver hid_info reports; core_calls := [] |})) =
  map (irq_event (uint16_t cport0)) (firstn 5 (accepted reports)).
Proof.
  intros Hinit Hcore Hn.
  assert (Hstate : queue_mem = true /\
                   msgs (data_queue hid_info) = [] /\
                   max_msgs (data_queue hid_info) = 5 /\
                   cport hid_info = uint16_t cport0).
  { revert Hinit. unfold gb_hid_init. repeat (break_match; cbn);
      intros E; try discriminate; injection E as <- <- <- <-; repeat split. }
  destruct Hstate as (Hmem & Hq & Hmax & Hcp).
  split; [exact Hmem|].
  destruct (deliver_messages reports hid_info) as [Hm Hc].
  { rewrite Hq, Hmax. cbn. lia. }
  rewrite Hq, Hmax in Hm. cbn [app] in Hm.
  rewrite worker_sends_queue.
  - cbn [worker_info core_calls sent_requests app]. rewrite Hm, Hc, Hcp. reflexivity.
  - exact Hcore.
  - cbn [worker_info]. rewrite Hm. rewrite length_firstn.
    change (Z.to_nat 5) with 5%nat. lia.
Qed.

(** A report through the callback and one turn of the worker: with an
    empty queue that has room, a report of at most 256 bytes comes out
    as one request on the adapter's channel whose payload is the first
    [len] bytes of the report, the whole report when [len] is its
    length, and the queue is empty again. *)
Theorem report_round_trip (core : gb_core) (data : gb_hid_info) (report_type : Z)
    (report : list Z) (len : Z) :
  len <= 256 ->
  msgs (data_queue data) = [] ->
  0 < max_msgs (data_queue data) ->
  operation_create core [] (cport data) GB_HID_TYPE_IRQ_EVENT len = true ->
  exists w',
    report_proc_iteration core
      {| worker_info := snd (hid_event_callback_routine data report_type report len);
         core_calls := [] |} = Some w' /\
    msgs (data_queue (worker_info w')) = [] /\
    sent_requests (core_calls w') =
      [{| req_cport := cport data; req_type := GB_HID_TYPE_IRQ_EVENT;
          req_payload := firstn (Z.to_nat len) report |}] /\
    (len = Z.of_nat (List.length report) ->
     map req_payload (sent_requests (core_calls w')) = [report]).
Proof.
  intros Hlen Hq Hmax Hcore.
  unfold hid_event_callback_routine, sizeof_msg_data, k_msgq_put.
  destruct (Z.gtb_spec len 256); [lia|].
  rewrite Hq. cbn [List.length Z.of_nat].
  destruct (Z.ltb_spec 0 (max_msgs (data_queue data))); [|lia].
  unfold report_proc_iteration, k_msgq_get. cbn. rewrite Hcore. cbn [negb].
  rewrite firstn_firstn, Nat.min_id.
  destruct (negb _); eexists; (split; [reflexivity|]); cbn;
    (split; [reflexivity|]); (split; [reflexivity|]);
    intros ->; rewrite Nat2Z.id, firstn_all; reflexivity.
Qed.

End HidPipeline.

(** ** Further properties of the HID handlers *)

Section HidHandlers.
Import Hid HidDriver.
Context {H : greybus_headers} {T : greybus_operation_types}.

Lemma priv_dev_api_inv (b : gb_bundle) (hid_info : gb_hid_info) (a : device_hid_api) :
  priv_dev_api b = Some (hid_info, a) ->
  priv b = Some hid_info /\
  exists dev, hid_dev hid_info = Some dev /\ api dev = Some a.
Proof.
  unfold priv_dev_api.
  destruct (priv b) as [i|]; [|discriminate].
  destruct (hid_dev i) as [dev|] eqn:Hd; [|discriminate].
  destruct (api dev) as [a'|] eqn:Ha; [|discriminate].
  intros [= <- <-]. split; [reflexivity|]. exists dev. split; assumption.
Qed.

(** [gb_hid_init] returns 0 exactly when it hands a state to the
    bundle.  Without memory for the state it returns -ENOMEM before any
    driver call; with no device bound it succeeds without a driver call
    and a buffer size of 64.  A state it hands over has no
    report-descriptor length cached, an empty queue of capacity 5, a
    non-negative buffer size and the device it was given; at most two
    driver calls are made.  The allocation of the queue storage is not
    checked: the errno, the state and the calls are the same whether or
    not it succeeds, and the queue handed over has its storage exactly
    when it did. *)
Theorem hid_init_outcome (cport0 : Z) (mem queue_mem : bool)
    (binding : option device) (l0 : list hid_call) :
  let result := gb_hid_init cport0 mem queue_mem binding l0 in
  let r := fst (fst (fst result)) in
  let state := snd (fst (fst result)) in
  let l1 := snd (fst result) in
  let storage := snd result in
  (r = 0 <-> state <> None) /\
  (mem = false -> r = - ENOMEM /\ l1 = l0) /\
  (mem = true -> binding = None ->
   r = 0 /\ l1 = l0 /\ exists i, state = Some i /\ report_buf_size i = 64) /\
  (forall i, state = Some i ->
     report_desc_len i = 0 /\ hid_dev i = binding /\
     data_queue i = k_msgq_init MAX_REPORT_OPERATIONS /\
     0 <= report_buf_size i /\ cport i = uint16_t cport0 /\
     storage = queue_mem) /\
  (state = None -> storage = false) /\
  fst (gb_hid_init cport0 mem true binding l0) =
    fst (gb_hid_init cport0 mem false binding l0) /\
  (exists l, l1 = l0 ++ l /\ (List.length l <= 2)%nat).
Proof.
  cbv zeta. unfold gb_hid_init, ENOMEM.
  destruct mem; cbn [negb];
    [destruct binding as [dev|];
     [destruct (api dev) as [a|];
      [destruct (get_max_report_length a) as [f|];
       destruct (register_callback a) as [g|]|]|]|];
    repeat (break_match; cbn [fst snd negb]); bool_hyps;
    (split; [split; [try discriminate; intros; exfalso; lia
                    |try reflexivity; intros E; exfalso; apply E; reflexivity]|]);
    (split; [try discriminate; intros; split; reflexivity|]);
    (split; [try discriminate; intros;
             first [split; [reflexivity|split; [reflexivity|eexists; split; reflexivity]]
                   |discriminate]|]);
    (split; [try discriminate; intros i [= <-]; cbn; repeat split; lia|]);
    (split; [try discriminate; intros; reflexivity|]);
    (split; [reflexivity|]);
    first [ exists []; rewrite app_nil_r; split; [reflexivity|cbn; lia]
          | eexists [_]; split; [reflexivity|cbn; lia]
          | eexists [_; _]; split; [rewrite <- app_assoc; reflexivity|cbn; lia] ].
Qed.

(** After a successful get_descriptor, get_report_descriptor sizes its
    response by the report-descriptor length the driver gave, in 16
    bits: any response it allocates has that size, and it succeeds with
    the driver's bytes when the entry is present, that allocation
    succeeds and the call returns 0. *)
Theorem cached_length_sizes_report_descriptor (w : hid_world)
    (op1 op2 : gb_operation unit) :
  status (gb_hid_get_descriptor w op1) = GB_OP_SUCCESS ->
  exists b hid_info a f,
    bundle w = Some b /\ priv_dev_api b = Some (hid_info, a) /\
    get_descriptor a = Some f /\
    let n := uint16_t (report_desc_length (snd (f (calls w)))) in
    let w1 := world (gb_hid_get_descriptor w op1) in
    let out := gb_hid_get_report_descriptor w1 op2 in
    calls w1 = calls w ++ [Call_get_descriptor] /\
    (forall r, op_response out = Some r -> response_size r = n) /\
    (forall g, get_report_descriptor a = Some g ->
               alloc_ok op2 n = true -> fst (g (calls w1)) = 0 ->
               status out = GB_OP_SUCCESS /\ op_response out = filled n (snd (g (calls w1)))).
Proof.
  unfold gb_hid_get_descriptor.
  destruct (bundle w) as [b|] eqn:Hb; [|discriminate].
  destruct (priv_dev_api b) as [[hid_info a]|] eqn:Hp; [|discriminate].
  destruct (get_descriptor a) as [f|] eqn:Hf; [|discriminate].
  destruct (f (calls w)) as [r desc] eqn:Hcall.
  destruct (negb (r =? 0)); [discriminate|].
  destruct (gb_operation_alloc_response op1 _); [|discriminate].
  intros _. exists b, hid_info, a, f.
  split; [reflexivity|]. split; [exact Hp|]. split; [exact Hf|].
  rewrite Hcall. cbn [snd world ret calls with_priv logged].
  destruct (priv_dev_api_inv _ _ _ Hp) as (_ & dev & Hd & Ha).
  unfold gb_hid_get_report_descriptor, priv_dev_api.
  cbn [bundle with_priv priv set_report_desc_len hid_dev report_desc_len calls logged].
  rewrite Hd, Ha. cbn [report_desc_len set_report_desc_len].
  unfold gb_operation_alloc_response.
  split; [reflexivity|]. split.
  - intros x. destruct (get_report_descriptor a) as [g|]; [|discriminate].
    destruct (alloc_ok op2 _); [|discriminate].
    destruct (g _) as [y bytes]. destruct (negb _); intros [= <-]; reflexivity.
  - intros g -> ->. destruct (g _) as [y bytes]. cbn [fst snd]. intros ->.
    split; reflexivity.
Qed.

(** The outcome of a power operation. *)
Lemma power_outcome (entry : device_hid_api -> option (list hid_call -> Z))
    (c : hid_call) (w : hid_world) (op : gb_operation unit) :
  let out := gb_hid_power entry c w op in
  op_response out = None /\
  bundle (world out) = bundle w /\
  at_most_one_more (calls w) (calls (world out)) /\
  (status out = GB_OP_SUCCESS \/ status out = GB_OP_UNKNOWN_ERROR) /\
  (status out = GB_OP_SUCCESS <->
   exists b hid_info a f,
     bundle w = Some b /\ priv_dev_api b = Some (hid_info, a) /\
     entry a = Some f /\ f (calls w) = 0).
Proof.
  unfold gb_hid_power, at_most_one_more.
  destruct (bundle w) as [b|] eqn:Hb.
  2:{ cbn. split; [reflexivity|]. split; [exact Hb|].
      split; [left; reflexivity|]. split; [right; reflexivity|].
      split; [discriminate|]. intros (b & i & a & f & E & _). discriminate. }
  destruct (priv_dev_api b) as [[hid_info a]|] eqn:Hp.
  2:{ cbn. split; [reflexivity|]. split; [exact Hb|].
      split; [left; reflexivity|]. split; [right; reflexivity|].
      split; [discriminate|].
      intros (b' & i & a & f & [= <-] & E & _). congruence. }
  destruct (entry a) as [f|] eqn:He.
  2:{ cbn. split; [reflexivity|]. split; [exact Hb|].
      split; [left; reflexivity|]. split; [right; reflexivity|].
      split; [discriminate|].
      intros (b' & i & a' & f & [= <-] & E & E' & _). congruence. }
  destruct (Z.eqb_spec (f (calls w)) 0) as [Hz|Hz]; cbn.
  - split; [reflexivity|]. split; [exact Hb|].
    split; [right; eexists; reflexivity|]. split; [left; reflexivity|].
    split; [|reflexivity].
    intros _. exists b, hid_info, a, f. repeat split; assumption.
  - split; [reflexivity|]. split; [exact Hb|].
    split; [right; eexists; reflexivity|]. split; [right; reflexivity|].
    split; [discriminate|].
    intros (b' & i & a' & f' & [= <-] & E & E' & E''). congruence.
Qed.

(** power_on and power_off pass through to the driver: they succeed
    exactly when bundle, state, device, table and entry are all present
    and the driver returns 0, and return UnknownError otherwise; they
    never allocate a response nor change the adapter state, and call
    the driver at most once. *)
Theorem power_passes_through (w : hid_world) (op : gb_operation unit) :
  (let out := gb_hid_power_on w op in
   op_response out = None /\
   bundle (world out) = bundle w /\
   at_most_one_more (calls w) (calls (world out)) /\
   (status out = GB_OP_SUCCESS \/ status out = GB_OP_UNKNOWN_ERROR) /\
   (status out = GB_OP_SUCCESS <->
    exists b hid_info a f,
      bundle w = Some b /\ priv_dev_api b = Some (hid_info, a) /\
      power_on a = Some f /\ f (calls w) = 0)) /\
  (let out := gb_hid_power_off w op in
   op_response out = None /\
   bundle (world out) = bundle w /\
   at_most_one_more (calls w) (calls (world out)) /\
   (status out = GB_OP_SUCCESS \/ status out = GB_OP_UNKNOWN_ERROR) /\
   (status out = GB_OP_SUCCESS <->
    exists b hid_info a f,
      bundle w = Some b /\ priv_dev_api b = Some (hid_info, a) /\
      power_off a = Some f /\ f (calls w) = 0)).
Proof.
  split.
  - exact (power_outcome power_on Call_power_on w op).
  - exact (power_outcome power_off Call_power_off w op).
Qed.

(** get_report refuses a report whose length the driver gives as zero
    or negative: UnknownError, no response, and [get_report] is not
    called. *)
Theorem get_report_refuses_nonpositive_length (w : hid_world)
    (op : gb_operation gb_hid_get_report_request)
    (b : gb_bundle) (hid_info : gb_hid_info) (a : device_hid_api)
    (flen : list hid_call -> Z -> Z -> Z) :
  sizeof_gb_hid_get_report_request <= request_payload_size op ->
  bundle w = Some b -> priv_dev_api b = Some (hid_info, a) ->
  get_report_length a = Some flen ->
  let rtype := uint8_t (report_type (request_payload op)) in
  let rid := uint8_t (report_id (request_payload op)) in
  flen (calls w) rtype rid <= 0 ->
  gb_hid_get_report w op =
  Some (ret GB_OP_UNKNOWN_ERROR (logged (Call_get_report_length rtype rid) w) None).
Proof.
  intros Hsz Hb Hp Hl rtype rid Hr. unfold gb_hid_get_report.
  apply Z.ltb_ge in Hsz. rewrite Hsz, Hb, Hp, Hl.
  fold rtype. fold rid. apply Z.leb_le in Hr. rewrite Hr. reflexivity.
Qed.

End HidHandlers.

Section HidDispatch.
Import Hid HidDriver.
Context {H : greybus_headers} {T : greybus_operation_types}.

Lemma get_descriptor_effect (w : hid_world) (op : gb_operation unit) :
  let out := gb_hid_get_descriptor w op in
  (exists l, calls (world out) = calls w ++ l /\ (List.length l <= 2)%nat) /\
  (status out <> GB_OP_SUCCESS -> bundle (world out) = bundle w) /\
  (bundle (world out) = bundle w \/
   exists b hid_info n,
     bundle w = Some b /\ priv b = Some hid_info /\
     bundle (world out) = Some {| priv := Some (set_report_desc_len n hid_info) |}).
Proof.
  unfold gb_hid_get_descriptor.
  destruct (bundle w) as [b|] eqn:Hb;
    [|cbn; split; [grown_by_two|]; split; [intros _; exact Hb|left; exact Hb]].
  destruct (priv_dev_api b) as [[hid_info a]|] eqn:Hp;
    [|cbn; split; [grown_by_two|]; split; [intros _; exact Hb|left; exact Hb]].
  destruct (get_descriptor a) as [f|];
    [|cbn; split; [grown_by_two|]; split; [intros _; exact Hb|left; exact Hb]].
  destruct (f (calls w)) as [r desc].
  destruct (negb (r =? 0));
    [cbn; split; [grown_by_two|]; split; [intros _; exact Hb|left; exact Hb]|].
  destruct (gb_operation_alloc_response _ _);
    [|cbn; split; [grown_by_two|]; split; [intros _; exact Hb|left; exact Hb]].
  cbn. split; [grown_by_two|]. split; [intros E; exfalso; apply E; reflexivity|].
  right. exists b, hid_info, (uint16_t (report_desc_length desc)).
  destruct (priv_dev_api_inv _ _ _ Hp) as (Hpriv & _).
  repeat split; assumption.
Qed.

Lemma get_report_descriptor_effect (w : hid_world) (op : gb_operation unit) :
  let out := gb_hid_get_report_descriptor w op in
  (exists l, calls (world out) = calls w ++ l /\ (List.length l <= 2)%nat) /\
  bundle (world out) = bundle w.
Proof.
  unfold gb_hid_get_report_descriptor.
  repeat (break_match; cbn); (split; [grown_by_two|]); congruence.
Qed.

Lemma get_report_effect (w : hid_world) (op : gb_operation gb_hid_get_report_request)
    (out : outcome hid_world (list Z)) :
  gb_hid_get_report w op = Some out ->
  (exists l, calls (world out) = calls w ++ l /\ (List.length l <= 2)%nat) /\
  bundle (world out) = bundle w.
Proof.
  unfold gb_hid_get_report.
  repeat (break_match; cbn); intros E; try discriminate; injection E as <-;
    cbn; (split; [grown_by_two|]); congruence.
Qed.

Lemma set_report_effect (w : hid_world) (op : gb_operation gb_hid_set_report_request)
    (out : outcome hid_world unit) :
  gb_hid_set_report w op = Some out ->
  (exists l, calls (world out) = calls w ++ l /\ (List.length l <= 2)%nat) /\
  bundle (world out) = bundle w.
Proof.
  unfold gb_hid_set_report.
  repeat (break_match; cbn); intros E; try discriminate; injection E as <-;
    cbn; (split; [grown_by_two|]); congruence.
Qed.

(** Whatever the operation, the HID handler calls the driver at most
    twice, and the only thing it ever changes in the adapter state is
    the cached report-descriptor length, which only a successful
    get_descriptor writes: an operation of any other type, or a
    get_descriptor that fails, leaves the bundle as it was. *)
Theorem hid_state_changes_only_by_get_descriptor (w : hid_world) (type : Z)
    (opr : gb_operation hid_request) (out : outcome hid_world hid_reply) :
  gb_hid_handler w type opr = Some out ->
  (exists l, calls (world out) = calls w ++ l /\ (List.length l <= 2)%nat) /\
  (type <> GB_HID_TYPE_GET_DESC \/ status out <> GB_OP_SUCCESS ->
   bundle (world out) = bundle w) /\
  (bundle (world out) = bundle w \/
   exists b hid_info n,
     bundle w = Some b /\ priv b = Some hid_info /\
     bundle (world out) = Some {| priv := Some (set_report_desc_len n hid_info) |}).
Proof.
  unfold gb_hid_handler.
  destruct (type =? GB_HID_TYPE_PROTOCOL_VERSION).
  { intros [= <-]. unfold gb_hid_protocol_version.
    destruct (gb_operation_alloc_response _ _); cbn;
      (split; [grown_by_two|]); (split; [reflexivity|left; reflexivity]). }
  destruct (Z.eqb_spec type GB_HID_TYPE_GET_DESC) as [Ht|Ht].
  { intros [= <-].
    destruct (get_descriptor_effect w (view (fun _ => tt) opr)) as (Hl & Hfail & Hch).
    cbn. split; [exact Hl|]. split; [|exact Hch].
    intros [E|E]; [contradiction|]. exact (Hfail E). }
  destruct (type =? GB_HID_TYPE_GET_REPORT_DESC).
  { intros [= <-].
    destruct (get_report_descriptor_effect w (view (fun _ => tt) opr)) as (Hl & Hb).
    cbn. split; [exact Hl|]. split; [intros _; exact Hb|left; exact Hb]. }
  destruct (type =? GB_HID_TYPE_PWR_ON).
  { intros [= <-].
    destruct (power_outcome power_on Call_power_on w (view (fun _ => tt) opr))
      as (_ & Hb & Hc & _).
    unfold gb_hid_power_on, gb_hid_power_off. cbn [world status relabel].
    split; [|split; [intros _; exact Hb|left; exact Hb]].
    destruct Hc as [-> | [c ->]]; grown_by_two. }
  destruct (type =? GB_HID_TYPE_PWR_OFF).
  { intros [= <-].
    destruct (power_outcome power_off Call_power_off w (view (fun _ => tt) opr))
      as (_ & Hb & Hc & _).
    unfold gb_hid_power_on, gb_hid_power_off. cbn [world status relabel].
    split; [|split; [intros _; exact Hb|left; exact Hb]].
    destruct Hc as [-> | [c ->]]; grown_by_two. }
  destruct (type =? GB_HID_TYPE_GET_REPORT).
  { destruct (gb_hid_get_report w (view as_get_report opr)) as [o|] eqn:E;
      [|discriminate].
    intros [= <-]. destruct (get_report_effect _ _ _ E) as (Hl & Hb).
    cbn. split; [exact Hl|]. split; [intros _; exact Hb|left; exact Hb]. }
  destruct (type =? GB_HID_TYPE_SET_REPORT).
  { destruct (gb_hid_set_report w (view as_set_report opr)) as [o|] eqn:E;
      [|discriminate].
    intros [= <-]. destruct (set_report_effect _ _ _ E) as (Hl & Hb).
    cbn. split; [exact Hl|]. split; [intros _; exact Hb|left; exact Hb]. }
  intros [= <-]. cbn. split; [grown_by_two|].
  split; [reflexivity|left; reflexivity].
Qed.

(** An operation type that none of the cases names is answered Invalid
    by each of the three handlers, with no response, no driver call and
    the adapter's world as it was. *)
Theorem unknown_type_is_invalid (type : Z) :
  (type <> GB_SDIO_TYPE_PROTOCOL_VERSION -> type <> GB_SDIO_TYPE_GET_CAPABILITIES ->
   type <> GB_SDIO_TYPE_SET_IOS -> type <> GB_SDIO_TYPE_COMMAND ->
   type <> GB_SDIO_TYPE_TRANSFER ->
   forall w opr, SdioDriver.gb_sdio_handler w type opr = ret GB_OP_INVALID w None) /\
  (type <> GB_HID_TYPE_PROTOCOL_VERSION -> type <> GB_HID_TYPE_GET_DESC ->
   type <> GB_HID_TYPE_GET_REPORT_DESC -> type <> GB_HID_TYPE_PWR_ON ->
   type <> GB_HID_TYPE_PWR_OFF -> type <> GB_HID_TYPE_GET_REPORT ->
   type <> GB_HID_TYPE_SET_REPORT ->
   forall w opr, gb_hid_handler w type opr = Some (ret GB_OP_INVALID w None)) /\
  (type <> GB_USB_TYPE_PROTOCOL_VERSION -> type <> GB_USB_TYPE_HCD_STOP ->
   type <> GB_USB_TYPE_HCD_START -> type <> GB_USB_TYPE_HUB_CONTROL ->
   forall w opr, UsbDriver.gb_usb_handler w type opr = ret GB_OP_INVALID w None).
Proof.
  split; [|split]; intros; 
    unfold SdioDriver.gb_sdio_handler, gb_hid_handler, UsbDriver.gb_usb_handler;
    repeat match goal with
           | E : type <> ?c |- context [type =? ?c] =>
               apply Z.eqb_neq in E; rewrite E
           end; reflexivity.
Qed.

End HidDispatch.

(** ** Further properties of the USB host adapter *)

Section UsbMore.
Import Usb UsbDriver.
Context {H : greybus_headers} {T : greybus_operation_types}.

Lemma hcd_outcome (start : bool) (w : usb_world) (op : gb_operation unit) :
  let out := if start then gb_usb_hcd_start w op else gb_usb_hcd_stop w op in
  let entry := if start then uhc_enable else uhc_disable in
  let c := if start then Call_uhc_enable else Call_uhc_disable in
  usbdev (world out) = usbdev w /\
  op_response out = None /\
  (status out = GB_OP_SUCCESS \/ status out = GB_OP_UNKNOWN_ERROR) /\
  (status out = GB_OP_SUCCESS <-> exists d, usbdev w = Some d /\ 0 <= entry d (calls w)) /\
  (usbdev w = None -> calls (world out) = calls w) /\
  (forall d, usbdev w = Some d -> calls (world out) = calls w ++ [c]).
Proof.
  destruct start; cbv zeta; unfold gb_usb_hcd_start, gb_usb_hcd_stop;
    (destruct (usbdev w) as [d|] eqn:Hd;
     [match goal with |- context [?r <? 0] => destruct (Z.ltb_spec r 0) end; cbn;
      (split; [exact Hd|]); (split; [reflexivity|]);
      [ split; [right; reflexivity|]; split;
        [split; [discriminate|intros (d' & [= <-] & E); lia]|];
        split; [discriminate|intros d' _; reflexivity]
      | split; [left; reflexivity|]; split;
        [split; [intros _; exists d; split; [reflexivity|assumption]|reflexivity]|];
        split; [discriminate|intros d' _; reflexivity] ]
     | cbn; split; [exact Hd|]; split; [reflexivity|];
       split; [right; reflexivity|]; split;
       [split; [discriminate|intros (d' & E & _); discriminate]|];
       split; [reflexivity|discriminate] ]).
Qed.

(** hcd_start and hcd_stop: without a controller they return
    UnknownError and call nothing; with one they make exactly one call
    and succeed exactly when it returns zero or more (a positive return
    counts as success), UnknownError otherwise.  They allocate no
    response and keep the controller. *)
Theorem hcd_start_stop_outcome (w : usb_world) (op : gb_operation unit) :
  (let out := gb_usb_hcd_start w op in
   usbdev (world out) = usbdev w /\
   op_response out = None /\
   (status out = GB_OP_SUCCESS \/ status out = GB_OP_UNKNOWN_ERROR) /\
   (status out = GB_OP_SUCCESS <->
    exists d, usbdev w = Some d /\ 0 <= uhc_enable d (calls w)) /\
   (usbdev w = None -> calls (world out) = calls w) /\
   (forall d, usbdev w = Some d -> calls (world out) = calls w ++ [Call_uhc_enable])) /\
  (let out := gb_usb_hcd_stop w op in
   usbdev (world out) = usbdev w /\
   op_response out = None /\
   (status out = GB_OP_SUCCESS \/ status out = GB_OP_UNKNOWN_ERROR) /\
   (status out = GB_OP_SUCCESS <->
    exists d, usbdev w = Some d /\ 0 <= uhc_disable d (calls w)) /\
   (usbdev w = None -> calls (world out) = calls w) /\
   (forall d, usbdev w = Some d -> calls (world out) = calls w ++ [Call_uhc_disable])).
Proof.
  split.
  - exact (hcd_outcome true w op).
  - exact (hcd_outcome false w op).
Qed.

Lemma uint8_t_small (v : Z) : 0 <= v < 256 -> uint8_t v = v.
Proof.
  intros Hv. unfold uint8_t. apply Z.mod_small. change (2 ^ 8) with 256. lia.
Qed.

(** The setup packet decoded from a hub_control request: the request
    type is the low byte and the request code the high byte of the
    16-bit [typeReq], so the two bytes give [typeReq] back; value, index
    and length are the 16-bit fields of the request. *)
Theorem setup_packet_splits_typeReq (request : gb_usb_hub_control_request) :
  let setup := decode_setup request in
  bmRequestType setup + 256 * bRequest setup = sys_le16_to_cpu (typeReq request) /\
  0 <= bmRequestType setup < 256 /\
  0 <= bRequest setup < 256 /\
  setup_wValue setup = sys_le16_to_cpu (wValue request) /\
  setup_wIndex setup = sys_le16_to_cpu (wIndex request) /\
  setup_wLength setup = sys_le16_to_cpu (wLength request).
Proof.
  cbv zeta. unfold decode_setup. cbn [bmRequestType bRequest setup_wValue
    setup_wIndex setup_wLength].
  set (x := sys_le16_to_cpu (typeReq request)).
  assert (Hx : 0 <= x < 65536).
  { subst x. unfold sys_le16_to_cpu, uint16_t. apply Z.mod_pos_bound. reflexivity. }
  change 0xFF with (Z.ones 8). rewrite Z.land_ones by lia.
  rewrite Z.shiftr_div_pow2 by lia. change (2 ^ 8) with 256.
  assert (0 <= x mod 256 < 256) by (apply Z.mod_pos_bound; lia).
  assert (0 <= x / 256 < 256) by (split; [apply Z.div_pos; lia|apply Z.div_lt_upper_bound; lia]).
  rewrite !uint8_t_small by assumption.
  repeat split; try lia; try reflexivity.
  pose proof (Z.div_mod x 256 ltac:(lia)). lia.
Qed.

(** [gb_usb_init] returns 0 exactly when a controller is selected and
    ready, and -ENODEV otherwise; it calls nothing.  The static
    controller handle is set to the selected device in every case, so a
    device that is not ready stays in place after the failed init. *)
Theorem usb_init_outcome (node : option (uhc_driver * bool)) (w : usb_world) :
  let r := fst (gb_usb_init node w) in
  let w1 := snd (gb_usb_init node w) in
  (r = 0 <-> exists d, node = Some (d, true)) /\
  (r = 0 \/ r = - ENODEV) /\
  usbdev w1 = option_map fst node /\
  calls w1 = calls w /\
  (forall d, node = Some (d, false) -> r = - ENODEV /\ usbdev w1 = Some d).
Proof.
  unfold gb_usb_init. destruct node as [[d ready]|]; [destruct ready|]; cbn.
  - split; [split; [intros _; exists d; reflexivity|reflexivity]|].
    split; [left; reflexivity|]. split; [reflexivity|]. split; [reflexivity|].
    discriminate.
  - split; [split; [discriminate|intros (d' & E); discriminate]|].
    split; [right; reflexivity|]. split; [reflexivity|]. split; [reflexivity|].
    intros d' [= <-]. split; reflexivity.
  - split; [split; [discriminate|intros (d' & E); discriminate]|].
    split; [right; reflexivity|]. split; [reflexivity|]. split; [reflexivity|].
    discriminate.
Qed.

(** [gb_usb_exit] disables the controller once and keeps the handle: an
    hcd_start that follows still reaches the controller. *)
Theorem usb_exit_keeps_controller (w : usb_world) (d : uhc_driver)
    (op : gb_operation unit) :
  usbdev w = Some d ->
  let w1 := gb_usb_exit w in
  usbdev w1 = Some d /\
  calls w1 = calls w ++ [Call_uhc_disable] /\
  calls (world (gb_usb_hcd_start w1 op)) =
    calls w ++ [Call_uhc_disable; Call_uhc_enable].
Proof.
  intros Hd. cbv zeta. unfold gb_usb_exit. rewrite Hd.
  split; [exact Hd|]. split; [reflexivity|].
  unfold gb_usb_hcd_start. cbn [usbdev logged]. rewrite Hd.
  destruct (_ <? 0); cbn; rewrite <- app_assoc; reflexivity.
Qed.

(** The USB handler never changes the controller handle and calls the
    controller at most once; without a controller it calls nothing. *)
Theorem usb_handler_keeps_controller (w : usb_world) (type : Z)
    (opr : gb_operation gb_usb_hub_control_request) :
  let out := gb_usb_handler w type opr in
  usbdev (world out) = usbdev w /\
  at_most_one_more (calls w) (calls (world out)) /\
  (usbdev w = None -> calls (world out) = calls w).
Proof.
  cbv zeta. unfold gb_usb_handler, at_most_one_more.
  destruct (type =? GB_USB_TYPE_PROTOCOL_VERSION).
  { unfold gb_usb_protocol_version.
    destruct (gb_operation_alloc_response _ _); cbn; repeat split; left; reflexivity. }
  destruct (type =? GB_USB_TYPE_HCD_STOP).
  { destruct (hcd_outcome false w (view (fun _ => tt) opr)) as (Hu & _ & _ & _ & Hn & Hs).
    cbn. split; [exact Hu|]. split; [|exact Hn].
    destruct (usbdev w) as [d|]; [right; eexists; exact (Hs d eq_refl)|left; exact (Hn eq_refl)]. }
  destruct (type =? GB_USB_TYPE_HCD_START).
  { destruct (hcd_outcome true w (view (fun _ => tt) opr)) as (Hu & _ & _ & _ & Hn & Hs).
    cbn. split; [exact Hu|]. split; [|exact Hn].
    destruct (usbdev w) as [d|]; [right; eexists; exact (Hs d eq_refl)|left; exact (Hn eq_refl)]. }
  destruct (type =? GB_USB_TYPE_HUB_CONTROL).
  { unfold gb_usb_hub_control. repeat (break_match; cbn); repeat split; left; reflexivity. }
  cbn. repeat split. left; reflexivity.
Qed.

End UsbMore.

Section HidPipelineRuns.
Import Hid HidSamples HidDriver.
#[local] Existing Instance reference_headers.
#[local] Existing Instance reference_operation_types.

(** A three-byte report with two messages queued, and with five. *)
Lemma callback_enqueues_or_drops_witness :
  hid_event_callback_routine (state_with_queue 2) 0 [1; 2; 3] 3 =
    (0, set_data_queue
          {| max_msgs := 5;
             msgs := [a_message; a_message; report_message (0, [1; 2; 3], 3)] |}
          (state_with_queue 2)) /\
  hid_event_callback_routine (state_with_queue 5) 0 [1; 2; 3] 3 =
    (0, state_with_queue 5).
Proof.
  destruct (callback_enqueues_or_drops (state_with_queue 2) 0 [1; 2; 3] 3
              ltac:(by_evaluation)) as (H0 & Hroom & _).
  destruct (callback_enqueues_or_drops (state_with_queue 5) 0 [1; 2; 3] 3
              ltac:(by_evaluation)) as (H1 & _ & Hfull).
  split.
  - rewrite (surjective_pairing (hid_event_callback_routine _ _ _ _)).
    rewrite H0, (Hroom ltac:(by_evaluation)). reflexivity.
  - rewrite (surjective_pairing (hid_event_callback_routine _ _ _ _)).
    rewrite H1, (Hfull ltac:(by_evaluation)). reflexivity.
Defined.

(** Three reports, the second too long, on a queue already holding
    four messages: one more fits. *)
Lemma deliver_keeps_oldest_witness :
  msgs (data_queue (deliver (state_with_queue 4)
                      [(0, [1], 1); (0, [], 300); (0, [2], 1)])) =
  [a_message; a_message; a_message; a_message; report_message (0, [1], 1)].
Proof.
  destruct (deliver_keeps_oldest [(0, [1], 1); (0, [], 300); (0, [2], 1)]
              (state_with_queue 4) ltac:(by_evaluation)) as (Hm & _).
  rewrite Hm. reflexivity.
Defined.

(** One turn on a queue of two messages, with a core that has no
    operation to give. *)
Lemma worker_turn_consumes_oldest_witness :
  exists w',
    report_proc_iteration exhausted_core
      {| worker_info := state_with_queue 2; core_calls := [] |} = Some w' /\
    msgs (data_queue (worker_info w')) = [a_message] /\
    sent_requests (core_calls w') = [].
Proof.
  destruct (worker_turn_consumes_oldest (T := reference_operation_types) exhausted_core
              {| worker_info := state_with_queue 2; core_calls := [] |}
              a_message [a_message] eq_refl)
    as (w' & Hstep & Hq & _ & _ & Hsent).
  exists w'. repeat split; assumption.
Defined.

(** Seven turns on a queue of three messages. *)
Lemma worker_drains_in_order_witness :
  let w' := report_proc_thread 7 willing_core
              {| worker_info := state_with_queue 3; core_calls := [] |} in
  msgs (data_queue (worker_info w')) = [] /\
  sent_requests (core_calls w') =
    [irq_event 2 a_message; irq_event 2 a_message; irq_event 2 a_message].
Proof.
  destruct (worker_drains_in_order (T := reference_operation_types) willing_core true 7
              {| worker_info := state_with_queue 3; core_calls := [] |}
              (fun _ _ _ _ => eq_refl) ltac:(cbn; lia))
    as (Hq & _ & Hsent).
  split; [exact Hq|exact Hsent].
Defined.

(** Two reports on a fresh adapter, then five turns. *)
Lemma reports_reach_the_core_in_order_witness :
  sent_requests
    (core_calls (report_proc_thread 5 willing_core
                   {| worker_info := deliver (state_after_init 8)
                                       [(0, [1; 2], 2); (0, [3], 1)];
                      core_calls := [] |})) =
  [{| req_cport := 2; req_type := 0x08; req_payload := [1; 2] |};
   {| req_cport := 2; req_type := 0x08; req_payload := [3] |}].
Proof.
  destruct (reports_reach_the_core_in_order (T := reference_operation_types)
              2 true true (Some (device_reporting 8)) []
              (calls (world_after_init 8)) 0 (state_after_init 8)
              [(0, [1; 2], 2); (0, [3], 1)] willing_core 5
              eq_refl (fun _ _ _ _ => eq_refl) ltac:(lia)) as [_ Hsent].
  rewrite Hsent. reflexivity.
Defined.

(** A two-byte report through an empty queue. *)
Lemma report_round_trip_witness :
  exists w',
    report_proc_iteration willing_core
      {| worker_info := snd (hid_event_callback_routine (state_with_queue 0) 0 [9; 8] 2);
         core_calls := [] |} = Some w' /\
    map req_payload (sent_requests (core_calls w')) = [[9; 8]].
Proof.
  destruct (report_round_trip (T := reference_operation_types) willing_core
              (state_with_queue 0) 0 [9; 8] 2
              ltac:(by_evaluation) eq_refl ltac:(by_evaluation) eq_refl)
    as (w' & Hstep & _ & _ & Hwhole).
  exists w'. split; [exact Hstep|]. exact (Hwhole eq_refl).
Defined.

(** Init without memory for the state, without a device, and without
    memory for the queue storage. *)
Lemma hid_init_outcome_witness :
  gb_hid_init 2 false true (Some (device_reporting 8)) [] = (- ENOMEM, None, [], false) /\
  (exists i, snd (fst (fst (gb_hid_init 2 true true None []))) = Some i /\
             report_buf_size i = 64) /\
  fst (fst (fst (gb_hid_init 2 true false (Some (device_reporting 8)) []))) = 0 /\
  snd (gb_hid_init 2 true false (Some (device_reporting 8)) []) = false.
Proof.
  destruct (hid_init_outcome 2 false true (Some (device_reporting 8)) [])
    as (_ & Hnomem & _).
  destruct (hid_init_outcome 2 true true None []) as (_ & _ & Hnodev & _).
  destruct (hid_init_outcome 2 true false (Some (device_reporting 8)) [])
    as (Hzero & _ & _ & Hstate & _).
  split; [|split; [|split]].
  - destruct (Hnomem eq_refl) as [Hr Hl]. reflexivity.
  - destruct (Hnodev eq_refl eq_refl) as (_ & _ & Hsome). exact Hsome.
  - apply Hzero. discriminate.
  - destruct (Hstate (state_after_init 8) eq_refl) as (_ & _ & _ & _ & _ & Hq).
    exact Hq.
Defined.

(** get_descriptor on the fresh adapter, then get_report_descriptor:
    63 bytes are allocated. *)
Lemma cached_length_sizes_report_descriptor_witness :
  let w1 := world (gb_hid_get_descriptor (world_after_init 8) (plain_op true)) in
  let out := gb_hid_get_report_descriptor w1 (plain_op true) in
  status out = GB_OP_SUCCESS /\ op_response out = filled 63 [].
Proof.
  destruct (cached_length_sizes_report_descriptor (H := reference_headers)
              (world_after_init 8) (plain_op true) (plain_op true) eq_refl)
    as (b & hid_info & a & f & Hb & Hp & Hf & _ & _ & Hok).
  injection Hb as <-. injection Hp as <- <-. injection Hf as <-.
  exact (Hok (fun _ => (0, [])) eq_refl eq_refl eq_refl).
Defined.

(** power_on on the fresh adapter. *)
Lemma power_passes_through_witness :
  status (gb_hid_power_on (world_after_init 8) (plain_op true)) = GB_OP_SUCCESS.
Proof.
  destruct (power_passes_through (world_after_init 8) (plain_op true))
    as ((_ & _ & _ & _ & Hon) & _).
  apply Hon. eexists. eexists. eexists. eexists.
  split; [reflexivity|]. split; [reflexivity|]. split; reflexivity.
Defined.

(** A driver that reports length 0. *)
Lemma get_report_refuses_nonpositive_length_witness :
  gb_hid_get_report (world_after_init 0) (get_report_op 1 2) =
  Some (ret GB_OP_UNKNOWN_ERROR
            (logged (Call_get_report_length 0 1) (world_after_init 0)) None).
Proof.
  apply (get_report_refuses_nonpositive_length (H := reference_headers)
           (world_after_init 0) (get_report_op 1 2)
           {| priv := Some (state_after_init 0) |} (state_after_init 0)
           (driver_reporting 0) (fun _ _ _ => 0)
           ltac:(by_evaluation) eq_refl eq_refl eq_refl ltac:(by_evaluation)).
Defined.

(** A driver that reports length 0, and one that reports 8. *)
Lemma set_report_length_guard_witness :
  gb_hid_set_report (world_after_init 0) (set_report_op 3) =
    Some (ret GB_OP_UNKNOWN_ERROR
              (logged (Call_get_report_length 1 0) (world_after_init 0)) None) /\
  exists out,
    gb_hid_set_report (world_after_init 8) (set_report_op 3) = Some out /\
    calls (world out) =
      calls (world_after_init 8) ++
      [Call_get_report_length 1 0; Call_set_report 1 0 [0x02] 8].
Proof.
  split.
  - apply (set_report_length_guard (H := reference_headers)
             (world_after_init 0) (set_report_op 3)
             {| priv := Some (state_after_init 0) |} (state_after_init 0)
             (driver_reporting 0) (fun _ _ _ => 0) (fun _ _ _ _ _ => 0)
             ltac:(by_evaluation) eq_refl eq_refl eq_refl eq_refl).
    reflexivity.
  - apply (set_report_length_guard (H := reference_headers)
             (world_after_init 8) (set_report_op 3)
             {| priv := Some (state_after_init 8) |} (state_after_init 8)
             (driver_reporting 8) (fun _ _ _ => 8) (fun _ _ _ _ _ => 0)
             ltac:(by_evaluation) eq_refl eq_refl eq_refl eq_refl).
    by_evaluation.
Defined.

(** A get_report operation leaves the bundle as it was. *)
Lemma hid_state_changes_only_by_get_descriptor_witness :
  exists out,
    gb_hid_handler (world_after_init 8) 0x06 (hid_op 1 2 true) = Some out /\
    bundle (world out) = bundle (world_after_init 8).
Proof.
  eexists. split; [reflexivity|].
  destruct (hid_state_changes_only_by_get_descriptor
              (H := reference_headers) (T := reference_operation_types)
              (world_after_init 8) 0x06 (hid_op 1 2 true) _ eq_refl)
    as (_ & Hsame & _).
  apply Hsame. left. by_evaluation.
Defined.

(** Type 0x7f on each handler. *)
Lemma unknown_type_is_invalid_witness :
  SdioDriver.gb_sdio_handler (SdioSamples.world_of SdioSamples.sdhc_stub true) 0x7f
    (SdioDriver.sdio_op 2 2 11 true)
  = ret GB_OP_INVALID (SdioSamples.world_of SdioSamples.sdhc_stub true) None /\
  gb_hid_handler (world_after_init 8) 0x7f (hid_op 1 2 true)
  = Some (ret GB_OP_INVALID (world_after_init 8) None) /\
  UsbDriver.gb_usb_handler UsbSamples.no_controller 0x7f (UsbSamples.hub_control_op 8 true)
  = ret GB_OP_INVALID UsbSamples.no_controller None.
Proof.
  destruct (unknown_type_is_invalid (H := reference_headers)
              (T := reference_operation_types) 0x7f) as (Hsdio & Hhid & Husb).
  split; [|split].
  - apply Hsdio; by_evaluation.
  - apply Hhid; by_evaluation.
  - apply Husb; by_evaluation.
Defined.

End HidPipelineRuns.

Section UsbMoreRuns.
Import Usb UsbSamples UsbDriver.
#[local] Existing Instance reference_headers.
#[local] Existing Instance reference_operation_types.

(** A controller that returns 1, one that returns -5, and none. *)
Lemma hcd_start_stop_outcome_witness :
  status (gb_usb_hcd_start (with_controller 1) (HidSamples.plain_op true)) = GB_OP_SUCCESS /\
  calls (world (gb_usb_hcd_start (with_controller 1) (HidSamples.plain_op true)))
    = [Call_uhc_enable] /\
  calls (world (gb_usb_hcd_stop no_controller (HidSamples.plain_op true))) = [].
Proof.
  destruct (hcd_start_stop_outcome (with_controller 1) (HidSamples.plain_op true))
    as ((_ & _ & _ & Hiff & _ & Hcall) & _).
  destruct (hcd_start_stop_outcome no_controller (HidSamples.plain_op true))
    as (_ & (_ & _ & _ & _ & Hnone & _)).
  split; [|split].
  - apply Hiff. eexists. split; [reflexivity|by_evaluation].
  - exact (Hcall _ eq_refl).
  - exact (Hnone eq_refl).
Defined.

(** A controller that is present and not ready. *)
Lemma usb_init_outcome_witness :
  fst (gb_usb_init (Some (controller_returning 0, false)) no_controller) = - ENODEV /\
  usbdev (snd (gb_usb_init (Some (controller_returning 0, false)) no_controller))
    = Some (controller_returning 0).
Proof.
  destruct (usb_init_outcome (Some (controller_returning 0, false)) no_controller)
    as (_ & _ & _ & _ & Hkept).
  exact (Hkept _ eq_refl).
Defined.

(** Exit, then hcd_start. *)
Lemma usb_exit_keeps_controller_witness :
  calls (world (gb_usb_hcd_start (gb_usb_exit (with_controller 0))
                  (HidSamples.plain_op true)))
  = [Call_uhc_disable; Call_uhc_enable].
Proof.
  destruct (usb_exit_keeps_controller (with_controller 0) (controller_returning 0)
              (HidSamples.plain_op true) eq_refl) as (_ & _ & Hcalls).
  exact Hcalls.
Defined.

(** hcd_start through the handler without a controller. *)
Lemma usb_handler_keeps_controller_witness :
  calls (world (gb_usb_handler no_controller 0x02 (hub_control_op 8 true))) = [].
Proof.
  destruct (usb_handler_keeps_controller (H := reference_headers)
              (T := reference_operation_types)
              no_controller 0x02 (hub_control_op 8 true)) as (_ & _ & Hnone).
  exact (Hnone eq_refl).
Defined.

End UsbMoreRuns.

(** ** A transfer repeated after a write that could not be answered *)

Section SdioRepeatedTransfer.
Import Sdio SdioSamples.
#[local] Existing Instance reference_headers.

(** C7 (the code departs from it): a write transfer on a pending
    command whose driver call succeeds and whose response cannot be
    allocated has executed the deferred command, yet returns NoMemory
    with the pending flag still set; a second transfer, with no command
    in between, is then not refused: it calls the driver again with the
    stored command and returns success. *)
Theorem transfer_runs_again_after_unanswered_write :
  let first := gb_sdio_protocol_transfer (world_of sdhc_stub true) (transfer_op 1 false) in
  let second := gb_sdio_protocol_transfer (world first) (transfer_op 1 true) in
  sizeof_gb_sdio_transfer_request <= request_payload_size (transfer_op 1 false) /\
  sizeof_gb_sdio_transfer_request <= request_payload_size (transfer_op 1 true) /\
  has_deferred_cmd (info (world_of sdhc_stub true)) = true /\
  status first = GB_OP_NO_MEMORY /\
  calls (world first) =
    [Call_request cmd17
       (Some {| block_size := 512; blocks := 1; bytes_transferred := 0;
                data := Request_data [] |})] /\
  has_deferred_cmd (info (world first)) = true /\
  status second = GB_OP_SUCCESS /\
  status second <> GB_OP_INVALID /\
  List.length (calls (world second)) = 2%nat /\
  has_deferred_cmd (info (world second)) = false.
Proof.
  cbv zeta.
  split; [by_evaluation|]. split; [by_evaluation|].
  repeat split; try reflexivity. discriminate.
Qed.

End SdioRepeatedTransfer.
